(** * mdns: record store, packet engine and query registry

    A shallow embedding of package [mdns] (github.com/riverbed-cto/mdns).
    The repository carries two parallel implementations of the same
    package:

    - the one built on github.com/miekg/dns
      (config.go with [removeARecord]/[addARecord]/[Lookup] on [dns.RR],
      conn.go with [Start]/[processQuestions]/[processAnswers]/[QuerySync]
      and its predecessor with [start]/[Query]) -- module [MdnsDns];
    - the earlier one built on golang.org/x/net/dns/dnsmessage
      (config.go with [RemoveARecord]/[AddARecord]/[Lookup] on
      [dnsmessage.Resource], conn.go with [start]/[Query]) -- module
      [MdnsMsg].

    The facade of the connection, [Server] and [QueryASync] are in module
    [ConnDns], discovery.go ([FindCatalog] and its options) in module
    [Discovery].

    Locks ([sync.RWMutex]) and logging are not modelled: every function
    below is the sequential body of the Go method.  Socket writes and
    channel sends are recorded as an effect trace. *)

From Stdlib Require Import ZArith Lia Ascii String.
From stdpp Require Import base option list strings.

Set Default Proof Using "Type".

(** ** Fragments of the Go runtime the code relies on *)
Module Go.

(** errors.go, plus [errInvalidPacket] used by the gates of conn.go. *)
Inductive err : Type :=
| errJoiningMulticastGroup
| errConnectionClosed
| errContextElapsed
| errNilConfig
| errRecordExists
| errRecordNotFound
| errInvalidParameter
| errInvalidPacket
| errCalcLen.   (* dnsmessage.NewName: name longer than 255 bytes *)

(** A Go [error] value; [nil] is [None]. *)
Definition error : Type := option err.
Definition nil : error := None.

(** Run-time panics. Only slice indexing can panic in the modelled code. *)
Inductive panic : Type :=
| IndexOutOfRange (index len : nat).

(** Outcome of a call: it returns, the goroutine panics, or the call
    has not returned within the recursion depth it was given. *)
Inductive exec (A : Type) : Type :=
| Returns (a : A)
| Panics (p : panic)
| OutOfFuel.
Arguments Returns {A} a.
Arguments Panics {A} p.
Arguments OutOfFuel {A}.

Definition bind {A B} (m : exec A) (k : A -> exec B) : exec B :=
  match m with
  | Returns a => k a
  | Panics p => Panics p
  | OutOfFuel => OutOfFuel
  end.

(** [s[i]] on a slice of length [len s]: panics out of range. *)
Definition index {A} (s : list A) (i : nat) : exec A :=
  match s !! i with
  | Some x => Returns x
  | None => Panics (IndexOutOfRange i (length s))
  end.

(** [net.IP] is a byte slice; the nil IP is the empty list. *)
Definition IP : Type := list Z.

(** [net.Addr], identified with its [String()] form ("host:port"). *)
Definition Addr : Type := string.

(** [strings.ToLower] on ASCII. *)
Definition lower_ascii (a : ascii) : ascii :=
  let n := nat_of_ascii a in
  if (65 <=? n)%nat && (n <=? 90)%nat then ascii_of_nat (n + 32) else a.

Fixpoint ToLower (s : string) : string :=
  match s with
  | EmptyString => EmptyString
  | String a s' => String (lower_ascii a) (ToLower s')
  end.

(** [strings.HasSuffix(s, ".")]. *)
Fixpoint HasDotSuffix (s : string) : bool :=
  match s with
  | EmptyString => false
  | String a EmptyString => Ascii.eqb a "."
  | String _ s' => HasDotSuffix s'
  end.

End Go.

#[global] Instance exec_ret : MRet Go.exec := @Go.Returns.
#[global] Instance exec_bind : MBind Go.exec := fun A B k m => Go.bind m k.

(** ** What the package takes from outside its own files *)

(** Modelled from the spec: [addDot] is called by [addARecord],
    [addSRVRecord], [Query], [QuerySync] and [QueryASync] but its
    definition is not among the files.  The spec (4.2): "Canonicalize name
    (append '.' if missing, lowercase)". *)
Definition addDot (name : string) : string :=
  Go.ToLower (if Go.HasDotSuffix name then name else name +:+ ".").

(** The helpers [interfaceForRemote] (the interface resolver) and
    [ipToBytes] are absent from the files; the code only passes their
    results on, so they are taken as given. *)
Class Util : Type := {
  interfaceForRemote : string -> Go.IP + Go.err;
  ipToBytes : Go.IP -> list Z
}.

(** The wire codec of github.com/miekg/dns: [dns.IsMsg], [Msg.Unpack]
    and [Msg.Pack], as functions of the datagram and of the message. *)
Class WireCodec (Msg : Type) : Type := {
  IsMsg : list Z -> Go.error;
  Unpack : list Z -> Msg + Go.err;
  Pack : Msg -> list Z + Go.err
}.

(** ** github.com/miekg/dns: the types and the two helpers that are used *)
Module dns.

Definition TypeA : Z := 1.
Definition TypeSRV : Z := 33.
Definition TypeAAAA : Z := 28.
Definition ClassINET : Z := 1.
Definition OpcodeQuery : Z := 0.

Record RR_Header : Type := {
  Name : string;
  Rrtype : Z; Class : Z;
  Ttl : Z;
  Rdlength : Z
}.

Record A : Type := { A_Hdr : RR_Header; A_A : Go.IP }.

Record SRV : Type := {
  SRV_Hdr : RR_Header;
  Priority : Z;
  Weight : Z;
  Port : Z;
  Target : string
}.

Record Question : Type := { Q_Name : string; Qtype : Z; Qclass : Z }.

Record MsgHdr : Type := {
  Id : Z;
  Response : bool;
  Opcode : Z;
  Authoritative : bool;
  Truncated : bool;
  RecursionDesired : bool;
  Rcode : Z
}.

(** [dns.Msg]; [RR] is the universe of dynamic types behind the
    [dns.RR] interface.  The field [Question] is spelled [Questions] here,
    [Question] being the type of its elements. *)
Record Msg (RR : Type) : Type := {
  Hdr : MsgHdr;
  Compress : bool;
  Questions : list Question;
  Answer : list RR;
  Ns : list RR;
  Extra : list RR
}.
Arguments Hdr {RR} _.
Arguments Compress {RR} _.
Arguments Questions {RR} _.
Arguments Answer {RR} _.
Arguments Ns {RR} _.
Arguments Extra {RR} _.

(** [new(dns.Msg)]: every field at its zero value. *)
Definition zeroHdr : MsgHdr :=
  {| Id := 0; Response := false; Opcode := 0; Authoritative := false;
     Truncated := false; RecursionDesired := false; Rcode := 0 |}.

Definition newMsg {RR} : Msg RR :=
  {| Hdr := zeroHdr; Compress := false; Questions := [];
     Answer := []; Ns := []; Extra := [] |}.

(** [Msg.SetQuestion(z, t)]: "creates a question message, it sets the
    Question section, generates an Id and sets the RecursionDesired (RD)
    bit to true".  [id] is the value [dns.Id()] returned for this call. *)
Definition SetQuestion {RR} (id : Z) (m : Msg RR) (z : string) (t : Z) : Msg RR :=
  {| Hdr := {| Id := id; Response := Response (Hdr m); Opcode := Opcode (Hdr m);
               Authoritative := Authoritative (Hdr m);
               Truncated := Truncated (Hdr m);
               RecursionDesired := true; Rcode := Rcode (Hdr m) |};
     Compress := Compress m;
     Questions := [ {| Q_Name := z; Qtype := t; Qclass := ClassINET |} ];
     Answer := Answer m; Ns := Ns m; Extra := Extra m |}.

End dns.

(** ** Package mdns on github.com/miekg/dns *)
Module MdnsDns.
Import Go dns.

Definition responseTTL : Z := 10.
Definition maxMessageRecords : nat := 3.
Definition maxQueryMessageRecords : nat := 1.

(** *** config.go *)

(** [DynamicARR]: an A record that may take its address from the source
    of the packet. *)
Record DynamicARR : Type := { A_ : A; Dynamic : bool }.

Record Config : Type := {
  QueryInterval : Z;
  ARecords : list DynamicARR;
  SRVRecords : list SRV
}.

Definition emptyConfig : Config :=
  {| QueryInterval := 0; ARecords := []; SRVRecords := [] |}.

Definition setARecords (c : Config) (l : list DynamicARR) : Config :=
  {| QueryInterval := QueryInterval c; ARecords := l; SRVRecords := SRVRecords c |}.

Definition setSRVRecords (c : Config) (l : list SRV) : Config :=
  {| QueryInterval := QueryInterval c; ARecords := ARecords c; SRVRecords := l |}.

(** [rec.Header().Name] *)
Definition AName (r : DynamicARR) : string := Name (A_Hdr (A_ r)).
Definition SRVName (r : SRV) : string := Name (SRV_Hdr r).

(** The loop of [removeARecord]: [for i := len-1; i >= 0; i--], entered
    with [k = i + 1].  On a match the new slice is
    [append(c.ARecords[:i], c.ARecords[i+1])]: the single element at
    [i+1] is appended, and indexing it panics when [i] is the last index.
    [None] is the fall-through to [return errRecordNotFound]. *)
Fixpoint removeARecord_loop (name : string) (recs : list DynamicARR) (k : nat)
  : exec (option (list DynamicARR)) :=
  match k with
  | O => Returns None
  | S i =>
      r ← index recs i;
      if String.eqb (AName r) name then
        nxt ← index recs (i + 1);
        Returns (Some (take i recs ++ [nxt]))
      else removeARecord_loop name recs i
  end.

Definition removeARecord (name : string) (c : Config) : exec (Config * error) :=
  o ← removeARecord_loop name (ARecords c) (length (ARecords c));
  match o with
  | Some recs' => Returns (setARecords c recs', nil)
  | None => Returns (c, Some errRecordNotFound)
  end.

Fixpoint removeSRVRecord_loop (name : string) (recs : list SRV) (k : nat)
  : exec (option (list SRV)) :=
  match k with
  | O => Returns None
  | S i =>
      r ← index recs i;
      if String.eqb (SRVName r) name then
        nxt ← index recs (i + 1);
        Returns (Some (take i recs ++ [nxt]))
      else removeSRVRecord_loop name recs i
  end.

Definition removeSRVRecord (name : string) (c : Config) : exec (Config * error) :=
  o ← removeSRVRecord_loop name (SRVRecords c) (length (SRVRecords c));
  match o with
  | Some recs' => Returns (setSRVRecords c recs', nil)
  | None => Returns (c, Some errRecordNotFound)
  end.

Definition createSimpleARecord (name : string) : DynamicARR * error :=
  ({| A_ := {| A_Hdr := {| Name := name; Rrtype := TypeA; Class := ClassINET;
                            Ttl := responseTTL; Rdlength := 0 |};
               A_A := [] |};
      Dynamic := false |}, nil).

(** The header literal sets [Name], [Rrtype] and [Class]; [Ttl] is left
    at its zero value. *)
Definition createSRVRecord (name : string) (priority weight port : Z)
    (target : string) : SRV * error :=
  ({| SRV_Hdr := {| Name := name; Rrtype := TypeSRV; Class := ClassINET;
                    Ttl := 0; Rdlength := 0 |};
      Priority := priority; Weight := weight; Port := port;
      Target := target |}, nil).

(** [addARecordToConfig]: the same downward scan; [true] when a record
    of that name is already there. *)
Fixpoint addARecordToConfig_loop (name : string) (recs : list DynamicARR) (k : nat)
  : exec bool :=
  match k with
  | O => Returns false
  | S i =>
      r ← index recs i;
      if String.eqb (AName r) name then Returns true
      else addARecordToConfig_loop name recs i
  end.

Definition addARecordToConfig (rec : DynamicARR) (c : Config) : exec (Config * error) :=
  dup ← addARecordToConfig_loop (AName rec) (ARecords c) (length (ARecords c));
  if (dup : bool) then Returns (c, Some errRecordExists)
  else Returns (setARecords c (ARecords c ++ [rec]), nil).

Fixpoint addSRVRecordToConfig_loop (name : string) (recs : list SRV) (k : nat)
  : exec bool :=
  match k with
  | O => Returns false
  | S i =>
      r ← index recs i;
      if String.eqb (SRVName r) name then Returns true
      else addSRVRecordToConfig_loop name recs i
  end.

Definition addSRVRecordToConfig (rec : SRV) (c : Config) : exec (Config * error) :=
  dup ← addSRVRecordToConfig_loop (SRVName rec) (SRVRecords c) (length (SRVRecords c));
  if (dup : bool) then Returns (c, Some errRecordExists)
  else Returns (setSRVRecords c (SRVRecords c ++ [rec]), nil).

Definition setName (r : DynamicARR) (name : string) : DynamicARR :=
  {| A_ := {| A_Hdr := {| Name := name; Rrtype := Rrtype (A_Hdr (A_ r));
                          Ttl := Ttl (A_Hdr (A_ r)); Class := Class (A_Hdr (A_ r));
                          Rdlength := Rdlength (A_Hdr (A_ r)) |};
              A_A := A_A (A_ r) |};
     Dynamic := Dynamic r |}.

Definition setIP (r : DynamicARR) (ip : IP) : DynamicARR :=
  {| A_ := {| A_Hdr := A_Hdr (A_ r); A_A := ip |}; Dynamic := Dynamic r |}.

Definition setDynamic (r : DynamicARR) (b : bool) : DynamicARR :=
  {| A_ := A_ r; Dynamic := b |}.

(** [addARecord(name, dst, dyn)]; [dst : *net.IP] is [None] for nil. *)
Definition addARecord (name : string) (dst : option IP) (dyn : bool) (c : Config)
  : exec (Config * error) :=
  if String.eqb name EmptyString then Returns (c, Some errInvalidParameter)
  else
    let name := addDot name in
    match createSimpleARecord name with
    | (_, Some e) => Returns (c, Some e)
    | (rec, None) =>
        let rec :=
          match negb dyn, dst with
          | true, Some ip => setDynamic (setIP (setName rec name) ip) false
          | _, _ => setDynamic rec true
          end in
        addARecordToConfig rec c
    end.

Definition addSRVRecord (name : string) (priority weight port : Z) (target : string)
    (c : Config) : exec (Config * error) :=
  if String.eqb name EmptyString || String.eqb target EmptyString then Returns (c, Some errInvalidParameter)
  else
    let name := addDot name in
    let target := addDot target in
    match createSRVRecord name priority weight port target with
    | (_, Some e) => Returns (c, Some e)
    | (rec, None) => addSRVRecordToConfig rec c
    end.

(** [lookupA]: the first record of that name, as a copy. *)
Fixpoint lookupA_range (recs : list DynamicARR) (qName : string) : option DynamicARR :=
  match recs with
  | [] => None
  | aRec :: rest =>
      if String.eqb (AName aRec) qName then Some aRec
      else lookupA_range rest qName
  end.

Definition lookupA (c : Config) (qName : string) : option DynamicARR :=
  lookupA_range (ARecords c) qName.

Fixpoint lookupSRV_range (recs : list SRV) (qName : string) : option SRV :=
  match recs with
  | [] => None
  | srvRec :: rest =>
      if String.eqb (SRVName srvRec) qName then Some srvRec
      else lookupSRV_range rest qName
  end.

Definition lookupSRV (c : Config) (qName : string) : option SRV :=
  lookupSRV_range (SRVRecords c) qName.

(** [AddDynamicIP]: any resolver failure becomes [errInvalidParameter]. *)
Definition AddDynamicIP `{Util} (d : DynamicARR) (src : Addr) : DynamicARR * error :=
  match interfaceForRemote src with
  | inr _ => (d, Some errInvalidParameter)
  | inl dst => (setIP d dst, nil)
  end.

(** The dynamic types the package stores behind [dns.RR]: its own
    [*DynamicARR] (which embeds [dns.A]), and what the decoder yields. *)
Inductive RR : Type :=
| RR_DynamicARR (r : DynamicARR)
| RR_A (a : A)
| RR_SRV (s : SRV)
| RR_Other (h : RR_Header).

Definition Header (rr : RR) : RR_Header :=
  match rr with
  | RR_DynamicARR r => A_Hdr (A_ r)
  | RR_A a => A_Hdr a
  | RR_SRV s => SRV_Hdr s
  | RR_Other h => h
  end.

(** What one call of [Lookup] leaves behind: the slice behind [answers],
    the returned error, and (for the proofs) the questions [Lookup] was
    entered with, this call first. *)
Record LookupResult : Type := {
  answers : list RR;
  err : error;
  calls : list Question
}.

(** [Lookup(answers, q, src)].  The method calls itself in the SRV case;
    [fuel] bounds the depth of that recursion. *)
Fixpoint Lookup `{Util} (fuel : nat) (c : Config) (answers : list RR)
    (q : Question) (src : Addr) : exec LookupResult :=
  match fuel with
  | O => OutOfFuel
  | S fuel' =>
      if Z.eqb (Qtype q) TypeA then
        match lookupA c (Q_Name q) with
        | Some rec =>
            if Dynamic rec then
              match AddDynamicIP rec src with
              | (_, Some e) =>
                  Returns {| answers := answers; err := Some e; calls := [q] |}
              | (rec', None) =>
                  Returns {| answers := answers ++ [RR_DynamicARR rec'];
                             err := nil; calls := [q] |}
              end
            else
              Returns {| answers := answers ++ [RR_DynamicARR rec];
                         err := nil; calls := [q] |}
        | None => Returns {| answers := answers; err := nil; calls := [q] |}
        end
      else if Z.eqb (Qtype q) TypeSRV then
        match lookupSRV c (Q_Name q) with
        | Some rec =>
            let newQ := {| Q_Name := Target rec; Qtype := TypeA;
                           Qclass := Class (SRV_Hdr rec) |} in
            let answers := answers ++ [RR_SRV rec] in
            r ← Lookup fuel' c answers newQ src;
            Returns {| answers := r.(MdnsDns.answers); err := r.(MdnsDns.err);
                       calls := q :: r.(MdnsDns.calls) |}
        | None => Returns {| answers := answers; err := nil; calls := [q] |}
        end
      else Returns {| answers := answers; err := nil; calls := [q] |}
  end.

(** *** conn.go *)

(** A channel value is its identity; [make(chan queryResult, 1)] draws a
    fresh one. *)
Record query : Type := {
  ttype : Z;
  nameWithSuffix : string;
  queryResultChan : nat
}.

Record QueryResult : Type := { answer : list RR; addr : Addr }.

Record Conn : Type := {
  config : Config;
  dstAddr : Addr;
  queryInterval : Z;
  queries : list query;
  closed : bool;      (* the channel [closed] has been closed *)
  nextChan : nat      (* allocator behind [make(chan ...)] *)
}.

Definition setQueries (c : Conn) (qs : list query) : Conn :=
  {| config := config c; dstAddr := dstAddr c; queryInterval := queryInterval c;
     queries := qs; closed := closed c; nextChan := nextChan c |}.

Definition setClosed (c : Conn) : Conn :=
  {| config := config c; dstAddr := dstAddr c; queryInterval := queryInterval c;
     queries := queries c; closed := true; nextChan := nextChan c |}.

Definition makeChan (c : Conn) : nat * Conn :=
  (nextChan c,
   {| config := config c; dstAddr := dstAddr c; queryInterval := queryInterval c;
      queries := queries c; closed := closed c; nextChan := S (nextChan c) |}).

(** What a call does to the world outside the connection. *)
Inductive effect : Type :=
| WriteTo (raw : list Z) (dst : Addr)   (* c.socket.WriteTo(raw, nil, c.dstAddr) *)
| ChanSend (ch : nat) (r : QueryResult) (* ch <- r *)
| NewTicker (d : Z)                     (* time.NewTicker(d) *)
| TickerStop.                           (* ticker.Stop() *)

Definition createAnswerMessage (q : Msg RR) (answer : list RR) : Msg RR :=
  {| Hdr := {| Id := Id (Hdr q); Response := true; Opcode := OpcodeQuery;
               Authoritative := true; Truncated := false;
               RecursionDesired := false; Rcode := 0 |};
     Compress := true;
     Questions := []; Answer := answer; Ns := []; Extra := [] |}.

(** [sendAnswer]: nothing is written when [Pack] fails; a failed write is
    only logged. *)
Definition sendAnswer `{WireCodec (Msg RR)} (c : Conn) (msg : Msg RR) (src : Addr)
  : list effect :=
  match Pack msg with
  | inr _ => []
  | inl rawAnswer => [WriteTo rawAnswer (dstAddr c)]
  end.

(** [processQuestions]: [for _, q := range msg.Question]. *)
Fixpoint processQuestions_range `{Util} `{WireCodec (Msg RR)} (fuel : nat) (c : Conn)
    (msg : Msg RR) (src : Addr) (qs : list Question) : exec (list effect) :=
  match qs with
  | [] => Returns []
  | q :: rest =>
      r ← Lookup fuel (config c) [] q src;
      let es :=
        match err r with
        | None => sendAnswer c (createAnswerMessage msg (answers r)) src
        | Some _ => []
        end in
      es' ← processQuestions_range fuel c msg src rest;
      Returns (es ++ es')
  end.

Definition processQuestions `{Util} `{WireCodec (Msg RR)} (fuel : nat) (c : Conn)
    (msg : Msg RR) (src : Addr) : exec (list effect) :=
  processQuestions_range fuel c msg src (Questions msg).

(** [append(c.queries[:i], c.queries[i+1:]...)] *)
Definition removeQuery (qs : list query) (i : nat) : list query :=
  take i qs ++ drop (i + 1) qs.

(** [c.queries[i].nameWithSuffix == rr.Header().Name &&
     c.queries[i].ttype == rr.Header().Rrtype] *)
Definition queryMatches (q : query) (name : string) (rrtype : Z) : bool :=
  String.eqb (nameWithSuffix q) name && Z.eqb (ttype q) rrtype.

(** The scan of the registry for one answer header:
    [for i := len(c.queries) - 1; i >= 0; i--], entered with [k = i + 1]. *)
Fixpoint deliver (name : string) (rrtype : Z) (res : QueryResult)
    (qs : list query) (k : nat) : exec (list query * list effect) :=
  match k with
  | O => Returns (qs, [])
  | S i =>
      q ← index qs i;
      if queryMatches q name rrtype then
        '(qs', es) ← deliver name rrtype res (removeQuery qs i) i;
        Returns (qs', ChanSend (queryResultChan q) res :: es)
      else deliver name rrtype res qs i
  end.

(** [processAnswers]: [for _, a := range msg.Answer] with the type switch
    on [*dns.A] and [*dns.SRV]. *)
Fixpoint processAnswers_range (msg : Msg RR) (src : Addr) (rrs : list RR)
    (qs : list query) : exec (list query * list effect) :=
  match rrs with
  | [] => Returns (qs, [])
  | a :: rest =>
      '(qs1, es1) ←
        match a with
        | RR_A rr =>
            deliver (Name (A_Hdr rr)) (Rrtype (A_Hdr rr))
                    {| answer := Answer msg; addr := src |} qs (length qs)
        | RR_SRV rr =>
            deliver (Name (SRV_Hdr rr)) (Rrtype (SRV_Hdr rr))
                    {| answer := Answer msg; addr := src |} qs (length qs)
        | _ => Returns (qs, [])
        end;
      '(qs2, es2) ← processAnswers_range msg src rest qs1;
      Returns (qs2, es1 ++ es2)
  end.

Definition processAnswers (c : Conn) (msg : Msg RR) (src : Addr)
  : exec (Conn * list effect) :=
  '(qs, es) ← processAnswers_range msg src (Answer msg) (queries c);
  Returns (setQueries c qs, es).

(** The body of [case p := <-queue] in [Start]: header check, decode,
    the three gates, then questions and answers. *)
Definition Start_packet `{Util} `{WireCodec (Msg RR)} (fuel : nat) (c : Conn)
    (buf : list Z) (src : Addr) : exec (Conn * list effect) :=
  match IsMsg buf with
  | Some _ => Returns (c, [])
  | None =>
      match Unpack buf with
      | inr _ => Returns (c, [])
      | inl msg =>
          if negb (Z.eqb (Opcode (Hdr msg)) OpcodeQuery) then Returns (c, [])
          else if negb (Z.eqb (Rcode (Hdr msg)) 0) then Returns (c, [])
          else if Truncated (Hdr msg) then Returns (c, [])
          else
            es1 ← processQuestions fuel c msg src;
            '(c', es2) ← processAnswers c msg src;
            Returns (c', es1 ++ es2)
      end
  end.

(** What the processing goroutine of [Start] can select on. *)
Inductive event : Type :=
| Packet (buf : list Z) (src : Addr)  (* a datagram the reader queued *)
| CtxDone.                            (* <-c.ctx.Done() *)

(** [Start]: the [for { select { ... } }] of the processing goroutine
    over the events in the order they are selected; the reader goroutine
    queues a datagram only when [n > 0]. *)
Fixpoint Start `{Util} `{WireCodec (Msg RR)} (fuel : nat) (c : Conn)
    (evs : list event) : exec (Conn * list effect) :=
  match evs with
  | [] => Returns (c, [])
  | CtxDone :: _ => Returns (setClosed c, [])
  | Packet buf src :: rest =>
      '(c1, es1) ←
        (if (0 <? length buf)%nat then Start_packet fuel c buf src
         else Returns (c, []));
      '(c2, es2) ← Start fuel c1 rest;
      Returns (c2, es1 ++ es2)
  end.

(** The earlier [start] reads and processes in one goroutine; its body
    has the same checks and the same two loops, written inline. *)
Definition start_packet `{Util} `{WireCodec (Msg RR)} (fuel : nat) (c : Conn)
    (buf : list Z) (src : Addr) : exec (Conn * list effect) :=
  match IsMsg buf with
  | Some _ => Returns (c, [])
  | None =>
      match Unpack buf with
      | inr _ => Returns (c, [])
      | inl msg =>
          if negb (Z.eqb (Opcode (Hdr msg)) OpcodeQuery) then Returns (c, [])
          else if negb (Z.eqb (Rcode (Hdr msg)) 0) then Returns (c, [])
          else if Truncated (Hdr msg) then Returns (c, [])
          else
            es1 ← processQuestions_range fuel c msg src (Questions msg);
            '(qs, es2) ← processAnswers_range msg src (Answer msg) (queries c);
            Returns (setQueries c qs, es1 ++ es2)
      end
  end.

(** What [c.socket.ReadFrom] returns to [start]. *)
Inductive read : Type :=
| Read (buf : list Z) (src : Addr)
| ReadError.

Fixpoint start `{Util} `{WireCodec (Msg RR)} (fuel : nat) (c : Conn)
    (rs : list read) : exec (Conn * list effect) :=
  match rs with
  | [] => Returns (c, [])
  | ReadError :: _ => Returns (setClosed c, [])
  | Read buf src :: rest =>
      '(c1, es1) ← start_packet fuel c buf src;
      '(c2, es2) ← start fuel c1 rest;
      Returns (c2, es1 ++ es2)
  end.

(** The message [sendQuestion] builds before packing it. *)
Definition questionMsg (id : Z) (name : string) (ttype : Z) : Msg RR :=
  let msg := SetQuestion id newMsg name ttype in
  {| Hdr := {| Id := Id (Hdr msg); Response := Response (Hdr msg);
               Opcode := Opcode (Hdr msg);
               Authoritative := Authoritative (Hdr msg);
               Truncated := Truncated (Hdr msg);
               RecursionDesired := true; Rcode := Rcode (Hdr msg) |};
     Compress := Compress msg; Questions := Questions msg;
     Answer := Answer msg; Ns := Ns msg; Extra := Extra msg |}.

Definition sendQuestion `{WireCodec (Msg RR)} (id : Z) (c : Conn) (name : string)
    (ttype : Z) : list effect :=
  match Pack (questionMsg id name ttype) with
  | inr _ => []
  | inl rawQuery => [WriteTo rawQuery (dstAddr c)]
  end.

(** The cases of the [select] in [Query]/[QuerySync], in the order they
    fire.  A tick carries the id [dns.Id()] gives the retransmission. *)
Inductive select_case : Type :=
| Tick (id : Z)                 (* <-ticker.C *)
| ClosedFired                   (* <-c.closed *)
| ResultRecv (res : QueryResult)(* res := <-queryChan *)
| CtxDoneFired.                 (* <-ctx.Done() *)

Inductive outcome : Type :=
| Answered (res : QueryResult)
| Failed (e : Go.err)
| Blocked.                      (* still waiting in the select *)

Fixpoint Query_select `{WireCodec (Msg RR)} (c : Conn) (name : string) (ttype : Z)
    (evs : list select_case) : list effect * outcome :=
  match evs with
  | [] => ([], Blocked)
  | Tick id :: rest =>
      let es := sendQuestion id c name ttype in
      let '(es', o) := Query_select c name ttype rest in
      (es ++ es', o)
  | ClosedFired :: _ => ([], Failed errConnectionClosed)
  | ResultRecv res :: _ => ([], Answered res)
  | CtxDoneFired :: _ => ([], Failed errContextElapsed)
  end.

(** [Query] (and [QuerySync], which differs in the shape of the returned
    value only).  [id] is the id of the first transmission. *)
Definition Query `{WireCodec (Msg RR)} (id : Z) (c : Conn) (name : string) (ttype : Z)
    (evs : list select_case) : Conn * list effect * outcome :=
  if closed c then (c, [], Failed errConnectionClosed)
  else
    let name := addDot name in
    let '(queryChan, c) := makeChan c in
    let c := setQueries c (queries c ++
               [{| ttype := ttype; nameWithSuffix := name;
                   queryResultChan := queryChan |}]) in
    let es0 := NewTicker (queryInterval c) :: sendQuestion id c name ttype in
    let '(es, o) := Query_select c name ttype evs in
    (c, es0 ++ es, o).

Definition QuerySync `{WireCodec (Msg RR)} := Query.

End MdnsDns.

(** ** golang.org/x/net/dns/dnsmessage: the types that are used *)
Module dnsmessage.

Definition TypeA : Z := 1.
Definition TypeSRV : Z := 33.
Definition TypeAAAA : Z := 28.
Definition ClassINET : Z := 1.
Definition nameLen : nat := 255.

(** A [Name] is kept as its [String()] form; [NewName] refuses a string
    longer than [nameLen]. *)
Definition Name : Type := string.

Definition NewName (name : string) : Name + Go.err :=
  if (nameLen <? String.length name)%nat then inr Go.errCalcLen else inl name.

Record ResourceHeader : Type := {
  RH_Name : Name;
  RH_Type : Z;
  RH_Class : Z;
  TTL : Z;
  Length : Z
}.

Inductive ResourceBody : Type :=
| AResource (A : list Z)
| SRVResource (Priority Weight Port : Z) (Target : Name).

(** [Body] is an interface value; [None] is nil. *)
Record Resource : Type := { R_Header : ResourceHeader; R_Body : option ResourceBody }.

Record Header : Type := {
  ID : Z;
  Response : bool;
  OpCode : Z;
  Authoritative : bool;
  Truncated : bool;
  RecursionDesired : bool;
  RecursionAvailable : bool;
  RCode : Z
}.

Definition zeroHeader : Header :=
  {| ID := 0; Response := false; OpCode := 0; Authoritative := false;
     Truncated := false; RecursionDesired := false;
     RecursionAvailable := false; RCode := 0 |}.

Record Question : Type := { Q_Name : Name; Q_Type : Z; Q_Class : Z }.

Record Message : Type := {
  M_Header : Header;
  Questions : list Question;
  Answers : list Resource;
  Authorities : list Resource;
  Additionals : list Resource
}.

(** What a section reader of [Parser] returns besides a value. *)
Inductive perr : Type :=
| ErrSectionDone
| ErrParse.

End dnsmessage.

(** [dnsmessage.Parser] and [Message.Pack]: [Start] on the datagram, then
    the stateful readers [Question] and [AnswerHeader]. *)
Class ParserLib (Parser : Type) : Type := {
  Parser_Start : list Z -> (Parser * dnsmessage.Header) + Go.err;
  Parser_Question : Parser -> Parser * (dnsmessage.Question + dnsmessage.perr);
  Parser_AnswerHeader :
    Parser -> Parser * (dnsmessage.ResourceHeader + dnsmessage.perr);
  Message_Pack : dnsmessage.Message -> list Z + Go.err
}.

(** ** Package mdns on golang.org/x/net/dns/dnsmessage *)
Module MdnsMsg.
Import Go dnsmessage.

Definition responseTTL : Z := 10.
Definition maxMessageRecords : nat := 3.
Definition maxQueryMessageRecords : nat := 1.

(** *** config.go *)

Record DynamicARecord : Type := { Resource_ : Resource; Dynamic : bool }.

Record Config : Type := {
  QueryInterval : Z;
  ARecords : list DynamicARecord;
  SRVRecords : list Resource
}.

Definition emptyConfig : Config :=
  {| QueryInterval := 0; ARecords := []; SRVRecords := [] |}.

Definition setARecords (c : Config) (l : list DynamicARecord) : Config :=
  {| QueryInterval := QueryInterval c; ARecords := l; SRVRecords := SRVRecords c |}.

Definition setSRVRecords (c : Config) (l : list Resource) : Config :=
  {| QueryInterval := QueryInterval c; ARecords := ARecords c; SRVRecords := l |}.

(** [rec.Header.Name.String()] *)
Definition AName (r : DynamicARecord) : string := RH_Name (R_Header (Resource_ r)).
Definition SRVName (r : Resource) : string := RH_Name (R_Header r).

Fixpoint RemoveARecord_loop (name : string) (recs : list DynamicARecord) (k : nat)
  : exec (option (list DynamicARecord)) :=
  match k with
  | O => Returns None
  | S i =>
      r ← index recs i;
      if String.eqb (AName r) name then
        nxt ← index recs (i + 1);
        Returns (Some (take i recs ++ [nxt]))
      else RemoveARecord_loop name recs i
  end.

Definition RemoveARecord (name : string) (c : Config) : exec (Config * error) :=
  o ← RemoveARecord_loop name (ARecords c) (length (ARecords c));
  match o with
  | Some recs' => Returns (setARecords c recs', nil)
  | None => Returns (c, Some errRecordNotFound)
  end.

Fixpoint RemoveSRVRecord_loop (name : string) (recs : list Resource) (k : nat)
  : exec (option (list Resource)) :=
  match k with
  | O => Returns None
  | S i =>
      r ← index recs i;
      if String.eqb (SRVName r) name then
        nxt ← index recs (i + 1);
        Returns (Some (take i recs ++ [nxt]))
      else RemoveSRVRecord_loop name recs i
  end.

Definition RemoveSRVRecord (name : string) (c : Config) : exec (Config * error) :=
  o ← RemoveSRVRecord_loop name (SRVRecords c) (length (SRVRecords c));
  match o with
  | Some recs' => Returns (setSRVRecords c recs', nil)
  | None => Returns (c, Some errRecordNotFound)
  end.

Definition createSimpleARecord (name : string) : option DynamicARecord * error :=
  match NewName name with
  | inr e => (None, Some e)
  | inl packedName =>
      (Some {| Resource_ :=
                 {| R_Header := {| RH_Name := packedName; RH_Type := TypeA;
                                 RH_Class := ClassINET; TTL := responseTTL;
                                 Length := 0 |};
                    R_Body := None |};
               Dynamic := false |}, nil)
  end.

(** The header literal of the SRV record says [Type: dnsmessage.TypeA]. *)
Definition createSRVRecord (name : string) (priority weight port : Z)
    (target : string) : option Resource * error :=
  match NewName name with
  | inr e => (None, Some e)
  | inl packedName =>
      match NewName target with
      | inr e => (None, Some e)
      | inl packedTarget =>
          (Some {| R_Header := {| RH_Name := packedName; RH_Type := TypeA;
                                RH_Class := ClassINET; TTL := responseTTL;
                                Length := 0 |};
                   R_Body := Some (SRVResource priority weight port packedTarget) |},
           nil)
      end
  end.

Fixpoint addARecordToConfig_loop (name : string) (recs : list DynamicARecord)
    (k : nat) : exec bool :=
  match k with
  | O => Returns false
  | S i =>
      r ← index recs i;
      if String.eqb (AName r) name then Returns true
      else addARecordToConfig_loop name recs i
  end.

Definition addARecordToConfig (rec : DynamicARecord) (c : Config)
  : exec (Config * error) :=
  dup ← addARecordToConfig_loop (AName rec) (ARecords c) (length (ARecords c));
  if (dup : bool) then Returns (c, Some errRecordExists)
  else Returns (setARecords c (ARecords c ++ [rec]), nil).

Fixpoint addSRVRecordToConfig_loop (name : string) (recs : list Resource)
    (k : nat) : exec bool :=
  match k with
  | O => Returns false
  | S i =>
      r ← index recs i;
      if String.eqb (SRVName r) name then Returns true
      else addSRVRecordToConfig_loop name recs i
  end.

Definition addSRVRecordToConfig (rec : Resource) (c : Config)
  : exec (Config * error) :=
  dup ← addSRVRecordToConfig_loop (SRVName rec) (SRVRecords c) (length (SRVRecords c));
  if (dup : bool) then Returns (c, Some errRecordExists)
  else Returns (setSRVRecords c (SRVRecords c ++ [rec]), nil).

Definition setBody (r : DynamicARecord) (b : option ResourceBody) : DynamicARecord :=
  {| Resource_ := {| R_Header := R_Header (Resource_ r); R_Body := b |};
     Dynamic := Dynamic r |}.

Definition setDynamic (r : DynamicARecord) (b : bool) : DynamicARecord :=
  {| Resource_ := Resource_ r; Dynamic := b |}.

(** [AddARecord]: the name is used as given. *)
Definition AddARecord `{Util} (name : string) (dst : option IP) (dyn : bool)
    (c : Config) : exec (Config * error) :=
  if String.eqb name EmptyString then Returns (c, Some errInvalidParameter)
  else
    match createSimpleARecord name with
    | (Some rec, None) =>
        let rec :=
          match negb dyn, dst with
          | true, Some ip =>
              setDynamic (setBody rec (Some (AResource (ipToBytes ip)))) false
          | _, _ => setDynamic rec true
          end in
        addARecordToConfig rec c
    | (_, e) => Returns (c, e)
    end.

Definition AddSRVRecord (name : string) (priority weight port : Z) (target : string)
    (c : Config) : exec (Config * error) :=
  if String.eqb name EmptyString || String.eqb target EmptyString then Returns (c, Some errInvalidParameter)
  else
    match createSRVRecord name priority weight port target with
    | (Some rec, None) => addSRVRecordToConfig rec c
    | (_, e) => Returns (c, e)
    end.

Fixpoint lookupA_range (recs : list DynamicARecord) (qName : string)
  : option DynamicARecord :=
  match recs with
  | [] => None
  | aRec :: rest =>
      if String.eqb (AName aRec) qName then Some aRec
      else lookupA_range rest qName
  end.

Definition lookupA (c : Config) (qName : string) : option DynamicARecord :=
  lookupA_range (ARecords c) qName.

Fixpoint lookupSRV_range (recs : list Resource) (qName : string) : option Resource :=
  match recs with
  | [] => None
  | srvRec :: rest =>
      if String.eqb (SRVName srvRec) qName then Some srvRec
      else lookupSRV_range rest qName
  end.

Definition lookupSRV (c : Config) (qName : string) : option Resource :=
  lookupSRV_range (SRVRecords c) qName.

Definition AddDynamicIP `{Util} (d : DynamicARecord) (src : Addr)
  : DynamicARecord * error :=
  match interfaceForRemote src with
  | inr _ => (d, Some errInvalidParameter)
  | inl dst => (setBody d (Some (AResource (ipToBytes dst))), nil)
  end.

(** One call of [Lookup]: the callee's own [answers] slice when it
    returns (the parameter is a slice value, so the caller's slice keeps
    its length), the returned error, and the (name, type) pairs [Lookup]
    was entered with, this call first. *)
Record LookupResult : Type := {
  answers : list Resource;
  err : error;
  calls : list (string * Z)
}.

(** [Lookup(answers, name, ttype, class, src)].  In the SRV case the
    method calls itself with the record's own header name, type and
    class; [fuel] bounds the depth of that recursion. *)
Fixpoint Lookup `{Util} (fuel : nat) (c : Config) (answers : list Resource)
    (name : string) (ttype class : Z) (src : Addr) : exec LookupResult :=
  match fuel with
  | O => OutOfFuel
  | S fuel' =>
      if Z.eqb ttype TypeA then
        match lookupA c name with
        | Some rec =>
            if Dynamic rec then
              match AddDynamicIP rec src with
              | (_, Some e) =>
                  Returns {| answers := answers; err := Some e;
                             calls := [(name, ttype)] |}
              | (rec', None) =>
                  Returns {| answers := answers ++ [Resource_ rec'];
                             err := nil; calls := [(name, ttype)] |}
              end
            else
              Returns {| answers := answers ++ [Resource_ rec];
                         err := nil; calls := [(name, ttype)] |}
        | None =>
            Returns {| answers := answers; err := Some errRecordNotFound;
                       calls := [(name, ttype)] |}
        end
      else if Z.eqb ttype TypeSRV then
        match lookupSRV c name with
        | Some rec =>
            r ← Lookup fuel' c answers (RH_Name (R_Header rec))
                       (RH_Type (R_Header rec)) (RH_Class (R_Header rec)) src;
            let answers :=
              match r.(MdnsMsg.err) with
              | Some _ => answers ++ [rec]
              | None => answers
              end in
            Returns {| answers := answers; err := nil;
                       calls := (name, ttype) :: r.(MdnsMsg.calls) |}
        | None =>
            Returns {| answers := answers; err := Some errRecordNotFound;
                       calls := [(name, ttype)] |}
        end
      else
        Returns {| answers := answers; err := Some errRecordNotFound;
                   calls := [(name, ttype)] |}
  end.

(** *** conn.go *)

Record query : Type := {
  ttype : Z;
  nameWithSuffix : string;
  queryResultChan : nat
}.

Record queryResult : Type := { answer : ResourceHeader; addr : Addr }.

Record Conn : Type := {
  config : Config;
  dstAddr : Addr;
  queryInterval : Z;
  queries : list query;
  closed : bool;
  nextChan : nat
}.

Definition setQueries (c : Conn) (qs : list query) : Conn :=
  {| config := config c; dstAddr := dstAddr c; queryInterval := queryInterval c;
     queries := qs; closed := closed c; nextChan := nextChan c |}.

Definition setClosed (c : Conn) : Conn :=
  {| config := config c; dstAddr := dstAddr c; queryInterval := queryInterval c;
     queries := queries c; closed := true; nextChan := nextChan c |}.

Definition makeChan (c : Conn) : nat * Conn :=
  (nextChan c,
   {| config := config c; dstAddr := dstAddr c; queryInterval := queryInterval c;
      queries := queries c; closed := closed c; nextChan := S (nextChan c) |}).

Inductive effect : Type :=
| WriteTo (raw : list Z) (dst : Addr)
| ChanSend (ch : nat) (r : queryResult)
| NewTicker (d : Z)
| TickerStop.

Definition createMessage (answer : list Resource) : Message :=
  {| M_Header := {| ID := 0; Response := true; OpCode := 0; Authoritative := true;
                    Truncated := false; RecursionDesired := false;
                    RecursionAvailable := false; RCode := 0 |};
     Questions := []; Answers := answer; Authorities := []; Additionals := [] |}.

Definition sendAnswer `{ParserLib P} (c : Conn) (msg : Message) : list effect :=
  match Message_Pack msg with
  | inr _ => []
  | inl rawAnswer => [WriteTo rawAnswer (dstAddr c)]
  end.

(** The question loop of [start]: [for i := 0; i <= maxQueryMessageRecords; i++],
    with [n] iterations left.  [Lookup] gets the slice value [answers];
    the message is built from the caller's slice, which is still empty.
    The parser is [None] when the closure has returned. *)
Fixpoint start_questions `{Util} `{ParserLib P} (fuel : nat) (c : Conn) (src : Addr)
    (p : P) (n : nat) : exec (option P * list effect) :=
  match n with
  | O => Returns (Some p, [])
  | S n' =>
      match Parser_Question p with
      | (p', inr ErrSectionDone) => Returns (Some p', [])
      | (_, inr ErrParse) => Returns (None, [])
      | (p', inl q) =>
          let answers : list Resource := [] in
          r ← Lookup fuel (config c) answers (Q_Name q) (Q_Type q) (Q_Class q) src;
          let es :=
            match err r with
            | None => sendAnswer c (createMessage answers)
            | Some _ => []
            end in
          '(po, es') ← start_questions fuel c src p' n';
          Returns (po, es ++ es')
      end
  end.

Definition removeQuery (qs : list query) (i : nat) : list query :=
  take i qs ++ drop (i + 1) qs.

Definition queryMatches (q : query) (name : string) (rtype : Z) : bool :=
  String.eqb (nameWithSuffix q) name && Z.eqb (ttype q) rtype.

Fixpoint deliver (name : string) (rtype : Z) (res : queryResult)
    (qs : list query) (k : nat) : exec (list query * list effect) :=
  match k with
  | O => Returns (qs, [])
  | S i =>
      q ← index qs i;
      if queryMatches q name rtype then
        '(qs', es) ← deliver name rtype res (removeQuery qs i) i;
        Returns (qs', ChanSend (queryResultChan q) res :: es)
      else deliver name rtype res qs i
  end.

(** The answer loop of [start]: [for i := 0; i <= maxMessageRecords; i++],
    with [n] iterations left; only headers of type A or AAAA reach the
    registry. *)
Fixpoint start_answers `{ParserLib P} (src : Addr) (p : P) (n : nat)
    (qs : list query) : exec (list query * list effect) :=
  match n with
  | O => Returns (qs, [])
  | S n' =>
      match Parser_AnswerHeader p with
      | (_, inr _) => Returns (qs, [])
      | (p', inl a) =>
          if negb (Z.eqb (RH_Type a) TypeA) && negb (Z.eqb (RH_Type a) TypeAAAA)
          then start_answers src p' n' qs
          else
            '(qs1, es1) ←
              deliver (RH_Name a) (RH_Type a) {| answer := a; addr := src |}
                      qs (length qs);
            '(qs2, es2) ← start_answers src p' n' qs1;
            Returns (qs2, es1 ++ es2)
      end
  end.

(** The closure [start] runs for each datagram.  The header [p.Start]
    returns is discarded. *)
Definition start_packet `{Util} `{ParserLib P} (fuel : nat) (c : Conn)
    (buf : list Z) (src : Addr) : exec (Conn * list effect) :=
  match Parser_Start buf with
  | inr _ => Returns (c, [])
  | inl (p, _) =>
      '(po, es1) ← start_questions fuel c src p (S maxQueryMessageRecords);
      match po with
      | None => Returns (c, es1)
      | Some p' =>
          '(qs, es2) ← start_answers src p' (S maxMessageRecords) (queries c);
          Returns (setQueries c qs, es1 ++ es2)
      end
  end.

Inductive read : Type :=
| Read (buf : list Z) (src : Addr)
| ReadError.

Fixpoint start `{Util} `{ParserLib P} (fuel : nat) (c : Conn) (rs : list read)
  : exec (Conn * list effect) :=
  match rs with
  | [] => Returns (c, [])
  | ReadError :: _ => Returns (setClosed c, [])
  | Read buf src :: rest =>
      '(c1, es1) ← start_packet fuel c buf src;
      '(c2, es2) ← start fuel c1 rest;
      Returns (c2, es1 ++ es2)
  end.

(** The message [sendQuestion] builds: a zero header and one question
    whose type is set for A and SRV only.  [None] when [NewName] fails. *)
Definition questionMsg (name : string) (ttype : Z) : option Message :=
  match NewName name with
  | inr _ => None
  | inl packedName =>
      let t := if Z.eqb ttype TypeA then TypeA
               else if Z.eqb ttype TypeSRV then TypeSRV
               else 0%Z in
      Some {| M_Header := zeroHeader;
              Questions := [ {| Q_Name := packedName; Q_Type := t;
                                Q_Class := ClassINET |} ];
              Answers := []; Authorities := []; Additionals := [] |}
  end.

Definition sendQuestion `{ParserLib P} (c : Conn) (name : string) (ttype : Z)
  : list effect :=
  match questionMsg name ttype with
  | None => []
  | Some msg =>
      match Message_Pack msg with
      | inr _ => []
      | inl rawQuery => [WriteTo rawQuery (dstAddr c)]
      end
  end.

Inductive select_case : Type :=
| Tick
| ClosedFired
| ResultRecv (res : queryResult)
| CtxDoneFired.

Inductive outcome : Type :=
| Answered (res : queryResult)
| Failed (e : Go.err)
| Blocked.

Fixpoint Query_select `{ParserLib P} (c : Conn) (name : string) (ttype : Z)
    (evs : list select_case) : list effect * outcome :=
  match evs with
  | [] => ([], Blocked)
  | Tick :: rest =>
      let es := sendQuestion c name ttype in
      let '(es', o) := Query_select c name ttype rest in
      (es ++ es', o)
  | ClosedFired :: _ => ([], Failed errConnectionClosed)
  | ResultRecv res :: _ => ([], Answered res)
  | CtxDoneFired :: _ => ([], Failed errContextElapsed)
  end.

(** [Query]: [nameWithSuffix := name + "."]. *)
Definition Query `{ParserLib P} (c : Conn) (name : string) (ttype : Z)
    (evs : list select_case) : Conn * list effect * outcome :=
  if closed c then (c, [], Failed errConnectionClosed)
  else
    let nameWithSuffix := name +:+ "." in
    let '(queryChan, c) := makeChan c in
    let c := setQueries c (queries c ++
               [{| ttype := ttype; nameWithSuffix := nameWithSuffix;
                   queryResultChan := queryChan |}]) in
    let es0 := NewTicker (queryInterval c) :: sendQuestion c nameWithSuffix ttype in
    let '(es, o) := Query_select c nameWithSuffix ttype evs in
    (c, es0 ++ es, o).

End MdnsMsg.

(** ** Vocabulary for the properties of the engine and the registry *)
Module Registry.
Import Go dns MdnsDns.

(** A header the protocol gates refuse: OPCODE or RCODE not zero, or the
    TC bit set. *)
Definition gated (h : MsgHdr) : Prop :=
  Opcode h <> 0%Z \/ Rcode h <> 0%Z \/ Truncated h = true.

Definition gated_old (h : dnsmessage.Header) : Prop :=
  dnsmessage.OpCode h <> 0%Z \/ dnsmessage.RCode h <> 0%Z
  \/ dnsmessage.Truncated h = true.

(** The header the type switch of [processAnswers] hands to the scan:
    present for [*dns.A] and [*dns.SRV], absent for every other type. *)
Definition switched (a : RR) : option RR_Header :=
  match a with
  | RR_A rr => Some (A_Hdr rr)
  | RR_SRV rr => Some (SRV_Hdr rr)
  | _ => None
  end.

(** The registered query [q] matches the answer record [a]. *)
Definition answeredBy (a : RR) (q : query) : bool :=
  match switched a with
  | Some h => queryMatches q (Name h) (Rrtype h)
  | None => false
  end.

Definition answeredByAny (rrs : list RR) (q : query) : bool :=
  existsb (fun a => answeredBy a q) rrs.

(** One delivery of [res] to the sink of each query of [qs]. *)
Definition sends (res : QueryResult) (qs : list query) : list effect :=
  map (fun q => ChanSend (queryResultChan q) res) qs.

(** The deliveries of one message in the order the engine makes them:
    answer by answer, each over the registry the earlier answers left,
    from its end to its start. *)
Fixpoint deliveries (res : QueryResult) (rrs : list RR) (qs : list query)
  : list effect :=
  match rrs with
  | [] => []
  | a :: rest =>
      sends res (rev (List.filter (answeredBy a) qs))
      ++ deliveries res rest (List.filter (fun q => negb (answeredBy a q)) qs)
  end.

End Registry.

(** ** Concrete stores, connections and messages for the examples *)
Module Fixture.
Import Go.

Definition peer : Addr := "192.168.1.50:5353".
Definition group : Addr := "224.0.0.251:5353".

(** A resolver that knows the way to one peer. *)
Definition util : Util :=
  {| interfaceForRemote := fun src =>
       if String.eqb src peer then inl [192; 168; 1; 7]%Z
       else inr errInvalidParameter;
     ipToBytes := fun ip => ip |}.

(** *** miekg/dns implementation *)

Definition b2z (b : bool) : Z := if b then 1%Z else 0%Z.

(** The question and the answers of the four datagrams below. *)
Definition askNoMatch : dns.Question :=
  {| dns.Q_Name := "nomatch.local."; dns.Qtype := dns.TypeA;
     dns.Qclass := dns.ClassINET |}.

Definition txt (name : string) : MdnsDns.RR :=
  MdnsDns.RR_Other {| dns.Name := name; dns.Rrtype := 16; dns.Class := 1;
                      dns.Ttl := 10; dns.Rdlength := 0 |}.

Definition hostA : MdnsDns.RR :=
  MdnsDns.RR_A {| dns.A_Hdr := {| dns.Name := "host.local."; dns.Rrtype := 1;
                                  dns.Class := 1; dns.Ttl := 10; dns.Rdlength := 4 |};
                  dns.A_A := [10; 0; 0; 9]%Z |}.

Definition msgQuestion : dns.Msg MdnsDns.RR :=
  {| dns.Hdr := dns.zeroHdr; dns.Compress := false;
     dns.Questions := [askNoMatch]; dns.Answer := []; dns.Ns := []; dns.Extra := [] |}.

Definition msgFourAnswers : dns.Msg MdnsDns.RR :=
  {| dns.Hdr := {| dns.Id := 0; dns.Response := true; dns.Opcode := 0;
                   dns.Authoritative := true; dns.Truncated := false;
                   dns.RecursionDesired := false; dns.Rcode := 0 |};
     dns.Compress := false; dns.Questions := [];
     dns.Answer := [txt "a.local."; txt "b.local."; txt "c.local."; hostA];
     dns.Ns := []; dns.Extra := [] |}.

Definition msgOpcode2 : dns.Msg MdnsDns.RR :=
  {| dns.Hdr := {| dns.Id := 0; dns.Response := false; dns.Opcode := 2;
                   dns.Authoritative := false; dns.Truncated := false;
                   dns.RecursionDesired := false; dns.Rcode := 0 |};
     dns.Compress := false; dns.Questions := [askNoMatch];
     dns.Answer := [hostA]; dns.Ns := []; dns.Extra := [] |}.

Definition table : list (dns.Msg MdnsDns.RR) :=
  [msgQuestion; msgFourAnswers; msgOpcode2].

(** A stand-in for the wire codec.  A datagram has at least the twelve
    header bytes, and its second byte selects a message of [table];
    packing describes a message by its id, its QR and RD bits and the
    sizes of its question and answer sections. *)
Definition codec : WireCodec (dns.Msg MdnsDns.RR) :=
  {| IsMsg := fun buf => if (length buf <? 12)%nat then Some errInvalidPacket else None;
     Unpack := fun buf =>
       match table !! Z.to_nat (nth 1 buf 0%Z) with
       | Some m => inl m
       | None => inr errInvalidPacket
       end;
     Pack := fun m =>
       inl [dns.Id (dns.Hdr m); b2z (dns.Response (dns.Hdr m));
            b2z (dns.RecursionDesired (dns.Hdr m));
            Z.of_nat (length (dns.Questions m)); Z.of_nat (length (dns.Answer m))] |}.

Definition datagram (n : Z) : list Z := [0; n; 0; 0; 0; 0; 0; 0; 0; 0; 0; 0]%Z.

Definition waitingForHost : MdnsDns.query :=
  {| MdnsDns.ttype := dns.TypeA; MdnsDns.nameWithSuffix := "host.local.";
     MdnsDns.queryResultChan := 0 |}.

(** A connection with an empty store and an empty registry. *)
Definition conn : MdnsDns.Conn :=
  {| MdnsDns.config := MdnsDns.emptyConfig; MdnsDns.dstAddr := group;
     MdnsDns.queryInterval := 2000000000; MdnsDns.queries := [];
     MdnsDns.closed := false; MdnsDns.nextChan := 0 |}.

(** The same connection with one query for the A record of host.local. *)
Definition connWaiting : MdnsDns.Conn :=
  {| MdnsDns.config := MdnsDns.emptyConfig; MdnsDns.dstAddr := group;
     MdnsDns.queryInterval := 2000000000; MdnsDns.queries := [waitingForHost];
     MdnsDns.closed := false; MdnsDns.nextChan := 1 |}.

(** *** dnsmessage implementation *)

Definition printerHeader : dnsmessage.ResourceHeader :=
  {| dnsmessage.RH_Name := "printer.local."; dnsmessage.RH_Type := 1;
     dnsmessage.RH_Class := 1; dnsmessage.TTL := 10; dnsmessage.Length := 0 |}.

Definition askPrinter : dnsmessage.Question :=
  {| dnsmessage.Q_Name := "printer.local."; dnsmessage.Q_Type := 1;
     dnsmessage.Q_Class := 1 |}.

(** A stand-in for [dnsmessage.Parser]: the sections still to be read.
    Every datagram of at least twelve bytes decodes to the same message, of
    OPCODE 2, with one question and one answer; [AnswerHeader] does not
    advance the parser. *)
Definition parserState : Type :=
  (list dnsmessage.Question * list dnsmessage.ResourceHeader)%type.

Definition headerOpcode2 : dnsmessage.Header :=
  {| dnsmessage.ID := 0; dnsmessage.Response := false; dnsmessage.OpCode := 2;
     dnsmessage.Authoritative := false; dnsmessage.Truncated := false;
     dnsmessage.RecursionDesired := false; dnsmessage.RecursionAvailable := false;
     dnsmessage.RCode := 0 |}.

Definition parser : ParserLib parserState :=
  {| Parser_Start := fun buf =>
       if (length buf <? 12)%nat then inr errInvalidPacket
       else inl (([askPrinter], [printerHeader]), headerOpcode2);
     Parser_Question := fun p =>
       match p.1 with
       | [] => (p, inr dnsmessage.ErrSectionDone)
       | q :: qs => ((qs, p.2), inl q)
       end;
     Parser_AnswerHeader := fun p =>
       match p.2 with
       | [] => (p, inr dnsmessage.ErrSectionDone)
       | a :: _ => (p, inl a)
       end;
     Message_Pack := fun m =>
       inl [dnsmessage.ID (dnsmessage.M_Header m);
            b2z (dnsmessage.Response (dnsmessage.M_Header m));
            b2z (dnsmessage.RecursionDesired (dnsmessage.M_Header m));
            Z.of_nat (length (dnsmessage.Questions m));
            Z.of_nat (length (dnsmessage.Answers m))] |}.

Definition printerRecord : MdnsMsg.DynamicARecord :=
  {| MdnsMsg.Resource_ :=
       {| dnsmessage.R_Header := printerHeader;
          dnsmessage.R_Body := Some (dnsmessage.AResource [10; 0; 0; 5]%Z) |};
     MdnsMsg.Dynamic := false |}.

Definition waitingForPrinter : MdnsMsg.query :=
  {| MdnsMsg.ttype := 1; MdnsMsg.nameWithSuffix := "printer.local.";
     MdnsMsg.queryResultChan := 0 |}.

(** A connection that serves the A record of printer.local. and waits for
    an answer about the same name. *)
Definition oldConn : MdnsMsg.Conn :=
  {| MdnsMsg.config := {| MdnsMsg.QueryInterval := 0;
                          MdnsMsg.ARecords := [printerRecord];
                          MdnsMsg.SRVRecords := [] |};
     MdnsMsg.dstAddr := group; MdnsMsg.queryInterval := 1000000000;
     MdnsMsg.queries := [waitingForPrinter];
     MdnsMsg.closed := false; MdnsMsg.nextChan := 1 |}.

(** The store of scenario C: an SRV record and the A record of its target,
    inserted through [AddSRVRecord] and [AddARecord]. *)
Definition oldServiceRecord : dnsmessage.Resource :=
  {| dnsmessage.R_Header :=
       {| dnsmessage.RH_Name := "_svc._tcp.local."; dnsmessage.RH_Type := 1;
          dnsmessage.RH_Class := 1; dnsmessage.TTL := 10; dnsmessage.Length := 0 |};
     dnsmessage.R_Body := Some (dnsmessage.SRVResource 0 0 8080 "node.local.") |}.

Definition oldNodeRecord : MdnsMsg.DynamicARecord :=
  {| MdnsMsg.Resource_ :=
       {| dnsmessage.R_Header :=
            {| dnsmessage.RH_Name := "node.local."; dnsmessage.RH_Type := 1;
               dnsmessage.RH_Class := 1; dnsmessage.TTL := 10; dnsmessage.Length := 0 |};
          dnsmessage.R_Body := Some (dnsmessage.AResource [10; 0; 0; 9]%Z) |};
     MdnsMsg.Dynamic := false |}.

Definition oldServiceStore : MdnsMsg.Config :=
  {| MdnsMsg.QueryInterval := 0; MdnsMsg.ARecords := [oldNodeRecord];
     MdnsMsg.SRVRecords := [oldServiceRecord] |}.

(** The store of scenario C in the miekg/dns implementation, after
    [addSRVRecord] alone. *)
Definition serviceRecord : dns.SRV :=
  {| dns.SRV_Hdr := {| dns.Name := "_svc._tcp.local."; dns.Rrtype := 33;
                       dns.Class := 1; dns.Ttl := 0; dns.Rdlength := 0 |};
     dns.Priority := 0; dns.Weight := 0; dns.Port := 8080;
     dns.Target := "node.local." |}.

Definition serviceStore : MdnsDns.Config :=
  {| MdnsDns.QueryInterval := 0; MdnsDns.ARecords := [];
     MdnsDns.SRVRecords := [serviceRecord] |}.

(** The stores [addARecord] and [addSRVRecord] build from the empty one
    for the name printer.local. *)
Definition printerStore : MdnsDns.Config :=
  {| MdnsDns.QueryInterval := 0;
     MdnsDns.ARecords :=
       [ {| MdnsDns.A_ :=
              {| dns.A_Hdr := {| dns.Name := "printer.local."; dns.Rrtype := 1;
                                 dns.Ttl := 10; dns.Class := 1; dns.Rdlength := 0 |};
                 dns.A_A := [10; 0; 0; 5]%Z |};
            MdnsDns.Dynamic := false |} ];
     MdnsDns.SRVRecords := [] |}.

Definition printerServiceStore : MdnsDns.Config :=
  {| MdnsDns.QueryInterval := 0;
     MdnsDns.ARecords := [];
     MdnsDns.SRVRecords :=
       [ {| dns.SRV_Hdr := {| dns.Name := "printer.local."; dns.Rrtype := 33;
                              dns.Ttl := 0; dns.Class := 1; dns.Rdlength := 0 |};
            dns.Priority := 0; dns.Weight := 0; dns.Port := 631;
            dns.Target := "host.local." |} ] |}.

(** A dynamic A record of the given name. *)
Definition named (name : string) : MdnsDns.DynamicARR :=
  {| MdnsDns.A_ :=
       {| dns.A_Hdr := {| dns.Name := name; dns.Rrtype := 1; dns.Ttl := 10;
                          dns.Class := 1; dns.Rdlength := 0 |};
          dns.A_A := [] |};
     MdnsDns.Dynamic := true |}.


End Fixture.

(** ** conn.go, the rest: the constructor, the facade and [QueryASync] *)
Module ConnDns.
Import Go dns MdnsDns.

(** [2 * time.Second], in nanoseconds. *)
Definition defaultQueryInterval : Z := 2000000000.
Definition destinationAddress : string := "224.0.0.251:5353".

(** An error [Server] returns: one of the package, or one handed up from
    package net. *)
Inductive serror : Type :=
| Own (e : Go.err)
| Foreign (msg : string).

(** What [Server] asks of package net and of the socket: the interfaces
    of the host, the outcome of [conn.JoinGroup] on each, and
    [net.ResolveUDPAddr]. *)
Class Net (Interface : Type) : Type := {
  Interfaces : list Interface + string;
  JoinGroup : Interface -> option string;
  ResolveUDPAddr : string -> Addr + string
}.

(** [for i := range ifaces { if err = conn.JoinGroup(...); err != nil
    { joinErrCount++ } }] *)
Fixpoint joinErrors `{Net Iface} (ifaces : list Iface) (joinErrCount : nat) : nat :=
  match ifaces with
  | [] => joinErrCount
  | i :: rest =>
      match JoinGroup i with
      | Some _ => joinErrors rest (S joinErrCount)
      | None => joinErrors rest joinErrCount
      end
  end.

Definition setQueryInterval (c : Conn) (d : Z) : Conn :=
  {| config := config c; dstAddr := dstAddr c; queryInterval := d;
     queries := queries c; closed := closed c; nextChan := nextChan c |}.

Definition setConfig (c : Conn) (cfg : Config) : Conn :=
  {| config := cfg; dstAddr := dstAddr c; queryInterval := queryInterval c;
     queries := queries c; closed := closed c; nextChan := nextChan c |}.

(** [Server(conn, config)]; a nil [config] is [None]. *)
Definition Server `{Net Iface} (config : option Config) : Conn + serror :=
  match config with
  | None => inr (Own errNilConfig)
  | Some config =>
      match Interfaces with
      | inr e => inr (Foreign e)
      | inl ifaces =>
          let joinErrCount := joinErrors ifaces 0 in
          if (length ifaces <=? joinErrCount)%nat
          then inr (Own errJoiningMulticastGroup)
          else
            match ResolveUDPAddr destinationAddress with
            | inr e => inr (Foreign e)
            | inl dstAddr =>
                let c := {| MdnsDns.config := config; MdnsDns.dstAddr := dstAddr;
                            queryInterval := defaultQueryInterval;
                            queries := []; closed := false; nextChan := 0 |} in
                inl (if negb (Z.eqb (QueryInterval config) 0)
                     then setQueryInterval c (QueryInterval config)
                     else c)
            end
      end
  end.

(** The facade: each method hands its arguments to the store of the
    connection. *)
Definition onConfig (f : Config -> exec (Config * error)) (c : Conn)
  : exec (Conn * error) :=
  '(cfg, e) ← f (config c);
  Returns (setConfig c cfg, e).

Definition RemoveARecord (name : string) : Conn -> exec (Conn * error) :=
  onConfig (removeARecord name).

Definition RemoveSRVRecord (name : string) : Conn -> exec (Conn * error) :=
  onConfig (removeSRVRecord name).

Definition AddARecord (name : string) (dst : option IP) (dyn : bool)
  : Conn -> exec (Conn * error) :=
  onConfig (addARecord name dst dyn).

Definition AddSRVRecord (name : string) (priority weight port : Z) (target : string)
  : Conn -> exec (Conn * error) :=
  onConfig (addSRVRecord name priority weight port target).

(** What the goroutine of [QueryASync] does besides what [Query] does: it
    sends on, or closes, the channel [results] it handed to the caller. *)
Inductive aeffect : Type :=
| Did (e : effect)
| ResultsSend (res : QueryResult)  (* results <- &res *)
| ResultsClose.                    (* close(results) *)

Fixpoint QueryASync_select `{WireCodec (Msg RR)} (c : Conn) (name : string)
    (ttype : Z) (evs : list select_case) : list aeffect * bool :=
  match evs with
  | [] => ([], false)
  | Tick id :: rest =>
      let es := Did <$> sendQuestion id c name ttype in
      let '(es', fin) := QueryASync_select c name ttype rest in
      (es ++ es', fin)
  | ClosedFired :: _ => ([ResultsClose], true)
  | ResultRecv res :: _ => ([ResultsSend res], true)
  | CtxDoneFired :: _ => ([ResultsClose], true)
  end.

(** [QueryASync]: the body of the goroutine; the boolean tells whether
    the goroutine has returned. *)
Definition QueryASync `{WireCodec (Msg RR)} (id : Z) (c : Conn) (name : string)
    (ttype : Z) (evs : list select_case) : Conn * list aeffect * bool :=
  if closed c then (c, [ResultsClose], true)
  else
    let name := addDot name in
    let '(queryChan, c) := makeChan c in
    let c := setQueries c (queries c ++
               [{| MdnsDns.ttype := ttype; nameWithSuffix := name;
                   queryResultChan := queryChan |}]) in
    let es0 := Did (NewTicker (queryInterval c))
               :: (Did <$> sendQuestion id c name ttype) in
    let '(es, fin) := QueryASync_select c name ttype evs in
    (c, es0 ++ es, fin).

End ConnDns.

(** ** discovery.go *)
Module Discovery.
Import Go dns MdnsDns.

Record DiscoverySrvResult : Type := { Port : Z; Addr : option IP }.

(** A context is known by its identity. *)
Record DiscoverySrvQuery : Type := {
  ctx : nat;
  name : string;
  ttype : Z;
  timeout : Z
}.

Definition Timeout (timeout : Z) (dq : DiscoverySrvQuery) : DiscoverySrvQuery :=
  {| ctx := ctx dq; name := name dq; ttype := ttype dq; timeout := timeout |}.

Definition Name (name : string) (dq : DiscoverySrvQuery) : DiscoverySrvQuery :=
  {| ctx := ctx dq; name := name; ttype := ttype dq; timeout := timeout dq |}.

Definition Type_ (ttype : Z) (dq : DiscoverySrvQuery) : DiscoverySrvQuery :=
  {| ctx := ctx dq; name := name dq; ttype := ttype; timeout := timeout dq |}.

Definition Context (ctx : nat) (dq : DiscoverySrvQuery) : DiscoverySrvQuery :=
  {| ctx := ctx; name := name dq; ttype := ttype dq; timeout := timeout dq |}.

(** The query [FindCatalog] starts from, [context.TODO()] being context 0,
    and the query after [for _, opt := range opts { opt(query) }]. *)
Definition defaultQuery : DiscoverySrvQuery :=
  {| ctx := 0; name := "_catalog._tcp.local"; ttype := TypeSRV; timeout := 0 |}.

Fixpoint applyOpts (opts : list (DiscoverySrvQuery -> DiscoverySrvQuery))
    (query : DiscoverySrvQuery) : DiscoverySrvQuery :=
  match opts with
  | [] => query
  | opt :: rest => applyOpts rest (opt query)
  end.

(** The loop over the answers: an answer of dynamic type [dns.A] sets the
    address, one of dynamic type [dns.SRV] sets the port. *)
Fixpoint collect (answers : list RR) (dr : DiscoverySrvResult) : DiscoverySrvResult :=
  match answers with
  | [] => dr
  | a :: rest =>
      let dr := match a with
                | RR_A rr => {| Port := Port dr; Addr := Some (A_A rr) |}
                | _ => dr
                end in
      let dr := match a with
                | RR_SRV rr => {| Port := dns.Port rr; Addr := Addr dr |}
                | _ => dr
                end in
      collect rest dr
  end.

(** The case of the [select] that fires in the goroutine of
    [FindCatalog]; a receive from the closed [results] is [None]. *)
Inductive catalog_case : Type :=
| ResultsRecv (res : option QueryResult)
| QueryCtxDone
| TimeoutTick.

Inductive catalog_effect : Type :=
| Found (dr : DiscoverySrvResult)   (* discoverResults <- dr *)
| CloseDiscover.                    (* close(discoverResults) *)

Definition FindCatalog_select (ev : catalog_case) : list catalog_effect :=
  match ev with
  | ResultsRecv None => [CloseDiscover]
  | ResultsRecv (Some res) =>
      let dr := collect (answer res) {| Port := 0; Addr := None |} in
      match Addr dr with
      | Some _ => if negb (Z.eqb (Port dr) 0) then [Found dr] else []
      | None => []
      end
  | QueryCtxDone => [CloseDiscover]
  | TimeoutTick => [CloseDiscover]
  end.

End Discovery.

(** ** Vocabulary for the properties of the store *)
Module Store.
Import Go dns MdnsDns.

Definition ANames (c : Config) : list string := AName <$> ARecords c.
Definition SRVNames (c : Config) : list string := SRVName <$> SRVRecords c.

(** The record [addARecord] builds for a name already run through
    [addDot]. *)
Definition newARecord (name : string) (dst : option IP) (dyn : bool) : DynamicARR :=
  {| A_ := {| A_Hdr := {| dns.Name := name; Rrtype := TypeA; Class := ClassINET;
                          Ttl := responseTTL; Rdlength := 0 |};
              A_A := match negb dyn, dst with
                     | true, Some ip => ip
                     | _, _ => []
                     end |};
     Dynamic := match negb dyn, dst with
                | true, Some _ => false
                | _, _ => true
                end |}.

Definition hasAName (name : string) (c : Config) : bool :=
  existsb (fun r => String.eqb (AName r) name) (ARecords c).

Definition hasSRVName (name : string) (c : Config) : bool :=
  existsb (fun r => String.eqb (SRVName r) name) (SRVRecords c).

(** A record of the answers that [Lookup] took from the store [c]: an SRV
    record as stored, or an A record as stored but for the address that
    [AddDynamicIP] writes into the copy of a dynamic one. *)
Definition fromStore (c : Config) (rr : RR) : Prop :=
  match rr with
  | RR_SRV s => s ∈ SRVRecords c
  | RR_DynamicARR a =>
      exists a0, a0 ∈ ARecords c /\
        (a = a0 \/ Dynamic a0 = true /\ exists ip, a = setIP a0 ip)
  | _ => False
  end.

End Store.

(** ** The calls of the store's API, for properties over sequences of them *)
Module Api.
Import Go dns MdnsDns.

Inductive op : Type :=
| AddA (name : string) (dst : option IP) (dyn : bool)
| AddSRV (name : string) (priority weight port : Z) (target : string)
| RemoveA (name : string)
| RemoveSRV (name : string).

Definition run (o : op) (c : Config) : exec (Config * error) :=
  match o with
  | AddA name dst dyn => addARecord name dst dyn c
  | AddSRV name priority weight port target =>
      addSRVRecord name priority weight port target c
  | RemoveA name => removeARecord name c
  | RemoveSRV name => removeSRVRecord name c
  end.

(** The calls one after the other, whatever each returns; a panic ends
    the run. *)
Fixpoint runs (os : list op) (c : Config) : exec Config :=
  match os with
  | [] => Returns c
  | o :: rest => '(c', _) ← run o c; runs rest c'
  end.

End Api.

(** ** Vocabulary for the properties of the engine *)
Module Engine.
Import Go dns MdnsDns.



(** The datagrams a run wrote, with their destinations. *)
Definition written (es : list effect) : list (list Z * Addr) :=
  omap (fun e => match e with WriteTo raw dst => Some (raw, dst) | _ => None end) es.

(** [e] is the write to [dst] of the response to [msg]: the packed form
    of the message [createAnswerMessage] builds for [msg] around at most
    two records of the store [cfg]. *)
Definition isResponse `{WireCodec (Msg RR)} (cfg : Config) (dst : Addr) (msg : Msg RR)
    (e : effect) : Prop :=
  exists (answer : list RR) (raw : list Z),
    e = WriteTo raw dst
    /\ Pack (createAnswerMessage msg answer) = inl raw
    /\ length answer <= 2
    /\ Forall (Store.fromStore cfg) answer.

End Engine.

(** ** A host for [Server]: two interfaces, the first without multicast *)
Module Host.
Import Go.

Definition net : ConnDns.Net nat :=
  {| ConnDns.Interfaces := inl [0; 1];
     ConnDns.JoinGroup := fun i => if Nat.eqb i 0 then Some "no multicast" else None;
     ConnDns.ResolveUDPAddr := fun address => inl address |}.

Definition config : MdnsDns.Config :=
  {| MdnsDns.QueryInterval := 500000000; MdnsDns.ARecords := [];
     MdnsDns.SRVRecords := [] |}.

End Host.

(** * Properties *)

(** ** Slices *)

Lemma index_last {A} (l : list A) (x : A) :
  Go.index (l ++ [x]) (length l) = Go.Returns x.
Proof.
  unfold Go.index. by rewrite list_lookup_middle.
Qed.

Lemma index_past_end {A} (l : list A) (i : nat) :
  length l <= i ->
  Go.index l i = Go.Panics (Go.IndexOutOfRange i (length l)).
Proof.
  intros Hi. unfold Go.index. by rewrite lookup_ge_None_2.
Qed.

Lemma index_in_range {A} (l : list A) (i : nat) :
  i < length l -> exists x, l !! i = Some x /\ Go.index l i = Go.Returns x.
Proof.
  intros Hi. destruct (lookup_lt_is_Some_2 l i Hi) as [x Hx].
  exists x. split; [done|]. unfold Go.index. by rewrite Hx.
Qed.

Lemma filter_all {A} (l : list A) : List.filter (fun _ => true) l = l.
Proof. induction l as [|x l IH]; simpl; by f_equal. Qed.

Lemma filter_none {A} (l : list A) : List.filter (fun _ => false) l = [].
Proof. induction l as [|x l IH]; simpl; done. Qed.

(** ** The record store of the miekg/dns implementation *)
Section StoreDns.
Import Go dns MdnsDns.

(** Removing the name of the last A record indexes one past the end. *)
Lemma removeARecord_loop_last (recs : list DynamicARR) (r : DynamicARR) :
  removeARecord_loop (AName r) (recs ++ [r]) (length (recs ++ [r]))
  = Panics (IndexOutOfRange (length recs + 1) (length recs + 1)).
Proof.
  rewrite length_app. simpl length. replace (length recs + 1) with (S (length recs)) by lia.
  simpl. rewrite index_last. simpl. rewrite String.eqb_refl.
  rewrite index_past_end; [|rewrite length_app; simpl; lia].
  simpl. rewrite length_app. simpl. by replace (length recs + 1) with (S (length recs)) by lia.
Qed.

Lemma removeSRVRecord_loop_last (recs : list SRV) (r : SRV) :
  removeSRVRecord_loop (SRVName r) (recs ++ [r]) (length (recs ++ [r]))
  = Panics (IndexOutOfRange (length recs + 1) (length recs + 1)).
Proof.
  rewrite length_app. simpl length. replace (length recs + 1) with (S (length recs)) by lia.
  simpl. rewrite index_last. simpl. rewrite String.eqb_refl.
  rewrite index_past_end; [|rewrite length_app; simpl; lia].
  simpl. rewrite length_app. simpl. by replace (length recs + 1) with (S (length recs)) by lia.
Qed.

(** The downward scans of the add functions stay in range. *)
Lemma addARecordToConfig_loop_returns (name : string) (recs : list DynamicARR) (k : nat) :
  k <= length recs ->
  exists b, addARecordToConfig_loop name recs k = Returns b.
Proof.
  induction k as [|i IH]; intros Hk; simpl; [by eexists|].
  destruct (index_in_range recs i) as (x & _ & ->); [lia|]. simpl.
  destruct (String.eqb (AName x) name); [by eexists|]. apply IH. lia.
Qed.

Lemma addSRVRecordToConfig_loop_returns (name : string) (recs : list SRV) (k : nat) :
  k <= length recs ->
  exists b, addSRVRecordToConfig_loop name recs k = Returns b.
Proof.
  induction k as [|i IH]; intros Hk; simpl; [by eexists|].
  destruct (index_in_range recs i) as (x & _ & ->); [lia|]. simpl.
  destruct (String.eqb (SRVName x) name); [by eexists|]. apply IH. lia.
Qed.

(** A successful [addARecord] appends one record named [addDot name],
    of type A and TTL [responseTTL]. *)
Lemma addARecord_ok_inv (name : string) (dst : option IP) (dyn : bool) (c c' : Config) :
  addARecord name dst dyn c = Returns (c', nil) ->
  exists rec,
    ARecords c' = ARecords c ++ [rec] /\ SRVRecords c' = SRVRecords c /\
    AName rec = addDot name /\
    Rrtype (A_Hdr (A_ rec)) = TypeA /\ Ttl (A_Hdr (A_ rec)) = responseTTL.
Proof.
  unfold addARecord. destruct (String.eqb name EmptyString); [discriminate|].
  simpl. unfold addARecordToConfig.
  match goal with |- context [addARecordToConfig_loop ?n ?l ?k] =>
    destruct (addARecordToConfig_loop_returns n l k) as [b ->]; [done|] end.
  simpl. destruct b; [discriminate|].
  intros [= <-]. eexists. split; [reflexivity|]. split; [reflexivity|].
  destruct dyn, dst; simpl; done.
Qed.

(** A successful [addSRVRecord] appends one record named [addDot name],
    of type SRV, whose TTL is the zero value. *)
Lemma addSRVRecord_ok_inv (name : string) (priority weight port : Z) (target : string)
    (c c' : Config) :
  addSRVRecord name priority weight port target c = Returns (c', nil) ->
  exists rec,
    SRVRecords c' = SRVRecords c ++ [rec] /\ ARecords c' = ARecords c /\
    SRVName rec = addDot name /\ Target rec = addDot target /\
    Rrtype (SRV_Hdr rec) = TypeSRV /\ Ttl (SRV_Hdr rec) = 0%Z.
Proof.
  unfold addSRVRecord.
  destruct (String.eqb name EmptyString || String.eqb target EmptyString); [discriminate|].
  simpl. unfold addSRVRecordToConfig.
  match goal with |- context [addSRVRecordToConfig_loop ?n ?l ?k] =>
    destruct (addSRVRecordToConfig_loop_returns n l k) as [b ->]; [done|] end.
  simpl. destruct b; [discriminate|].
  intros [= <-]. eexists. repeat split; reflexivity.
Qed.

End StoreDns.

(** ** [Lookup] of the miekg/dns implementation *)
Section LookupDns.
Import Go dns MdnsDns.
Context `{Util}.

(** An A-typed call never calls [Lookup] again: depth one is enough. *)
Lemma Lookup_A_fuel (fuel : nat) (c : Config) (answers : list RR) (q : Question)
    (src : Addr) :
  Qtype q = TypeA ->
  Lookup (S fuel) c answers q src = Lookup 1 c answers q src.
Proof. intros Hq. simpl. by rewrite Hq. Qed.

(** What an A-typed call returns: at most one record, appended. *)
Lemma Lookup_A_returns (c : Config) (answers : list RR) (q : Question) (src : Addr) :
  Qtype q = TypeA ->
  exists r, Lookup 1 c answers q src = Returns r /\ calls r = [q] /\
    (MdnsDns.answers r = answers \/
     exists a, MdnsDns.answers r = answers ++ [RR_DynamicARR a] /\ err r = nil).
Proof.
  intros Hq. simpl. rewrite Hq. simpl.
  destruct (lookupA c (Q_Name q)) as [rec|]; [|eexists; split; [done|]; by auto].
  destruct (Dynamic rec).
  - unfold AddDynamicIP. destruct (interfaceForRemote src);
      eexists; (split; [done|]); (split; [done|]); simpl; eauto.
  - eexists; (split; [done|]); (split; [done|]); simpl; eauto.
Qed.

Lemma Lookup_no_match (fuel : nat) (c : Config) (answers : list RR) (q : Question)
    (src : Addr) :
  (Qtype q = TypeA -> lookupA c (Q_Name q) = None) ->
  (Qtype q = TypeSRV -> lookupSRV c (Q_Name q) = None) ->
  Lookup (S fuel) c answers q src
  = Returns {| answers := answers; err := nil; calls := [q] |}.
Proof.
  intros HA HS. simpl.
  destruct (Z.eqb_spec (Qtype q) TypeA) as [Ha|Ha]; [by rewrite HA|].
  destruct (Z.eqb_spec (Qtype q) TypeSRV) as [Hs|Hs]; [by rewrite HS|].
  done.
Qed.

(** The SRV case: the SRV answer, then one A-typed call on the target. *)
Lemma Lookup_SRV_unfold (fuel : nat) (c : Config) (answers : list RR) (q : Question)
    (src : Addr) (rec : SRV) :
  Qtype q = TypeSRV ->
  lookupSRV c (Q_Name q) = Some rec ->
  Lookup (S (S fuel)) c answers q src
  = (r ← Lookup 1 c (answers ++ [RR_SRV rec])
                {| Q_Name := Target rec; Qtype := TypeA;
                   Qclass := Class (SRV_Hdr rec) |} src;
     Returns {| answers := MdnsDns.answers r; err := err r; calls := q :: calls r |}).
Proof.
  intros Hq Hrec. rewrite <- (Lookup_A_fuel fuel) by done.
  cbn [Lookup]. rewrite Hq, Hrec.
  change (Z.eqb TypeSRV TypeA) with false.
  by change (Z.eqb TypeSRV TypeSRV) with true.
Qed.

(** [Lookup] returns for every store and question once the depth is two. *)
Lemma Lookup_total (fuel : nat) (c : Config) (answers : list RR) (q : Question)
    (src : Addr) :
  exists r, Lookup (S (S fuel)) c answers q src = Returns r /\
            length (calls r) <= 2.
Proof.
  destruct (Z.eqb_spec (Qtype q) TypeA) as [Ha|Ha].
  - rewrite Lookup_A_fuel by done.
    destruct (Lookup_A_returns c answers q src Ha) as (r & -> & Hc & _).
    exists r. rewrite Hc. simpl. split; [done|lia].
  - destruct (Z.eqb_spec (Qtype q) TypeSRV) as [Hs|Hs].
    + destruct (lookupSRV c (Q_Name q)) as [rec|] eqn:Hrec.
      * rewrite (Lookup_SRV_unfold _ _ _ _ _ rec) by done.
        edestruct (Lookup_A_returns c (answers ++ [RR_SRV rec])) as (r & -> & Hc & _);
          [reflexivity|].
        simpl. eexists. split; [done|]. simpl. rewrite Hc. simpl. lia.
      * rewrite Lookup_no_match; [|congruence|done].
        eexists. split; [done|]. simpl. lia.
    + rewrite Lookup_no_match; [|congruence|congruence].
      eexists. split; [done|]. simpl. lia.
Qed.

End LookupDns.

(** ** Adding and removing records (miekg/dns implementation) *)
Section AddRemoveDns.
Import Go dns MdnsDns.

Lemma removeARecord_last (c : Config) (recs : list DynamicARR) (r : DynamicARR) :
  ARecords c = recs ++ [r] ->
  removeARecord (AName r) c
  = Panics (IndexOutOfRange (length (ARecords c)) (length (ARecords c))).
Proof.
  intros Hc. unfold removeARecord. rewrite Hc, removeARecord_loop_last.
  by rewrite length_app.
Qed.

Lemma removeSRVRecord_last (c : Config) (recs : list SRV) (r : SRV) :
  SRVRecords c = recs ++ [r] ->
  removeSRVRecord (SRVName r) c
  = Panics (IndexOutOfRange (length (SRVRecords c)) (length (SRVRecords c))).
Proof.
  intros Hc. unfold removeSRVRecord. rewrite Hc, removeSRVRecord_loop_last.
  by rewrite length_app.
Qed.

(** A name no record carries is reported as not found, and the scan stays
    in range. *)
Lemma removeARecord_loop_absent (name : string) (recs : list DynamicARR) (k : nat) :
  k <= length recs ->
  (forall i x, i < k -> recs !! i = Some x -> String.eqb (AName x) name = false) ->
  removeARecord_loop name recs k = Returns None.
Proof.
  induction k as [|i IH]; intros Hk Hno; simpl; [done|].
  destruct (index_in_range recs i) as (x & Hx & ->); [lia|]. simpl.
  rewrite (Hno i x) by (done || lia). apply IH; [lia|].
  intros j y Hj. apply Hno. lia.
Qed.

Lemma removeARecord_absent (name : string) (c : Config) :
  (forall x, x ∈ ARecords c -> String.eqb (AName x) name = false) ->
  removeARecord name c = Returns (c, Some errRecordNotFound).
Proof.
  intros Hno. unfold removeARecord.
  rewrite removeARecord_loop_absent; [done|done|].
  intros i x _ Hx. apply Hno. by eapply list_elem_of_lookup_2.
Qed.



(** When the duplicate scan says no, no record carries the name. *)
Lemma addSRVRecordToConfig_loop_false (name : string) (recs : list SRV) (k : nat) :
  k <= length recs ->
  addSRVRecordToConfig_loop name recs k = Returns false ->
  forall i x, i < k -> recs !! i = Some x -> String.eqb (SRVName x) name = false.
Proof.
  induction k as [|j IH]; intros Hk Hloop i x Hi Hx; [lia|].
  simpl in Hloop.
  destruct (index_in_range recs j) as (y & Hy & Hidx); [lia|].
  rewrite Hidx in Hloop. simpl in Hloop.
  destruct (String.eqb (SRVName y) name) eqn:Hyn; [discriminate|].
  destruct (decide (i = j)) as [->|Hne].
  - congruence.
  - apply (IH ltac:(lia) Hloop i x); [lia|done].
Qed.

Lemma lookupSRV_range_app (name : string) (recs rest : list SRV) :
  (forall x, x ∈ recs -> String.eqb (SRVName x) name = false) ->
  lookupSRV_range (recs ++ rest) name = lookupSRV_range rest name.
Proof.
  induction recs as [|y recs IH]; intros Hno; simpl; [done|].
  rewrite (Hno y) by left. apply IH. intros x Hx. apply Hno. by right.
Qed.

(** After a successful [addSRVRecord] the new record is the one
    [lookupSRV] finds under the canonical name. *)
Lemma addSRVRecord_lookupSRV (name : string) (priority weight port : Z)
    (target : string) (c c' : Config) (rec : SRV) :
  addSRVRecord name priority weight port target c = Returns (c', nil) ->
  SRVRecords c' = SRVRecords c ++ [rec] ->
  SRVName rec = addDot name ->
  lookupSRV c' (addDot name) = Some rec.
Proof.
  intros Hadd Hc' Hname. unfold lookupSRV. rewrite Hc'.
  rewrite lookupSRV_range_app.
  - simpl. by rewrite Hname, String.eqb_refl.
  - intros x Hx. apply list_elem_of_lookup_1 in Hx as [i Hi].
    unfold addSRVRecord in Hadd.
    destruct (String.eqb name EmptyString || String.eqb target EmptyString); [discriminate|].
    simpl in Hadd. unfold addSRVRecordToConfig in Hadd.
    destruct (addSRVRecordToConfig_loop _ (SRVRecords c) _) as [b| |] eqn:Hloop;
      simpl in Hadd; try discriminate.
    destruct b; [discriminate|].
    eapply (addSRVRecordToConfig_loop_false _ _ _ (Nat.le_refl _) Hloop i x);
      [by eapply lookup_lt_Some|done].
Qed.

End AddRemoveDns.

(** C10 (as the code behaves): when the record that matches the name is the
    last element of the record list -- in particular when it is the only
    matching one -- [removeARecord] and [removeSRVRecord] do not complete:
    they index the list one past its end and panic. *)
Theorem remove_last_record_out_of_bounds :
  forall (c : MdnsDns.Config) (arecs : list MdnsDns.DynamicARR) (a : MdnsDns.DynamicARR)
         (srecs : list dns.SRV) (s : dns.SRV),
    MdnsDns.removeARecord (MdnsDns.AName a) (MdnsDns.setARecords c (arecs ++ [a]))
    = Go.Panics (Go.IndexOutOfRange (length arecs + 1) (length arecs + 1))
    /\
    MdnsDns.removeSRVRecord (MdnsDns.SRVName s) (MdnsDns.setSRVRecords c (srecs ++ [s]))
    = Go.Panics (Go.IndexOutOfRange (length srecs + 1) (length srecs + 1)).
Proof.
  intros c arecs a srecs s. split.
  - rewrite (removeARecord_last _ arecs a) by reflexivity.
    simpl. by rewrite length_app.
  - rewrite (removeSRVRecord_last _ srecs s) by reflexivity.
    simpl. by rewrite length_app.
Qed.

(** C4 (as the code behaves): after [addARecord] has inserted a record,
    [removeARecord] of its canonical name does not return the store to a
    state without that record: it panics on the out-of-range index, the new
    record being the last element.  Likewise for
    [addSRVRecord]/[removeSRVRecord]. *)
Theorem add_then_remove_panics :
  forall (name : string) (dst : option Go.IP) (dyn : bool)
         (priority weight port : Z) (target : string)
         (c cA cS : MdnsDns.Config),
    MdnsDns.addARecord name dst dyn c = Go.Returns (cA, Go.nil) ->
    MdnsDns.addSRVRecord name priority weight port target c = Go.Returns (cS, Go.nil) ->
    MdnsDns.removeARecord (addDot name) cA
    = Go.Panics (Go.IndexOutOfRange (length (MdnsDns.ARecords cA))
                                    (length (MdnsDns.ARecords cA)))
    /\
    MdnsDns.removeSRVRecord (addDot name) cS
    = Go.Panics (Go.IndexOutOfRange (length (MdnsDns.SRVRecords cS))
                                    (length (MdnsDns.SRVRecords cS))).
Proof.
  intros name dst dyn priority weight port target c cA cS HA HS.
  apply addARecord_ok_inv in HA as (ra & HcA & _ & Hna & _).
  apply addSRVRecord_ok_inv in HS as (rs & HcS & _ & Hns & _).
  split.
  - rewrite <- Hna. by eapply removeARecord_last.
  - rewrite <- Hns. by eapply removeSRVRecord_last.
Qed.

Lemma add_then_remove_panics_witness :
  MdnsDns.addARecord "printer.local" (Some [10; 0; 0; 5]%Z) false MdnsDns.emptyConfig
  = Go.Returns (Fixture.printerStore, Go.nil)
  /\
  MdnsDns.addSRVRecord "printer.local" 0 0 631 "host.local" MdnsDns.emptyConfig
  = Go.Returns (Fixture.printerServiceStore, Go.nil)
  /\
  MdnsDns.removeARecord (addDot "printer.local") Fixture.printerStore
  = Go.Panics (Go.IndexOutOfRange (length (MdnsDns.ARecords Fixture.printerStore))
                                  (length (MdnsDns.ARecords Fixture.printerStore)))
  /\
  MdnsDns.removeSRVRecord (addDot "printer.local") Fixture.printerServiceStore
  = Go.Panics
      (Go.IndexOutOfRange (length (MdnsDns.SRVRecords Fixture.printerServiceStore))
                          (length (MdnsDns.SRVRecords Fixture.printerServiceStore))).
Proof.
  split; [reflexivity|]. split; [reflexivity|].
  apply (add_then_remove_panics "printer.local" (Some [10; 0; 0; 5]%Z) false
           0 0 631 "host.local" MdnsDns.emptyConfig); reflexivity.
Defined.

(** A record that is not the last one is removed together with whatever
    follows its successor: of four records, removing the first leaves
    the second alone. *)
Lemma removeARecord_four_records :
  MdnsDns.AName
    <$> MdnsDns.ARecords
          (MdnsDns.setARecords MdnsDns.emptyConfig
             (Fixture.named <$> ["a.local."; "b.local."; "c.local."; "d.local."]))
  = ["a.local."; "b.local."; "c.local."; "d.local."]
  /\
  MdnsDns.removeARecord "a.local."
    (MdnsDns.setARecords MdnsDns.emptyConfig
       (Fixture.named <$> ["a.local."; "b.local."; "c.local."; "d.local."]))
  = Go.Returns (MdnsDns.setARecords MdnsDns.emptyConfig [Fixture.named "b.local."],
                Go.nil).
Proof. split; reflexivity. Qed.

(** C9 (as the code behaves): a record inserted by [addSRVRecord] has type
    code [TypeSRV] = 33 but TTL 0, not 10: [createSRVRecord] never sets
    [Ttl].  The SRV answer [Lookup] emits for it carries that TTL. *)
Theorem addSRVRecord_ttl_is_zero :
  forall (U : Util) (name : string) (priority weight port : Z) (target : string)
         (c c' : MdnsDns.Config) (src : Go.Addr) (fuel : nat),
    MdnsDns.addSRVRecord name priority weight port target c = Go.Returns (c', Go.nil) ->
    exists rec,
      MdnsDns.SRVRecords c' = MdnsDns.SRVRecords c ++ [rec] /\
      dns.Rrtype (dns.SRV_Hdr rec) = 33%Z /\
      dns.Ttl (dns.SRV_Hdr rec) = 0%Z /\
      dns.Ttl (dns.SRV_Hdr rec) <> MdnsDns.responseTTL /\
      exists r,
        MdnsDns.Lookup (S (S fuel)) c' []
          {| dns.Q_Name := addDot name; dns.Qtype := dns.TypeSRV;
             dns.Qclass := dns.ClassINET |} src = Go.Returns r /\
        head (MdnsDns.answers r) = Some (MdnsDns.RR_SRV rec).
Proof.
  intros U name priority weight port target c c' src fuel Hadd.
  destruct (addSRVRecord_ok_inv _ _ _ _ _ _ _ Hadd)
    as (rec & Hc' & _ & Hname & _ & Hty & Httl).
  exists rec. split; [done|]. split; [done|]. split; [done|].
  split; [rewrite Httl; done|].
  pose proof (addSRVRecord_lookupSRV _ _ _ _ _ _ _ _ Hadd Hc' Hname) as Hl.
  rewrite (Lookup_SRV_unfold fuel c' [] _ src rec) by done.
  edestruct (Lookup_A_returns c' ([] ++ [MdnsDns.RR_SRV rec])) as (r & -> & _ & Hans);
    [reflexivity|].
  simpl. eexists. split; [done|]. simpl.
  destruct Hans as [->|(a & -> & _)]; done.
Qed.

(** For A records the header is as expected: a record inserted by
    [addARecord] has type code [TypeA] = 1 and TTL 10. *)
Lemma addARecord_type_and_ttl (name : string) (dst : option Go.IP) (dyn : bool)
    (c c' : MdnsDns.Config) :
  MdnsDns.addARecord name dst dyn c = Go.Returns (c', Go.nil) ->
  exists rec,
    MdnsDns.ARecords c' = MdnsDns.ARecords c ++ [rec] /\
    dns.Rrtype (dns.A_Hdr (MdnsDns.A_ rec)) = 1%Z /\
    dns.Ttl (dns.A_Hdr (MdnsDns.A_ rec)) = 10%Z.
Proof.
  intros Hadd. apply addARecord_ok_inv in Hadd as (rec & Hc' & _ & _ & Hty & Httl).
  by exists rec.
Qed.

(** In the miekg/dns implementation, for every store, an SRV-typed lookup
    of a name with a matching SRV record returns the SRV answer followed by
    what one A-typed lookup of the target (same source address) returns;
    that inner call needs depth one only, so the recursion stops there, and
    the two questions [Lookup] is entered with are the given one and
    (target, TypeA). *)
Lemma Lookup_SRV_chases_target_once :
  forall (U : Util) (fuel : nat) (c : MdnsDns.Config) (answers : list MdnsDns.RR)
         (q : dns.Question) (src : Go.Addr) (rec : dns.SRV),
    dns.Qtype q = dns.TypeSRV ->
    MdnsDns.lookupSRV c (dns.Q_Name q) = Some rec ->
    let newQ := {| dns.Q_Name := dns.Target rec; dns.Qtype := dns.TypeA;
                   dns.Qclass := dns.Class (dns.SRV_Hdr rec) |} in
    exists r',
      MdnsDns.Lookup 1 c (answers ++ [MdnsDns.RR_SRV rec]) newQ src = Go.Returns r' /\
      MdnsDns.calls r' = [newQ] /\
      MdnsDns.Lookup (S (S fuel)) c answers q src
      = Go.Returns {| MdnsDns.answers := MdnsDns.answers r';
                      MdnsDns.err := MdnsDns.err r';
                      MdnsDns.calls := [q; newQ] |}.
Proof.
  intros U fuel c answers q src rec Hq Hrec newQ.
  destruct (Lookup_A_returns c (answers ++ [MdnsDns.RR_SRV rec]) newQ src)
    as (r' & Hr' & Hcalls & _); [reflexivity|].
  exists r'. split; [done|]. split; [done|].
  rewrite (Lookup_SRV_unfold fuel c answers q src rec) by done.
  fold newQ. rewrite Hr'. simpl. by rewrite Hcalls.
Qed.

(** ** [Lookup] of the dnsmessage implementation *)
Section LookupMsg.
Import Go dnsmessage MdnsMsg.
Context `{Util}.

Lemma lookupSRV_range_name (recs : list Resource) (name : string) (rec : Resource) :
  lookupSRV_range recs name = Some rec -> RH_Name (R_Header rec) = name.
Proof.
  induction recs as [|x recs IH]; simpl; [discriminate|].
  destruct (String.eqb (SRVName x) name) eqn:Hx; [|done].
  intros [= <-]. by apply String.eqb_eq.
Qed.

(** The SRV case calls [Lookup] with the record's own header fields. *)
Lemma Lookup_old_SRV_unfold (fuel : nat) (c : Config) (answers : list Resource)
    (name : string) (class : Z) (src : Addr) (rec : Resource) :
  lookupSRV c name = Some rec ->
  Lookup (S fuel) c answers name TypeSRV class src
  = (r ← Lookup fuel c answers name (RH_Type (R_Header rec))
                (RH_Class (R_Header rec)) src;
     Returns {| answers := match err r with
                           | Some _ => answers ++ [rec]
                           | None => answers
                           end;
                err := nil;
                calls := (name, TypeSRV) :: calls r |}).
Proof.
  intros Hrec. cbn [Lookup]. change (Z.eqb TypeSRV TypeA) with false.
  change (Z.eqb TypeSRV TypeSRV) with true. cbv iota. rewrite Hrec.
  by rewrite (lookupSRV_range_name _ _ _ Hrec).
Qed.

(** [Lookup] only ever asks for the name it was given. *)
Lemma Lookup_old_calls_same_name (fuel : nat) (c : Config) (answers : list Resource)
    (name : string) (ttype class : Z) (src : Addr) (r : LookupResult) :
  Lookup fuel c answers name ttype class src = Returns r ->
  forall call, call ∈ calls r -> call.1 = name.
Proof.
  revert answers ttype class r.
  induction fuel as [|fuel IH]; intros answers ttype class r; [discriminate|].
  cbn [Lookup].
  destruct (Z.eqb ttype TypeA).
  { destruct (lookupA c name) as [rec|].
    - destruct (Dynamic rec); [destruct (AddDynamicIP rec src) as [? [?|]]|];
        intros [= <-] call Hin; simpl in Hin;
        apply list_elem_of_singleton in Hin; by subst.
    - intros [= <-] call Hin; simpl in Hin.
      apply list_elem_of_singleton in Hin; by subst. }
  destruct (Z.eqb ttype TypeSRV).
  - destruct (lookupSRV c name) as [rec|] eqn:Hrec.
    + rewrite (lookupSRV_range_name _ _ _ Hrec).
      destruct (Lookup fuel c answers name _ _ src) as [r'| |] eqn:Hr';
        simpl; try discriminate.
      intros [= <-] call Hin. simpl in Hin.
      apply elem_of_cons in Hin as [->|Hin]; [done|].
      by eapply IH.
    + intros [= <-] call Hin; simpl in Hin.
      apply list_elem_of_singleton in Hin; by subst.
  - intros [= <-] call Hin; simpl in Hin.
    apply list_elem_of_singleton in Hin; by subst.
Qed.

(** The first entry of [calls] is the call itself. *)
Lemma Lookup_old_calls_head (fuel : nat) (c : Config) (answers : list Resource)
    (name : string) (ttype class : Z) (src : Addr) (r : LookupResult) :
  Lookup fuel c answers name ttype class src = Returns r ->
  exists rest, calls r = (name, ttype) :: rest.
Proof.
  destruct fuel as [|fuel]; [discriminate|]. cbn [Lookup].
  destruct (Z.eqb ttype TypeA).
  { destruct (lookupA c name) as [rec|];
      [destruct (Dynamic rec); [destruct (AddDynamicIP rec src) as [? [?|]]|]|];
      intros [= <-]; simpl; eauto. }
  destruct (Z.eqb ttype TypeSRV); [|intros [= <-]; simpl; eauto].
  destruct (lookupSRV c name) as [rec|]; [|intros [= <-]; simpl; eauto].
  destruct (Lookup fuel c answers _ _ _ src); simpl; try discriminate.
  intros [= <-]; simpl; eauto.
Qed.

(** A call for any type but SRV returns without calling [Lookup] again. *)
Lemma Lookup_old_not_SRV_returns (fuel : nat) (c : Config) (answers : list Resource)
    (name : string) (ttype class : Z) (src : Addr) :
  ttype <> TypeSRV ->
  exists r, Lookup (S fuel) c answers name ttype class src = Returns r
            /\ calls r = [(name, ttype)].
Proof.
  intros Hty. cbn [Lookup].
  destruct (Z.eqb ttype TypeA).
  { destruct (lookupA c name) as [rec|];
      [destruct (Dynamic rec); [destruct (AddDynamicIP rec src) as [? [?|]]|]|];
      eexists; split; done. }
  destruct (Z.eqb_spec ttype TypeSRV); [done|].
  eexists; split; done.
Qed.

(** With an SRV record whose header type is SRV the call never returns. *)
Lemma Lookup_old_SRV_typed_diverges (fuel : nat) (c : Config) (answers : list Resource)
    (name : string) (class : Z) (src : Addr) (rec : Resource) :
  lookupSRV c name = Some rec ->
  RH_Type (R_Header rec) = TypeSRV ->
  Lookup fuel c answers name TypeSRV class src = OutOfFuel.
Proof.
  intros Hrec Hty. revert class.
  induction fuel as [|fuel IH]; intros class; [done|].
  rewrite (Lookup_old_SRV_unfold _ _ _ _ _ _ rec) by done.
  by rewrite Hty, IH.
Qed.

End LookupMsg.

(** C1 (as the dnsmessage implementation behaves): an SRV-typed [Lookup] of
    a name with a matching SRV record calls [Lookup] again with the
    record's own name and its own header type.  When that type is not SRV
    (the API stores SRV records with header type A) the call returns after
    these two calls, both for the same name: the target's A record is not
    looked up. *)
Theorem Lookup_old_requeries_own_name :
  forall (U : Util) (fuel : nat) (c : MdnsMsg.Config)
         (answers : list dnsmessage.Resource) (name : string) (class : Z)
         (src : Go.Addr) (rec : dnsmessage.Resource),
    MdnsMsg.lookupSRV c name = Some rec ->
    dnsmessage.RH_Type (dnsmessage.R_Header rec) <> dnsmessage.TypeSRV ->
    exists r,
      MdnsMsg.Lookup (S (S fuel)) c answers name dnsmessage.TypeSRV class src
      = Go.Returns r
      /\ MdnsMsg.calls r
         = [(name, dnsmessage.TypeSRV);
            (name, dnsmessage.RH_Type (dnsmessage.R_Header rec))]
      /\ MdnsMsg.err r = Go.nil
      /\ (MdnsMsg.answers r = answers \/ MdnsMsg.answers r = answers ++ [rec]).
Proof.
  intros U fuel c answers name class src rec Hrec Hty.
  rewrite (Lookup_old_SRV_unfold _ _ _ _ _ _ rec) by done.
  destruct (Lookup_old_not_SRV_returns fuel c answers name
              (dnsmessage.RH_Type (dnsmessage.R_Header rec))
              (dnsmessage.RH_Class (dnsmessage.R_Header rec)) src Hty)
    as (r' & -> & Hcalls).
  simpl. eexists. split; [done|]. simpl. rewrite Hcalls.
  split; [done|]. split; [done|]. destruct (MdnsMsg.err r'); auto.
Qed.

(** ** The query registry under [processAnswers] *)
Section RegistryDns.
Import Go dns MdnsDns Registry.

Lemma removeQuery_middle (pre post : list query) (x : query) :
  removeQuery (pre ++ x :: post) (length pre) = pre ++ post.
Proof.
  unfold removeQuery. rewrite take_app_length.
  replace (length pre + 1) with (length (pre ++ [x])) by (rewrite length_app; simpl; lia).
  by rewrite (cons_middle x pre post), app_assoc, drop_app_length.
Qed.

(** The scan for one header: the matching entries are removed, each after
    one send to its sink, and the scan stays in range. *)
Lemma deliver_spec (name : string) (rrtype : Z) (res : QueryResult)
    (pre post : list query) :
  deliver name rrtype res (pre ++ post) (length pre)
  = Returns (List.filter (fun q => negb (queryMatches q name rrtype)) pre ++ post,
             sends res (rev (List.filter (fun q => queryMatches q name rrtype) pre))).
Proof.
  revert post. induction pre as [|x pre IH] using rev_ind; intros post; [done|].
  rewrite length_app. simpl length. rewrite Nat.add_1_r. cbn [deliver].
  rewrite <- app_assoc, <- cons_middle.
  unfold index at 1. rewrite list_lookup_middle by done. simpl.
  rewrite !List.filter_app. simpl List.filter.
  destruct (queryMatches x name rrtype) eqn:Hx; simpl.
  - rewrite removeQuery_middle, IH. simpl.
    by rewrite rev_unit, app_nil_r.
  - rewrite IH, !app_nil_r. by rewrite <- app_assoc.
Qed.

Lemma deliver_all (name : string) (rrtype : Z) (res : QueryResult) (qs : list query) :
  deliver name rrtype res qs (length qs)
  = Returns (List.filter (fun q => negb (queryMatches q name rrtype)) qs,
             sends res (rev (List.filter (fun q => queryMatches q name rrtype) qs))).
Proof.
  pose proof (deliver_spec name rrtype res qs []) as Hd.
  by rewrite !app_nil_r in Hd.
Qed.

(** One answer record: what the type switch and the scan do together. *)
Lemma processAnswers_step (msg : Msg RR) (src : Addr) (a : RR) (qs : list query) :
  match a with
  | RR_A rr =>
      deliver (Name (A_Hdr rr)) (Rrtype (A_Hdr rr))
              {| answer := Answer msg; addr := src |} qs (length qs)
  | RR_SRV rr =>
      deliver (Name (SRV_Hdr rr)) (Rrtype (SRV_Hdr rr))
              {| answer := Answer msg; addr := src |} qs (length qs)
  | _ => Returns (qs, [])
  end
  = Returns (List.filter (fun q => negb (answeredBy a q)) qs,
             sends {| answer := Answer msg; addr := src |}
                   (rev (List.filter (answeredBy a) qs))).
Proof.
  destruct a as [r|rr|rr|h]; unfold answeredBy; simpl;
    try (by rewrite filter_all, filter_none); apply deliver_all.
Qed.

Lemma processAnswers_range_spec (msg : Msg RR) (src : Addr) (rrs : list RR)
    (qs : list query) :
  processAnswers_range msg src rrs qs
  = Returns (List.filter (fun q => negb (answeredByAny rrs q)) qs,
             deliveries {| answer := Answer msg; addr := src |} rrs qs).
Proof.
  revert qs. induction rrs as [|a rrs IH]; intros qs.
  - simpl. by rewrite filter_all.
  - cbn [processAnswers_range]. rewrite processAnswers_step. simpl.
    rewrite IH. simpl. f_equal. f_equal.
    clear. induction qs as [|x qs IHq]; simpl; [done|].
    destruct (answeredBy a x); simpl; [done|].
    destruct (answeredByAny rrs x); simpl; [done|by f_equal].
Qed.

(** Each removed entry gets one delivery: the deliveries are, up to order,
    one send per entry some answer matches. *)
Lemma deliveries_perm (res : QueryResult) (rrs : list RR) (qs : list query) :
  deliveries res rrs qs ≡ₚ sends res (List.filter (answeredByAny rrs) qs).
Proof.
  revert qs. induction rrs as [|a rrs IH]; intros qs.
  - simpl. by rewrite filter_none.
  - simpl. rewrite IH. unfold sends. rewrite <- (Permutation_rev (List.filter _ qs)).
    rewrite <- map_app. apply Permutation_map.
    induction qs as [|x qs IHq]; simpl; [done|].
    destruct (answeredBy a x); simpl; [by rewrite IHq|].
    destruct (answeredByAny rrs x); simpl; [|done].
    by rewrite <- Permutation_middle, IHq.
Qed.

End RegistryDns.

(** ** The packet engine of the miekg/dns implementation *)
Section EngineDns.
Import Go dns MdnsDns Registry.
Context `{Util} `{WireCodec (Msg RR)}.

Lemma gated_stops (h : MsgHdr) :
  gated h ->
  negb (Z.eqb (Opcode h) OpcodeQuery) = true
  \/ negb (Z.eqb (Opcode h) OpcodeQuery) = false /\
     (negb (Z.eqb (Rcode h) 0) = true
      \/ negb (Z.eqb (Rcode h) 0) = false /\ Truncated h = true).
Proof.
  unfold gated, OpcodeQuery. intros Hg.
  destruct (Z.eqb_spec (Opcode h) 0); simpl; [right; split; [done|]|by left].
  destruct (Z.eqb_spec (Rcode h) 0); simpl; [right; split; [done|]|by left].
  destruct Hg as [?|[?|?]]; done.
Qed.

(** A gated packet leaves the connection as it was and has no effect,
    whatever the recursion depth given to [Lookup]. *)
Lemma Start_packet_gated (fuel : nat) (c : Conn) (buf : list Z) (src : Addr)
    (msg : Msg RR) :
  Unpack buf = inl msg ->
  gated (Hdr msg) ->
  Start_packet fuel c buf src = Returns (c, [])
  /\ start_packet fuel c buf src = Returns (c, []).
Proof.
  intros Hmsg Hg. unfold Start_packet, start_packet.
  destruct (IsMsg buf); [done|]. rewrite Hmsg.
  destruct (gated_stops _ Hg) as [->|[-> [->|[-> ->]]]]; done.
Qed.

(** A packet the decoder refuses has no effect either. *)
Lemma Start_packet_undecodable (fuel : nat) (c : Conn) (buf : list Z) (src : Addr) :
  IsMsg buf <> None \/ (exists e, Unpack buf = inr e) ->
  Start_packet fuel c buf src = Returns (c, [])
  /\ start_packet fuel c buf src = Returns (c, []).
Proof.
  unfold Start_packet, start_packet.
  intros [Hn|[e He]]; destruct (IsMsg buf); try done; by rewrite He.
Qed.

(** A run of the receive loop over gated packets only: no outbound
    message, no delivery, and the registry is the one the loop started
    with. *)
Lemma Start_gated_run (fuel : nat) (c : Conn) (evs : list event) :
  (forall buf src, Packet buf src ∈ evs ->
     exists msg, Unpack buf = inl msg /\ gated (Hdr msg)) ->
  exists c', Start fuel c evs = Returns (c', []) /\ queries c' = queries c.
Proof.
  induction evs as [|ev evs IH]; intros Hall; cbn [Start]; [by eexists|].
  destruct ev as [buf src|]; [|by eexists].
  destruct (Hall buf src) as (msg & Hmsg & Hg); [by left|].
  destruct (Start_packet_gated fuel c buf src msg Hmsg Hg) as [-> _].
  destruct IH as (c' & Hrun & Hq); [intros b s Hin; apply (Hall b s); by right|].
  exists c'. destruct (0 <? length buf)%nat; simpl; by rewrite Hrun.
Qed.

(** [processQuestions] on a single question that finds no record. *)
Lemma processQuestions_no_match (fuel : nat) (c : Conn) (msg : Msg RR) (src : Addr)
    (q : Question) :
  (Qtype q = TypeA -> lookupA (config c) (Q_Name q) = None) ->
  (Qtype q = TypeSRV -> lookupSRV (config c) (Q_Name q) = None) ->
  Questions msg = [q] ->
  processQuestions (S fuel) c msg src
  = Returns (sendAnswer c (createAnswerMessage msg []) src).
Proof.
  intros HA HS Hq. unfold processQuestions. rewrite Hq.
  cbn [processQuestions_range]. rewrite Lookup_no_match by done.
  simpl. by rewrite app_nil_r.
Qed.

End EngineDns.

(** C3 (as the code behaves): for a question no record of the store
    matches, [Lookup] returns an empty result and no error, and the engine
    then does send a response for that question: [processQuestions] tests
    the error only, builds the answer message from the empty result and
    writes it to the socket. *)
Theorem empty_lookup_is_answered :
  forall (U : Util) (W : WireCodec (dns.Msg MdnsDns.RR)) (fuel : nat)
         (c : MdnsDns.Conn) (msg : dns.Msg MdnsDns.RR) (src : Go.Addr)
         (q : dns.Question) (raw : list Z),
    (dns.Qtype q = dns.TypeA -> MdnsDns.lookupA (MdnsDns.config c) (dns.Q_Name q) = None) ->
    (dns.Qtype q = dns.TypeSRV ->
       MdnsDns.lookupSRV (MdnsDns.config c) (dns.Q_Name q) = None) ->
    dns.Questions msg = [q] ->
    Pack (MdnsDns.createAnswerMessage msg []) = inl raw ->
    MdnsDns.Lookup (S fuel) (MdnsDns.config c) [] q src
    = Go.Returns {| MdnsDns.answers := []; MdnsDns.err := Go.nil; MdnsDns.calls := [q] |}
    /\
    MdnsDns.processQuestions (S fuel) c msg src
    = Go.Returns [MdnsDns.WriteTo raw (MdnsDns.dstAddr c)]
    /\
    dns.Answer (MdnsDns.createAnswerMessage msg []) = [].
Proof.
  intros U W fuel c msg src q raw HA HS Hq Hpack.
  split; [by apply Lookup_no_match|]. split; [|done].
  rewrite (processQuestions_no_match fuel c msg src q) by done.
  unfold MdnsDns.sendAnswer. by rewrite Hpack.
Qed.

Lemma empty_lookup_is_answered_witness :
  @MdnsDns.Lookup Fixture.util 1 (MdnsDns.config Fixture.conn) []
    Fixture.askNoMatch Fixture.peer
  = Go.Returns {| MdnsDns.answers := []; MdnsDns.err := Go.nil;
                  MdnsDns.calls := [Fixture.askNoMatch] |}
  /\
  @MdnsDns.processQuestions Fixture.util Fixture.codec 1 Fixture.conn
    Fixture.msgQuestion Fixture.peer
  = Go.Returns [MdnsDns.WriteTo [0; 1; 0; 0; 0]%Z Fixture.group]
  /\
  dns.Answer (MdnsDns.createAnswerMessage Fixture.msgQuestion []) = [].
Proof.
  apply (empty_lookup_is_answered Fixture.util Fixture.codec 0 Fixture.conn
           Fixture.msgQuestion Fixture.peer Fixture.askNoMatch);
    reflexivity.
Defined.

Lemma addSRVRecord_ttl_is_zero_witness :
  MdnsDns.addSRVRecord "_svc._tcp.local" 0 0 8080 "node.local" MdnsDns.emptyConfig
  = Go.Returns (Fixture.serviceStore, Go.nil)
  /\
  exists rec,
    MdnsDns.SRVRecords Fixture.serviceStore
    = MdnsDns.SRVRecords MdnsDns.emptyConfig ++ [rec] /\
    dns.Rrtype (dns.SRV_Hdr rec) = 33%Z /\
    dns.Ttl (dns.SRV_Hdr rec) = 0%Z /\
    dns.Ttl (dns.SRV_Hdr rec) <> MdnsDns.responseTTL /\
    exists r,
      @MdnsDns.Lookup Fixture.util 2 Fixture.serviceStore []
        {| dns.Q_Name := addDot "_svc._tcp.local"; dns.Qtype := dns.TypeSRV;
           dns.Qclass := dns.ClassINET |} Fixture.peer = Go.Returns r /\
      head (MdnsDns.answers r) = Some (MdnsDns.RR_SRV rec).
Proof.
  split; [reflexivity|].
  apply (addSRVRecord_ttl_is_zero Fixture.util "_svc._tcp.local" 0 0 8080 "node.local"
           MdnsDns.emptyConfig Fixture.serviceStore Fixture.peer 0).
  reflexivity.
Defined.

(** The store of the example is the one the API builds. *)
Lemma oldServiceStore_built :
  exists c1,
    MdnsMsg.AddSRVRecord "_svc._tcp.local." 0 0 8080 "node.local." MdnsMsg.emptyConfig
    = Go.Returns (c1, Go.nil) /\
    @MdnsMsg.AddARecord Fixture.util "node.local." (Some [10; 0; 0; 9]%Z) false c1
    = Go.Returns (Fixture.oldServiceStore, Go.nil).
Proof. eexists. split; reflexivity. Qed.

Lemma Lookup_old_requeries_own_name_witness :
  MdnsMsg.lookupSRV Fixture.oldServiceStore "_svc._tcp.local."
  = Some Fixture.oldServiceRecord
  /\
  exists r,
    @MdnsMsg.Lookup Fixture.util 2 Fixture.oldServiceStore [] "_svc._tcp.local."
      dnsmessage.TypeSRV 1 Fixture.peer
    = Go.Returns r
    /\ MdnsMsg.calls r
       = [("_svc._tcp.local.", dnsmessage.TypeSRV);
          ("_svc._tcp.local.",
           dnsmessage.RH_Type (dnsmessage.R_Header Fixture.oldServiceRecord))]
    /\ MdnsMsg.err r = Go.nil
    /\ (MdnsMsg.answers r = [] \/ MdnsMsg.answers r = [] ++ [Fixture.oldServiceRecord]).
Proof.
  split; [reflexivity|].
  apply (Lookup_old_requeries_own_name Fixture.util 0 Fixture.oldServiceStore []
           "_svc._tcp.local." 1 Fixture.peer Fixture.oldServiceRecord);
    [reflexivity|discriminate].
Defined.

(** The same lookup, evaluated: the record's own name is asked for twice,
    node.local. never, and the slice the caller passed stays empty. *)
Lemma Lookup_old_service_example :
  @MdnsMsg.Lookup Fixture.util 2 Fixture.oldServiceStore [] "_svc._tcp.local."
    dnsmessage.TypeSRV 1 Fixture.peer
  = Go.Returns {| MdnsMsg.answers := [Fixture.oldServiceRecord];
                  MdnsMsg.err := Go.nil;
                  MdnsMsg.calls := [("_svc._tcp.local.", 33%Z);
                                    ("_svc._tcp.local.", 1%Z)] |}.
Proof. reflexivity. Qed.

(** ** The packet engine of the dnsmessage implementation *)
Section EngineMsg.
Import Go dnsmessage MdnsMsg.
Context `{Util} `{ParserLib P}.

(** With an empty registry the answer loop changes nothing. *)
Lemma start_answers_empty (src : Addr) (p : P) (n : nat) :
  start_answers src p n [] = Returns ([], []).
Proof.
  revert p. induction n as [|n IH]; intros p; [done|]. cbn [start_answers].
  destruct (Parser_AnswerHeader p) as [p' [a|e]]; [|done].
  destruct (negb (Z.eqb (RH_Type a) TypeA) && negb (Z.eqb (RH_Type a) TypeAAAA));
    [apply IH|].
  simpl. by rewrite IH.
Qed.

(** A static A record is found and reported without error. *)
Lemma Lookup_old_static_A (fuel : nat) (c : Config) (answers : list Resource)
    (name : string) (class : Z) (src : Addr) (rec : DynamicARecord) :
  lookupA c name = Some rec ->
  Dynamic rec = false ->
  Lookup (S fuel) c answers name TypeA class src
  = Returns {| answers := answers ++ [Resource_ rec]; err := nil;
               calls := [(name, TypeA)] |}.
Proof. intros Hrec Hdyn. cbn [Lookup]. by rewrite Z.eqb_refl, Hrec, Hdyn. Qed.

(** One question for a served static A record, then the end of the
    section: one response, built from the empty slice of the caller. *)
Lemma start_questions_single (fuel : nat) (c : Conn) (src : Addr) (p p1 p2 : P)
    (n : nat) (q : Question) (rec : DynamicARecord) :
  Parser_Question p = (p1, inl q) ->
  Parser_Question p1 = (p2, inr ErrSectionDone) ->
  Q_Type q = TypeA ->
  lookupA (config c) (Q_Name q) = Some rec ->
  Dynamic rec = false ->
  start_questions (S fuel) c src p (S (S n))
  = Returns (Some p2, sendAnswer c (createMessage [])).
Proof.
  intros Hq1 Hq2 Hty Hrec Hdyn.
  cbn [start_questions]. rewrite Hq1, Hty.
  rewrite (Lookup_old_static_A _ _ _ _ _ _ rec) by done.
  rewrite Hq2. simpl. by rewrite app_nil_r.
Qed.

(** One answer header of type A that matches the only registered query. *)
Lemma start_answers_single (src : Addr) (p p3 : P) (n : nat) (a : ResourceHeader)
    (qry : query) :
  Parser_AnswerHeader p = (p3, inl a) ->
  RH_Type a = TypeA ->
  queryMatches qry (RH_Name a) (RH_Type a) = true ->
  start_answers src p (S n) [qry]
  = Returns ([], [ChanSend (queryResultChan qry) {| answer := a; addr := src |}]).
Proof.
  intros Ha Haty Hm. cbn [start_answers]. rewrite Ha, Haty.
  change (negb (Z.eqb TypeA TypeA) && negb (Z.eqb TypeA TypeAAAA)) with false.
  cbv iota. rewrite Haty in Hm. simpl. rewrite Hm. simpl.
  by rewrite start_answers_empty.
Qed.

End EngineMsg.

(** C2 (as the dnsmessage implementation behaves): [start] discards the
    header [p.Start] returns and has no gate.  A datagram whose header has
    OPCODE, RCODE or TC set, with a question for a served A record and an
    answer header that matches the one registered query, gets a response
    written to the socket, and the query is delivered to and removed from
    the registry. *)
Theorem start_packet_old_has_no_gates :
  forall (U : Util) (P : Type) (PL : ParserLib P) (fuel : nat) (c : MdnsMsg.Conn)
         (buf : list Z) (src : Go.Addr) (p p1 p2 p3 : P) (h : dnsmessage.Header)
         (q : dnsmessage.Question) (rec : MdnsMsg.DynamicARecord)
         (a : dnsmessage.ResourceHeader) (qry : MdnsMsg.query) (raw : list Z),
    Parser_Start buf = inl (p, h) ->
    Registry.gated_old h ->
    Parser_Question p = (p1, inl q) ->
    Parser_Question p1 = (p2, inr dnsmessage.ErrSectionDone) ->
    dnsmessage.Q_Type q = dnsmessage.TypeA ->
    MdnsMsg.lookupA (MdnsMsg.config c) (dnsmessage.Q_Name q) = Some rec ->
    MdnsMsg.Dynamic rec = false ->
    Message_Pack (MdnsMsg.createMessage []) = inl raw ->
    Parser_AnswerHeader p2 = (p3, inl a) ->
    dnsmessage.RH_Type a = dnsmessage.TypeA ->
    MdnsMsg.queries c = [qry] ->
    MdnsMsg.queryMatches qry (dnsmessage.RH_Name a) (dnsmessage.RH_Type a) = true ->
    MdnsMsg.start_packet (S fuel) c buf src
    = Go.Returns
        (MdnsMsg.setQueries c [],
         [MdnsMsg.WriteTo raw (MdnsMsg.dstAddr c);
          MdnsMsg.ChanSend (MdnsMsg.queryResultChan qry)
            {| MdnsMsg.answer := a; MdnsMsg.addr := src |}]).
Proof.
  intros U P PL fuel c buf src p p1 p2 p3 h q rec a qry raw
         Hstart _ Hq1 Hq2 Hty Hrec Hdyn Hpack Ha Haty Hqs Hm.
  unfold MdnsMsg.start_packet. rewrite Hstart.
  unfold MdnsMsg.maxQueryMessageRecords, MdnsMsg.maxMessageRecords.
  rewrite (start_questions_single fuel c src p p1 p2 0 q rec) by done.
  unfold mbind, exec_bind. cbn [Go.bind]. rewrite Hqs.
  rewrite (start_answers_single src p2 p3 3 a qry) by done.
  simpl. unfold MdnsMsg.sendAnswer. by rewrite Hpack.
Qed.

Lemma start_packet_old_has_no_gates_witness :
  Registry.gated_old Fixture.headerOpcode2
  /\
  @MdnsMsg.start_packet Fixture.util _ Fixture.parser 1 Fixture.oldConn
    (Fixture.datagram 0) Fixture.peer
  = Go.Returns
      (MdnsMsg.setQueries Fixture.oldConn [],
       [MdnsMsg.WriteTo [0; 1; 0; 0; 0]%Z Fixture.group;
        MdnsMsg.ChanSend 0 {| MdnsMsg.answer := Fixture.printerHeader;
                              MdnsMsg.addr := Fixture.peer |}]).
Proof.
  split; [left; discriminate|].
  apply (start_packet_old_has_no_gates Fixture.util _ Fixture.parser 0
           Fixture.oldConn (Fixture.datagram 0) Fixture.peer
           ([Fixture.askPrinter], [Fixture.printerHeader])
           ([], [Fixture.printerHeader]) ([], [Fixture.printerHeader])
           ([], [Fixture.printerHeader])
           Fixture.headerOpcode2 Fixture.askPrinter Fixture.printerRecord
           Fixture.printerHeader Fixture.waitingForPrinter [0; 1; 0; 0; 0]%Z);
    try reflexivity.
  left. discriminate.
Defined.

(** ** Answers and the registry (miekg/dns implementation) *)

(** Records of any other type leave the registry alone. *)
Lemma processAnswers_skips_other_types :
  forall (msg : dns.Msg MdnsDns.RR) (src : Go.Addr) (h : dns.RR_Header)
         (r : MdnsDns.DynamicARR) (qs : list MdnsDns.query),
    MdnsDns.processAnswers_range msg src [MdnsDns.RR_Other h] qs = Go.Returns (qs, [])
    /\ MdnsDns.processAnswers_range msg src [MdnsDns.RR_DynamicARR r] qs
       = Go.Returns (qs, []).
Proof. done. Qed.

(** C5 (amended): an answer record is considered only when it is an A or an
    SRV record; every registered query whose name and type code equal the
    name and type of such a record's header gets the whole answer section
    and the peer address sent to its sink, once, and is removed; this is
    done for every answer record of the message, however many there are. *)
Theorem processAnswers_delivers_every_match :
  forall (c : MdnsDns.Conn) (msg : dns.Msg MdnsDns.RR) (src : Go.Addr),
    MdnsDns.processAnswers c msg src
    = Go.Returns
        (MdnsDns.setQueries c
           (List.filter (fun q => negb (Registry.answeredByAny (dns.Answer msg) q))
                        (MdnsDns.queries c)),
         Registry.deliveries {| MdnsDns.answer := dns.Answer msg; MdnsDns.addr := src |}
                             (dns.Answer msg) (MdnsDns.queries c))
    /\
    Registry.deliveries {| MdnsDns.answer := dns.Answer msg; MdnsDns.addr := src |}
                        (dns.Answer msg) (MdnsDns.queries c)
    ≡ₚ Registry.sends {| MdnsDns.answer := dns.Answer msg; MdnsDns.addr := src |}
         (List.filter (Registry.answeredByAny (dns.Answer msg)) (MdnsDns.queries c)).
Proof.
  intros c msg src. split; [|apply deliveries_perm].
  unfold MdnsDns.processAnswers. by rewrite processAnswers_range_spec.
Qed.

(** The inline loops of the earlier [start] are the same two loops. *)
Lemma start_packet_is_Start_packet :
  forall (U : Util) (W : WireCodec (dns.Msg MdnsDns.RR)) (fuel : nat)
         (c : MdnsDns.Conn) (buf : list Z) (src : Go.Addr),
    MdnsDns.start_packet fuel c buf src = MdnsDns.Start_packet fuel c buf src.
Proof.
  intros U W fuel c buf src. unfold MdnsDns.start_packet, MdnsDns.Start_packet.
  destruct (IsMsg buf); [done|]. destruct (Unpack buf) as [msg|]; [|done].
  repeat match goal with |- context [if ?b then _ else _] => destruct b; [done|] end.
  unfold MdnsDns.processQuestions, MdnsDns.processAnswers.
  destruct (MdnsDns.processQuestions_range _ _ _ _ _); [|done|done]. simpl.
  by destruct (MdnsDns.processAnswers_range _ _ _ _) as [[? ?]| |].
Qed.

(** C5, counterexample: the fourth answer record of a message is processed.
    With three TXT records ahead of the A record of host.local. and a
    query registered for that name, processing the whole answer section
    differs from processing its first [maxMessageRecords] records. *)
Lemma fourth_answer_is_processed :
  MdnsDns.processAnswers_range Fixture.msgFourAnswers Fixture.peer
    (dns.Answer Fixture.msgFourAnswers) [Fixture.waitingForHost]
  = Go.Returns ([], [MdnsDns.ChanSend 0
                       {| MdnsDns.answer := dns.Answer Fixture.msgFourAnswers;
                          MdnsDns.addr := Fixture.peer |}])
  /\
  MdnsDns.processAnswers_range Fixture.msgFourAnswers Fixture.peer
    (take MdnsDns.maxMessageRecords (dns.Answer Fixture.msgFourAnswers))
    [Fixture.waitingForHost]
  = Go.Returns ([Fixture.waitingForHost], []).
Proof. split; reflexivity. Qed.

(** ** Outbound queries (miekg/dns implementation) *)
Section QueryDns.
Import Go dns MdnsDns.
Context `{WireCodec (Msg RR)}.

Lemma sendQuestion_no_stop (id : Z) (c : Conn) (name : string) (ttype : Z) :
  TickerStop ∉ sendQuestion id c name ttype.
Proof.
  unfold sendQuestion. destruct (Pack _); [|apply not_elem_of_nil].
  intros Hin. apply list_elem_of_singleton in Hin. discriminate.
Qed.

Lemma Query_select_no_stop (c : Conn) (name : string) (ttype : Z)
    (evs : list select_case) :
  TickerStop ∉ (Query_select c name ttype evs).1.
Proof.
  induction evs as [|ev evs IH]; simpl; [apply not_elem_of_nil|].
  destruct ev as [id| |res|]; simpl; try apply not_elem_of_nil.
  destruct (Query_select c name ttype evs) as [es' o]. simpl in *.
  rewrite elem_of_app. intros [Hin|Hin]; [|done].
  by apply sendQuestion_no_stop in Hin.
Qed.




(** [Query] itself only appends to the registry, and it never stops its
    ticker. *)
Lemma Query_registry (id : Z) (c : Conn) (name : string) (ttype : Z)
    (evs : list select_case) :
  closed c = false ->
  queries (Query id c name ttype evs).1.1
  = queries c ++ [{| ttype := ttype; nameWithSuffix := addDot name;
                     queryResultChan := nextChan c |}]
  /\ TickerStop ∉ (Query id c name ttype evs).1.2.
Proof.
  intros Hc. unfold Query. rewrite Hc. simpl.
  pose proof (Query_select_no_stop
    (setQueries (makeChan c).2
       (queries c ++ [{| ttype := ttype; nameWithSuffix := addDot name;
                         queryResultChan := nextChan c |}]))
    (addDot name) ttype evs) as Hsel.
  simpl in Hsel.
  destruct (Query_select _ (addDot name) ttype evs) as [es o]. simpl in *.
  split; [done|].
  rewrite elem_of_cons, elem_of_app.
  intros [Hd|[Hin|Hin]]; [discriminate| |done].
  by apply sendQuestion_no_stop in Hin.
Qed.

End QueryDns.




(** ** The question message *)

(** The question message of the dnsmessage implementation: a zero header
    (ID 0, QR 0, RD 0) and one question of class IN, whose type is the
    requested one for A and for SRV and 0 for any other. *)
Lemma questionMsg_old_header_and_question (name : string) (ttype : Z) :
  (String.length name <= dnsmessage.nameLen)%nat ->
  exists m,
    MdnsMsg.questionMsg name ttype = Some m
    /\ dnsmessage.M_Header m = dnsmessage.zeroHeader
    /\ dnsmessage.Questions m
       = [ {| dnsmessage.Q_Name := name;
              dnsmessage.Q_Type :=
                if Z.eqb ttype 1 || Z.eqb ttype 33 then ttype else 0%Z;
              dnsmessage.Q_Class := dnsmessage.ClassINET |} ].
Proof.
  intros Hlen. unfold MdnsMsg.questionMsg, dnsmessage.NewName.
  destruct (Nat.ltb_spec dnsmessage.nameLen (String.length name)); [lia|].
  eexists. split; [done|]. split; [done|]. simpl. do 2 f_equal.
  unfold dnsmessage.TypeA, dnsmessage.TypeSRV.
  destruct (Z.eqb_spec ttype 1) as [->|]; [done|].
  by destruct (Z.eqb_spec ttype 33) as [->|].
Qed.

(** C7 (amended): for every name and query type the question message has
    QR = 0 and carries exactly one question, of class IN and with the given
    name.  In the miekg/dns implementation the question's type is the
    requested type, RD = 1, and the ID is the one the DNS library generated
    for the message, not a fixed 0; the message is what gets packed and
    written to the mDNS destination.  In the dnsmessage implementation the
    ID is 0 and the question's type is the requested type when that is A or
    SRV. *)
Theorem questionMsg_header_and_question :
  forall (W : WireCodec (dns.Msg MdnsDns.RR)) (id : Z) (c : MdnsDns.Conn)
         (name : string) (ttype : Z),
    (dns.Id (dns.Hdr (MdnsDns.questionMsg id name ttype)) = id
     /\ dns.Response (dns.Hdr (MdnsDns.questionMsg id name ttype)) = false
     /\ dns.RecursionDesired (dns.Hdr (MdnsDns.questionMsg id name ttype)) = true
     /\ dns.Questions (MdnsDns.questionMsg id name ttype)
        = [ {| dns.Q_Name := name; dns.Qtype := ttype; dns.Qclass := dns.ClassINET |} ]
     /\ MdnsDns.sendQuestion id c name ttype
        = match Pack (MdnsDns.questionMsg id name ttype) with
          | inl raw => [MdnsDns.WriteTo raw (MdnsDns.dstAddr c)]
          | inr _ => []
          end)
    /\
    ((String.length name <= dnsmessage.nameLen)%nat ->
     exists m,
       MdnsMsg.questionMsg name ttype = Some m
       /\ dnsmessage.ID (dnsmessage.M_Header m) = 0%Z
       /\ dnsmessage.Response (dnsmessage.M_Header m) = false
       /\ dnsmessage.Questions m
          = [ {| dnsmessage.Q_Name := name;
                 dnsmessage.Q_Type :=
                   if Z.eqb ttype 1 || Z.eqb ttype 33 then ttype else 0%Z;
                 dnsmessage.Q_Class := dnsmessage.ClassINET |} ]).
Proof.
  intros W id c name ttype. split; [repeat split; reflexivity|]. intros Hlen.
  destruct (questionMsg_old_header_and_question name ttype Hlen) as (m & Hm & Hh & Hq).
  exists m. rewrite Hh. by repeat split.
Qed.

Lemma questionMsg_header_and_question_witness :
  (String.length "host.local." <= dnsmessage.nameLen)%nat
  /\
  (dns.Id (dns.Hdr (MdnsDns.questionMsg 4660 "host.local." 33)) = 4660%Z
   /\ dns.Response (dns.Hdr (MdnsDns.questionMsg 4660 "host.local." 33)) = false
   /\ dns.RecursionDesired (dns.Hdr (MdnsDns.questionMsg 4660 "host.local." 33)) = true
   /\ dns.Questions (MdnsDns.questionMsg 4660 "host.local." 33)
      = [ {| dns.Q_Name := "host.local."; dns.Qtype := 33; dns.Qclass := dns.ClassINET |} ]
   /\ @MdnsDns.sendQuestion Fixture.codec 4660 Fixture.conn "host.local." 33
      = match @Pack _ Fixture.codec (MdnsDns.questionMsg 4660 "host.local." 33) with
        | inl raw => [MdnsDns.WriteTo raw (MdnsDns.dstAddr Fixture.conn)]
        | inr _ => []
        end)
  /\
  exists m,
    MdnsMsg.questionMsg "host.local." 33 = Some m
    /\ dnsmessage.ID (dnsmessage.M_Header m) = 0%Z
    /\ dnsmessage.Response (dnsmessage.M_Header m) = false
    /\ dnsmessage.Questions m
       = [ {| dnsmessage.Q_Name := "host.local.";
              dnsmessage.Q_Type := if Z.eqb 33 1 || Z.eqb 33 33 then 33%Z else 0%Z;
              dnsmessage.Q_Class := dnsmessage.ClassINET |} ].
Proof.
  assert (Hlen : (String.length "host.local." <= dnsmessage.nameLen)%nat)
    by (vm_compute; lia).
  split; [exact Hlen|].
  destruct (questionMsg_header_and_question Fixture.codec 4660 Fixture.conn
              "host.local." 33) as [Hnew Hold].
  split; [exact Hnew|exact (Hold Hlen)].
Defined.

(** C7, counterexample: the message for host.local. built with the library
    id 4660 has ID 4660; and the message the dnsmessage implementation
    builds for the same question has RD = 0. *)
Lemma question_id_is_not_zero :
  dns.Id (dns.Hdr (MdnsDns.questionMsg 4660 "host.local." dns.TypeA)) = 4660%Z
  /\
  (dnsmessage.RecursionDesired ∘ dnsmessage.M_Header)
    <$> MdnsMsg.questionMsg "host.local." dnsmessage.TypeA
  = Some false.
Proof. split; reflexivity. Qed.

(** ** Names at the public interface *)

(** What the miekg/dns [Query] registers is [addDot name]. *)
Lemma Query_registers_addDot :
  forall (W : WireCodec (dns.Msg MdnsDns.RR)) (id : Z) (c : MdnsDns.Conn)
         (name : string) (ttype : Z) (evs : list MdnsDns.select_case),
    MdnsDns.closed c = false ->
    MdnsDns.queries (MdnsDns.Query id c name ttype evs).1.1
    = MdnsDns.queries c
      ++ [{| MdnsDns.ttype := ttype; MdnsDns.nameWithSuffix := addDot name;
             MdnsDns.queryResultChan := MdnsDns.nextChan c |}].
Proof. intros. by apply Query_registry. Qed.

(** What the dnsmessage [Query] registers is the name with a dot appended,
    whether or not it ends in one. *)
Lemma Query_old_appends_dot :
  forall (P : Type) (PL : ParserLib P) (c : MdnsMsg.Conn) (name : string) (ttype : Z)
         (evs : list MdnsMsg.select_case),
    MdnsMsg.closed c = false ->
    MdnsMsg.queries (MdnsMsg.Query c name ttype evs).1.1
    = MdnsMsg.queries c
      ++ [{| MdnsMsg.ttype := ttype; MdnsMsg.nameWithSuffix := name +:+ ".";
             MdnsMsg.queryResultChan := MdnsMsg.nextChan c |}].
Proof.
  intros P PL c name ttype evs Hc. unfold MdnsMsg.Query. rewrite Hc. simpl.
  by destruct (MdnsMsg.Query_select _ _ _ _).
Qed.

(** C8 (as the code behaves): names are not canonicalized everywhere.
    [removeARecord] compares the name as given: after
    [addARecord "printer.local"] has stored the record under
    "printer.local.", [removeARecord "printer.local"] reports
    [errRecordNotFound] and the record stays.  The [Query] of the
    dnsmessage implementation appends a dot to a name that already ends in
    one: "host.local." is registered as "host.local..". *)
Theorem names_not_canonicalized_everywhere :
  (exists c1,
     MdnsDns.addARecord "printer.local" (Some [10; 0; 0; 5]%Z) false MdnsDns.emptyConfig
     = Go.Returns (c1, Go.nil)
     /\ MdnsDns.AName <$> MdnsDns.ARecords c1 = ["printer.local."]
     /\ MdnsDns.removeARecord "printer.local" c1
        = Go.Returns (c1, Some Go.errRecordNotFound))
  /\
  MdnsMsg.nameWithSuffix
    <$> MdnsMsg.queries
          (@MdnsMsg.Query _ Fixture.parser Fixture.oldConn "host.local." 1
             [MdnsMsg.CtxDoneFired]).1.1
  = ["printer.local."; "host.local.."].
Proof. split; [eexists; repeat split|]; reflexivity. Qed.

(** ** The same removal in the dnsmessage implementation *)



(** The SRV record [AddSRVRecord] of the dnsmessage implementation stores
    has TTL 10 and header type A. *)
Lemma AddSRVRecord_old_type :
  MdnsMsg.AddSRVRecord "_svc._tcp.local." 0 0 8080 "node.local." MdnsMsg.emptyConfig
  = Go.Returns ({| MdnsMsg.QueryInterval := 0; MdnsMsg.ARecords := [];
                   MdnsMsg.SRVRecords := [Fixture.oldServiceRecord] |}, Go.nil)
  /\ dnsmessage.RH_Type (dnsmessage.R_Header Fixture.oldServiceRecord) = dnsmessage.TypeA
  /\ dnsmessage.TTL (dnsmessage.R_Header Fixture.oldServiceRecord) = MdnsMsg.responseTTL.
Proof. repeat split; reflexivity. Qed.

(** ** [addDot] as the spec words it *)
Section AddDot.
Import Go.

Lemma lower_ascii_dot (a : ascii) :
  Ascii.eqb (lower_ascii a) "." = Ascii.eqb a ".".
Proof. destruct a as [[] [] [] [] [] [] [] []]; reflexivity. Qed.

Lemma lower_ascii_idem (a : ascii) : lower_ascii (lower_ascii a) = lower_ascii a.
Proof. destruct a as [[] [] [] [] [] [] [] []]; reflexivity. Qed.

Lemma ToLower_idem (s : string) : ToLower (ToLower s) = ToLower s.
Proof. induction s as [|a s IH]; simpl; [done|]. by rewrite lower_ascii_idem, IH. Qed.

Lemma HasDotSuffix_ToLower (s : string) : HasDotSuffix (ToLower s) = HasDotSuffix s.
Proof.
  induction s as [|a s IH]; [done|]. simpl.
  destruct s as [|b s]; simpl in *; [apply lower_ascii_dot|done].
Qed.

Lemma HasDotSuffix_append_dot (s : string) : HasDotSuffix (s +:+ ".") = true.
Proof.
  induction s as [|a s IH]; [done|]. simpl.
  destruct s as [|b s]; simpl in *; done.
Qed.

(** The result ends in a dot, and a canonical name is left as it is: no
    second dot is appended. *)
Lemma addDot_ends_in_dot (name : string) : HasDotSuffix (addDot name) = true.
Proof.
  unfold addDot. rewrite HasDotSuffix_ToLower.
  destruct (HasDotSuffix name) eqn:Hd; [done|apply HasDotSuffix_append_dot].
Qed.

Lemma addDot_idem (name : string) : addDot (addDot name) = addDot name.
Proof.
  unfold addDot at 1. rewrite addDot_ends_in_dot.
  unfold addDot. apply ToLower_idem.
Qed.

End AddDot.

(** ** A question without a record, in the dnsmessage implementation *)
Section NoMatchMsg.
Import Go dnsmessage MdnsMsg.
Context `{Util} `{ParserLib P}.

(** There [Lookup] reports the missing record as an error. *)
Lemma Lookup_old_not_found (fuel : nat) (c : Config) (answers : list Resource)
    (name : string) (ttype class : Z) (src : Addr) :
  ttype <> TypeSRV ->
  (ttype = TypeA -> lookupA c name = None) ->
  Lookup (S fuel) c answers name ttype class src
  = Returns {| answers := answers; err := Some errRecordNotFound;
               calls := [(name, ttype)] |}.
Proof.
  intros Hs HA. cbn [Lookup].
  destruct (Z.eqb_spec ttype TypeA) as [Ha|Ha]; [by rewrite HA|].
  by destruct (Z.eqb_spec ttype TypeSRV).
Qed.

(** And the question loop of [start] then writes nothing. *)
Lemma start_questions_not_found (fuel : nat) (c : Conn) (src : Addr) (p p1 p2 : P)
    (n : nat) (q : Question) :
  Parser_Question p = (p1, inl q) ->
  Parser_Question p1 = (p2, inr ErrSectionDone) ->
  Q_Type q <> TypeSRV ->
  (Q_Type q = TypeA -> lookupA (config c) (Q_Name q) = None) ->
  start_questions (S fuel) c src p (S (S n)) = Returns (Some p2, []).
Proof.
  intros Hq1 Hq2 Hs HA. cbn [start_questions]. rewrite Hq1.
  rewrite Lookup_old_not_found by done. by rewrite Hq2.
Qed.

End NoMatchMsg.

(** * Further properties of the record store (miekg/dns implementation) *)
Section StoreMore.
Import Go dns MdnsDns Store.

(** The duplicate scans compute a membership test and stay in range. *)
Lemma addARecordToConfig_loop_existsb (name : string) (recs : list DynamicARR) (k : nat) :
  k <= length recs ->
  addARecordToConfig_loop name recs k
  = Returns (existsb (fun r => String.eqb (AName r) name) (take k recs)).
Proof.
  induction k as [|i IH]; intros Hk; [done|]. cbn [addARecordToConfig_loop].
  destruct (index_in_range recs i) as (x & Hx & ->); [lia|]. simpl.
  rewrite (take_S_r _ _ _ Hx), existsb_app. simpl.
  destruct (String.eqb (AName x) name); simpl.
  - by rewrite orb_true_r.
  - rewrite IH by lia. by rewrite !orb_false_r.
Qed.

Lemma addSRVRecordToConfig_loop_existsb (name : string) (recs : list SRV) (k : nat) :
  k <= length recs ->
  addSRVRecordToConfig_loop name recs k
  = Returns (existsb (fun r => String.eqb (SRVName r) name) (take k recs)).
Proof.
  induction k as [|i IH]; intros Hk; [done|]. cbn [addSRVRecordToConfig_loop].
  destruct (index_in_range recs i) as (x & Hx & ->); [lia|]. simpl.
  rewrite (take_S_r _ _ _ Hx), existsb_app. simpl.
  destruct (String.eqb (SRVName x) name); simpl.
  - by rewrite orb_true_r.
  - rewrite IH by lia. by rewrite !orb_false_r.
Qed.

Lemma addARecordToConfig_cases (rec : DynamicARR) (c : Config) :
  addARecordToConfig rec c
  = if hasAName (AName rec) c then Returns (c, Some errRecordExists)
    else Returns (setARecords c (ARecords c ++ [rec]), nil).
Proof.
  unfold addARecordToConfig, hasAName.
  rewrite addARecordToConfig_loop_existsb, firstn_all by done. simpl.
  by destruct (existsb _ _).
Qed.

Lemma addSRVRecordToConfig_cases (rec : SRV) (c : Config) :
  addSRVRecordToConfig rec c
  = if hasSRVName (SRVName rec) c then Returns (c, Some errRecordExists)
    else Returns (setSRVRecords c (SRVRecords c ++ [rec]), nil).
Proof.
  unfold addSRVRecordToConfig, hasSRVName.
  rewrite addSRVRecordToConfig_loop_existsb, firstn_all by done. simpl.
  by destruct (existsb _ _).
Qed.

Lemma addARecord_cases (name : string) (dst : option IP) (dyn : bool) (c : Config) :
  addARecord name dst dyn c
  = if String.eqb name EmptyString then Returns (c, Some errInvalidParameter)
    else if hasAName (addDot name) c then Returns (c, Some errRecordExists)
    else Returns (setARecords c (ARecords c ++ [newARecord (addDot name) dst dyn]),
                  nil).
Proof.
  unfold addARecord. destruct (String.eqb name EmptyString); [done|].
  cbn [createSimpleARecord]. rewrite addARecordToConfig_cases.
  by destruct dyn, dst.
Qed.

Lemma addSRVRecord_cases (name : string) (priority weight port : Z) (target : string)
    (c : Config) :
  addSRVRecord name priority weight port target c
  = if String.eqb name EmptyString || String.eqb target EmptyString
    then Returns (c, Some errInvalidParameter)
    else if hasSRVName (addDot name) c then Returns (c, Some errRecordExists)
    else Returns (setSRVRecords c
                    (SRVRecords c
                     ++ [(createSRVRecord (addDot name) priority weight port
                                          (addDot target)).1]), nil).
Proof.
  unfold addSRVRecord.
  destruct (String.eqb name EmptyString || String.eqb target EmptyString); [done|].
  cbn [createSRVRecord]. by rewrite addSRVRecordToConfig_cases.
Qed.

Lemma hasAName_false (name : string) (c : Config) :
  hasAName name c = false <-> name ∉ ANames c.
Proof.
  unfold hasAName, ANames. induction (ARecords c) as [|x l IH]; simpl.
  - split; [intros _; apply not_elem_of_nil|done].
  - rewrite not_elem_of_cons, orb_false_iff, IH.
    split; intros [Hx Hl]; (split; [|done]).
    + intros ->. by rewrite String.eqb_refl in Hx.
    + apply String.eqb_neq. congruence.
Qed.

Lemma hasSRVName_false (name : string) (c : Config) :
  hasSRVName name c = false <-> name ∉ SRVNames c.
Proof.
  unfold hasSRVName, SRVNames. induction (SRVRecords c) as [|x l IH]; simpl.
  - split; [intros _; apply not_elem_of_nil|done].
  - rewrite not_elem_of_cons, orb_false_iff, IH.
    split; intros [Hx Hl]; (split; [|done]).
    + intros ->. by rewrite String.eqb_refl in Hx.
    + apply String.eqb_neq. congruence.
Qed.

Lemma lookupA_range_app (name : string) (recs rest : list DynamicARR) :
  existsb (fun r => String.eqb (AName r) name) recs = false ->
  lookupA_range (recs ++ rest) name = lookupA_range rest name.
Proof.
  induction recs as [|y recs IH]; simpl; [done|].
  intros [Hy Hl]%orb_false_iff. rewrite Hy. by apply IH.
Qed.

Lemma lookupA_range_found_app (name : string) (recs rest : list DynamicARR)
    (r : DynamicARR) :
  lookupA_range recs name = Some r -> lookupA_range (recs ++ rest) name = Some r.
Proof.
  induction recs as [|y recs IH]; simpl; [done|].
  destruct (String.eqb (AName y) name); [done|apply IH].
Qed.

Lemma lookupA_range_other (n : string) (recs : list DynamicARR) (r : DynamicARR) :
  AName r <> n ->
  lookupA_range (recs ++ [r]) n = lookupA_range recs n.
Proof.
  intros Hne. induction recs as [|y recs IH]; simpl.
  - apply String.eqb_neq in Hne. by rewrite Hne.
  - by destruct (String.eqb (AName y) n).
Qed.

End StoreMore.

Section RemoveMore.
Import Go dns MdnsDns Store.

(** What a successful scan of [removeARecord] returns. *)
Lemma removeARecord_loop_some (name : string) (recs : list DynamicARR) (k : nat)
    (l : list DynamicARR) :
  k <= length recs ->
  removeARecord_loop name recs k = Returns (Some l) ->
  exists i nxt, i < k /\ recs !! (i + 1) = Some nxt /\ l = take i recs ++ [nxt].
Proof.
  induction k as [|j IH]; intros Hk; [discriminate|]. cbn [removeARecord_loop].
  destruct (index_in_range recs j) as (x & Hx & ->); [lia|]. simpl.
  destruct (String.eqb (AName x) name).
  - unfold index. destruct (recs !! (j + 1)) as [nxt|] eqn:Hn; simpl; [|discriminate].
    intros [= <-]. exists j, nxt. split; [lia|done].
  - intros Hl. destruct (IH ltac:(lia) Hl) as (i & nxt & Hi & Hn & ->).
    exists i, nxt. split; [lia|done].
Qed.

Lemma removeSRVRecord_loop_some (name : string) (recs : list SRV) (k : nat)
    (l : list SRV) :
  k <= length recs ->
  removeSRVRecord_loop name recs k = Returns (Some l) ->
  exists i nxt, i < k /\ recs !! (i + 1) = Some nxt /\ l = take i recs ++ [nxt].
Proof.
  induction k as [|j IH]; intros Hk; [discriminate|]. cbn [removeSRVRecord_loop].
  destruct (index_in_range recs j) as (x & Hx & ->); [lia|]. simpl.
  destruct (String.eqb (SRVName x) name).
  - unfold index. destruct (recs !! (j + 1)) as [nxt|] eqn:Hn; simpl; [|discriminate].
    intros [= <-]. exists j, nxt. split; [lia|done].
  - intros Hl. destruct (IH ltac:(lia) Hl) as (i & nxt & Hi & Hn & ->).
    exists i, nxt. split; [lia|done].
Qed.

Lemma take_snoc_sublist {A} (recs : list A) (i : nat) (nxt : A) :
  recs !! (i + 1) = Some nxt -> take i recs ++ [nxt] `sublist_of` recs.
Proof.
  intros Hn. rewrite <- (take_drop i recs) at 2.
  apply sublist_app; [done|]. apply singleton_sublist_l.
  apply list_elem_of_lookup. exists 1. by rewrite lookup_drop.
Qed.

(** A removal that returns leaves a sublist of the records. *)
Lemma removeARecord_sublist (name : string) (c c' : Config) (e : error) :
  removeARecord name c = Returns (c', e) ->
  ARecords c' `sublist_of` ARecords c /\ SRVRecords c' = SRVRecords c.
Proof.
  unfold removeARecord.
  destruct (removeARecord_loop name _ _) as [[l|]| |] eqn:Hl; simpl; try discriminate.
  - intros [= <- <-]. simpl. split; [|done].
    destruct (removeARecord_loop_some _ _ _ _ (Nat.le_refl _) Hl) as (i & nxt & _ & Hn & ->).
    by apply take_snoc_sublist.
  - by intros [= <- <-].
Qed.

Lemma removeSRVRecord_sublist (name : string) (c c' : Config) (e : error) :
  removeSRVRecord name c = Returns (c', e) ->
  SRVRecords c' `sublist_of` SRVRecords c /\ ARecords c' = ARecords c.
Proof.
  unfold removeSRVRecord.
  destruct (removeSRVRecord_loop name _ _) as [[l|]| |] eqn:Hl; simpl; try discriminate.
  - intros [= <- <-]. simpl. split; [|done].
    destruct (removeSRVRecord_loop_some _ _ _ _ (Nat.le_refl _) Hl) as (i & nxt & _ & Hn & ->).
    by apply take_snoc_sublist.
  - by intros [= <- <-].
Qed.

(** The SRV scan, as the A scan. *)
Lemma removeSRVRecord_loop_skip (name : string) (recs : list SRV) (m k : nat) :
  m <= k -> k <= length recs ->
  (forall i x, m <= i < k -> recs !! i = Some x -> String.eqb (SRVName x) name = false) ->
  removeSRVRecord_loop name recs k = removeSRVRecord_loop name recs m.
Proof.
  intros Hm. induction Hm as [|k Hm IH]; intros Hk Hno; [done|].
  cbn [removeSRVRecord_loop].
  destruct (index_in_range recs k) as (x & Hx & ->); [lia|]. simpl.
  rewrite (Hno k x) by (done || lia). apply IH; [lia|].
  intros i y Hi. apply Hno. lia.
Qed.

Lemma removeSRVRecord_absent (name : string) (c : Config) :
  (forall x, x ∈ SRVRecords c -> String.eqb (SRVName x) name = false) ->
  removeSRVRecord name c = Returns (c, Some errRecordNotFound).
Proof.
  intros Hno. unfold removeSRVRecord.
  rewrite (removeSRVRecord_loop_skip _ _ 0); [done|lia|done|].
  intros i x _ Hx. apply Hno. by eapply list_elem_of_lookup_2.
Qed.


End RemoveMore.

(** X1: [addARecord] never panics and has three outcomes.  The empty name
    is refused with [errInvalidParameter]; a name whose canonical form is
    already the name of an A record is refused with [errRecordExists]; in
    both cases the store is left as it was.  Otherwise exactly one record
    is appended, named by the canonical form, of type A, class IN and TTL
    10, static with the given address when [dyn] is false and an address
    is given, dynamic in every other case. *)
Theorem addARecord_outcomes :
  forall (name : string) (dst : option Go.IP) (dyn : bool) (c : MdnsDns.Config),
    (name = EmptyString
     /\ MdnsDns.addARecord name dst dyn c
        = Go.Returns (c, Some Go.errInvalidParameter))
    \/ (name <> EmptyString /\ addDot name ∈ Store.ANames c
        /\ MdnsDns.addARecord name dst dyn c
           = Go.Returns (c, Some Go.errRecordExists))
    \/ (name <> EmptyString /\ (addDot name ∉ Store.ANames c)
        /\ MdnsDns.addARecord name dst dyn c
           = Go.Returns
               (MdnsDns.setARecords c
                  (MdnsDns.ARecords c
                   ++ [ {| MdnsDns.A_ :=
                             {| dns.A_Hdr :=
                                  {| dns.Name := addDot name; dns.Rrtype := 1;
                                     dns.Class := 1; dns.Ttl := 10;
                                     dns.Rdlength := 0 |};
                                dns.A_A := match dyn, dst with
                                           | false, Some ip => ip
                                           | _, _ => []
                                           end |};
                           MdnsDns.Dynamic := match dyn, dst with
                                              | false, Some _ => false
                                              | _, _ => true
                                              end |} ]),
                Go.nil)).
Proof.
  intros name dst dyn c. rewrite addARecord_cases.
  destruct (String.eqb_spec name EmptyString) as [->|Hne]; [by left|right].
  destruct (Store.hasAName (addDot name) c) eqn:Hhas.
  - left. split; [done|]. split; [|done].
    destruct (decide (addDot name ∈ Store.ANames c)) as [|Hn]; [done|].
    apply hasAName_false in Hn. congruence.
  - right. split; [done|]. split; [by apply hasAName_false|].
    by destruct dyn, dst.
Qed.

(** X2: [addSRVRecord] never panics and has three outcomes.  An empty name
    or an empty target is refused with [errInvalidParameter]; a name whose
    canonical form is already the name of an SRV record is refused with
    [errRecordExists]; the store is then left as it was.  Otherwise one
    record is appended: canonical name and target, the given priority,
    weight and port, type SRV, class IN. *)
Theorem addSRVRecord_outcomes :
  forall (name : string) (priority weight port : Z) (target : string)
         (c : MdnsDns.Config),
    ((name = EmptyString \/ target = EmptyString)
     /\ MdnsDns.addSRVRecord name priority weight port target c
        = Go.Returns (c, Some Go.errInvalidParameter))
    \/ (name <> EmptyString /\ target <> EmptyString
        /\ addDot name ∈ Store.SRVNames c
        /\ MdnsDns.addSRVRecord name priority weight port target c
           = Go.Returns (c, Some Go.errRecordExists))
    \/ (name <> EmptyString /\ target <> EmptyString
        /\ (addDot name ∉ Store.SRVNames c)
        /\ exists rec,
             MdnsDns.addSRVRecord name priority weight port target c
             = Go.Returns
                 (MdnsDns.setSRVRecords c (MdnsDns.SRVRecords c ++ [rec]), Go.nil)
             /\ dns.Name (dns.SRV_Hdr rec) = addDot name
             /\ dns.Rrtype (dns.SRV_Hdr rec) = 33%Z
             /\ dns.Class (dns.SRV_Hdr rec) = 1%Z
             /\ dns.Target rec = addDot target
             /\ dns.Priority rec = priority /\ dns.Weight rec = weight
             /\ dns.Port rec = port).
Proof.
  intros name priority weight port target c. rewrite addSRVRecord_cases.
  destruct (String.eqb_spec name EmptyString) as [->|Hn]; [left; auto|].
  destruct (String.eqb_spec target EmptyString) as [->|Ht]; [left; auto|].
  right. simpl.
  destruct (Store.hasSRVName (addDot name) c) eqn:Hhas.
  - left. split; [done|]. split; [done|]. split; [|done].
    destruct (decide (addDot name ∈ Store.SRVNames c)) as [|Hno]; [done|].
    apply hasSRVName_false in Hno. congruence.
  - right. split; [done|]. split; [done|]. split; [by apply hasSRVName_false|].
    eexists. split; [reflexivity|]. by repeat split.
Qed.

Section DistinctNames.
Import Go dns MdnsDns Store.

Lemma run_keeps_names_distinct (o : Api.op) (c c' : Config) (e : error) :
  NoDup (ANames c) -> NoDup (SRVNames c) ->
  Api.run o c = Returns (c', e) ->
  NoDup (ANames c') /\ NoDup (SRVNames c').
Proof.
  intros HA HS. destruct o as [name dst dyn|name pr we po target|name|name]; simpl.
  - rewrite addARecord_cases.
    destruct (String.eqb name EmptyString); [by intros [= <- _]|].
    destruct (hasAName (addDot name) c) eqn:Hhas; [by intros [= <- _]|].
    intros [= <- _]. split; [|done]. unfold ANames. simpl.
    rewrite fmap_app. apply NoDup_app. split; [done|]. split; [|apply NoDup_singleton].
    intros x Hx Hin. apply list_elem_of_singleton in Hin. subst x.
    apply hasAName_false in Hhas. apply Hhas.
    by destruct dyn, dst.
  - rewrite addSRVRecord_cases.
    destruct (String.eqb name EmptyString || String.eqb target EmptyString);
      [by intros [= <- _]|].
    destruct (hasSRVName (addDot name) c) eqn:Hhas; [by intros [= <- _]|].
    intros [= <- _]. split; [done|]. unfold SRVNames. simpl.
    rewrite fmap_app. apply NoDup_app. split; [done|]. split; [|apply NoDup_singleton].
    intros x Hx Hin. apply list_elem_of_singleton in Hin. subst x.
    by apply hasSRVName_false in Hhas.
  - intros Hr. destruct (removeARecord_sublist _ _ _ _ Hr) as [Hsub Heq].
    unfold ANames, SRVNames. rewrite Heq. split; [|done].
    eapply sublist_NoDup; [exact HA|]. by apply fmap_sublist.
  - intros Hr. destruct (removeSRVRecord_sublist _ _ _ _ Hr) as [Hsub Heq].
    unfold ANames, SRVNames. rewrite Heq. split; [done|].
    eapply sublist_NoDup; [exact HS|]. by apply fmap_sublist.
Qed.

End DistinctNames.

(** X3: the names of the A records stay pairwise distinct, and so do the
    names of the SRV records, under every sequence of [addARecord],
    [addSRVRecord], [removeARecord] and [removeSRVRecord] that returns;
    in particular in every store built from the empty one. *)
Theorem names_stay_distinct :
  forall (os : list Api.op) (c c' : MdnsDns.Config),
    NoDup (Store.ANames c) -> NoDup (Store.SRVNames c) ->
    Api.runs os c = Go.Returns c' ->
    NoDup (Store.ANames c') /\ NoDup (Store.SRVNames c').
Proof.
  induction os as [|o os IH]; intros c c' HA HS; simpl.
  - by intros [= <-].
  - destruct (Api.run o c) as [[c1 e]| |] eqn:Hrun; simpl; try discriminate.
    destruct (run_keeps_names_distinct o c c1 e HA HS Hrun) as [HA1 HS1].
    by apply IH.
Qed.

Lemma names_stay_distinct_witness :
  NoDup (Store.ANames MdnsDns.emptyConfig)
  /\ NoDup (Store.SRVNames MdnsDns.emptyConfig)
  /\ Api.runs [Api.AddA "b.local" None true; Api.AddA "a.local" None true;
               Api.AddA "B.local." None false; Api.AddSRV "a.local" 0 0 80 "b.local";
               Api.RemoveA "b.local."; Api.RemoveSRV "nothing.local."]
       MdnsDns.emptyConfig
     = Go.Returns
         {| MdnsDns.QueryInterval := 0;
            MdnsDns.ARecords := [Fixture.named "a.local."];
            MdnsDns.SRVRecords :=
              [ {| dns.SRV_Hdr := {| dns.Name := "a.local."; dns.Rrtype := 33;
                                     dns.Class := 1; dns.Ttl := 0; dns.Rdlength := 0 |};
                   dns.Priority := 0; dns.Weight := 0; dns.Port := 80;
                   dns.Target := "b.local." |} ] |}
  /\ NoDup (Store.ANames
              {| MdnsDns.QueryInterval := 0;
                 MdnsDns.ARecords := [Fixture.named "a.local."];
                 MdnsDns.SRVRecords :=
                   [ {| dns.SRV_Hdr := {| dns.Name := "a.local."; dns.Rrtype := 33;
                                          dns.Class := 1; dns.Ttl := 0;
                                          dns.Rdlength := 0 |};
                        dns.Priority := 0; dns.Weight := 0; dns.Port := 80;
                        dns.Target := "b.local." |} ] |}).
Proof.
  assert (HA : NoDup (Store.ANames MdnsDns.emptyConfig)) by constructor.
  assert (HS : NoDup (Store.SRVNames MdnsDns.emptyConfig)) by constructor.
  split; [exact HA|]. split; [exact HS|]. split; [reflexivity|].
  eapply proj1.
  apply (names_stay_distinct
           [Api.AddA "b.local" None true; Api.AddA "a.local" None true;
            Api.AddA "B.local." None false; Api.AddSRV "a.local" 0 0 80 "b.local";
            Api.RemoveA "b.local."; Api.RemoveSRV "nothing.local."]
           MdnsDns.emptyConfig _ HA HS).
  reflexivity.
Defined.

Section LookupMore.
Import Go dns MdnsDns Store.
Context `{Util}.

(** After a successful [addARecord] the new record is the one [lookupA]
    finds under the canonical name. *)
Lemma addARecord_lookupA (name : string) (dst : option IP) (dyn : bool)
    (c c' : Config) :
  addARecord name dst dyn c = Returns (c', nil) ->
  lookupA c' (addDot name) = Some (newARecord (addDot name) dst dyn).
Proof.
  rewrite addARecord_cases.
  destruct (String.eqb name EmptyString); [discriminate|].
  destruct (hasAName (addDot name) c) eqn:Hhas; [discriminate|].
  intros [= <-]. unfold lookupA. simpl.
  rewrite lookupA_range_app by done. simpl.
  replace (AName (newARecord (addDot name) dst dyn)) with (addDot name)
    by (by destruct dyn, dst).
  by rewrite String.eqb_refl.
Qed.

(** What an A-typed call returns, from what [lookupA] finds. *)
Lemma Lookup_A_found (fuel : nat) (c : Config) (answers : list RR) (q : Question)
    (src : Addr) (rec : DynamicARR) :
  Qtype q = TypeA ->
  lookupA c (Q_Name q) = Some rec ->
  Lookup (S fuel) c answers q src
  = if Dynamic rec then
      match interfaceForRemote src with
      | inl ip =>
          Returns {| answers := answers ++ [RR_DynamicARR (setIP rec ip)];
                     err := nil; calls := [q] |}
      | inr _ =>
          Returns {| answers := answers; err := Some errInvalidParameter;
                     calls := [q] |}
      end
    else Returns {| answers := answers ++ [RR_DynamicARR rec]; err := nil;
                    calls := [q] |}.
Proof.
  intros Hq Hrec. cbn [Lookup]. rewrite Hq, Hrec. simpl.
  destruct (Dynamic rec); [|done]. unfold AddDynamicIP.
  by destruct (interfaceForRemote src).
Qed.

End LookupMore.

(** X4: insert, then look up (static record).  After
    [addARecord(name, ip, false)] has returned nil, an A-typed [Lookup] of
    the canonical name appends exactly one answer to the given ones, for
    every source address: the A record with that name, TTL 10 and the
    address [ip]; it reports no error. *)
Theorem add_then_lookup_static :
  forall (U : Util) (fuel : nat) (name : string) (ip : Go.IP)
         (c c' : MdnsDns.Config) (answers : list MdnsDns.RR) (class : Z)
         (src : Go.Addr),
    MdnsDns.addARecord name (Some ip) false c = Go.Returns (c', Go.nil) ->
    MdnsDns.Lookup (S fuel) c' answers
      {| dns.Q_Name := addDot name; dns.Qtype := dns.TypeA; dns.Qclass := class |} src
    = Go.Returns
        {| MdnsDns.answers :=
             answers
             ++ [MdnsDns.RR_DynamicARR
                   {| MdnsDns.A_ :=
                        {| dns.A_Hdr := {| dns.Name := addDot name; dns.Rrtype := 1;
                                           dns.Class := 1; dns.Ttl := 10;
                                           dns.Rdlength := 0 |};
                           dns.A_A := ip |};
                      MdnsDns.Dynamic := false |}];
           MdnsDns.err := Go.nil;
           MdnsDns.calls := [ {| dns.Q_Name := addDot name; dns.Qtype := dns.TypeA;
                                 dns.Qclass := class |} ] |}.
Proof.
  intros U fuel name ip c c' answers class src Hadd.
  apply addARecord_lookupA in Hadd.
  by erewrite Lookup_A_found; [|reflexivity|exact Hadd].
Qed.

Lemma add_then_lookup_static_witness :
  MdnsDns.addARecord "printer.local" (Some [10; 0; 0; 5]%Z) false MdnsDns.emptyConfig
  = Go.Returns (Fixture.printerStore, Go.nil)
  /\
  @MdnsDns.Lookup Fixture.util 1 Fixture.printerStore []
    {| dns.Q_Name := addDot "printer.local"; dns.Qtype := dns.TypeA; dns.Qclass := 1 |}
    Fixture.peer
  = Go.Returns
      {| MdnsDns.answers :=
           [] ++ [MdnsDns.RR_DynamicARR
                    {| MdnsDns.A_ :=
                         {| dns.A_Hdr := {| dns.Name := addDot "printer.local";
                                            dns.Rrtype := 1; dns.Class := 1;
                                            dns.Ttl := 10; dns.Rdlength := 0 |};
                            dns.A_A := [10; 0; 0; 5]%Z |};
                       MdnsDns.Dynamic := false |}];
         MdnsDns.err := Go.nil;
         MdnsDns.calls := [ {| dns.Q_Name := addDot "printer.local";
                               dns.Qtype := dns.TypeA; dns.Qclass := 1 |} ] |}.
Proof.
  split; [reflexivity|].
  apply (add_then_lookup_static Fixture.util 0 "printer.local" [10; 0; 0; 5]%Z
           MdnsDns.emptyConfig Fixture.printerStore [] 1 Fixture.peer).
  reflexivity.
Defined.

(** X5: insert, then look up (dynamic record).  After [addARecord] with
    [dyn] true, or without an address, has returned nil, an A-typed
    [Lookup] of the canonical name answers with the address the interface
    resolver gives for the source of the question; when the resolver
    fails, [Lookup] returns [errInvalidParameter] and appends nothing. *)
Theorem add_then_lookup_dynamic :
  forall (U : Util) (fuel : nat) (name : string) (dst : option Go.IP) (dyn : bool)
         (c c' : MdnsDns.Config) (answers : list MdnsDns.RR) (class : Z)
         (src : Go.Addr),
    dyn = true \/ dst = None ->
    MdnsDns.addARecord name dst dyn c = Go.Returns (c', Go.nil) ->
    MdnsDns.Lookup (S fuel) c' answers
      {| dns.Q_Name := addDot name; dns.Qtype := dns.TypeA; dns.Qclass := class |} src
    = match interfaceForRemote src with
      | inl ip =>
          Go.Returns
            {| MdnsDns.answers :=
                 answers
                 ++ [MdnsDns.RR_DynamicARR
                       {| MdnsDns.A_ :=
                            {| dns.A_Hdr := {| dns.Name := addDot name; dns.Rrtype := 1;
                                               dns.Class := 1; dns.Ttl := 10;
                                               dns.Rdlength := 0 |};
                               dns.A_A := ip |};
                          MdnsDns.Dynamic := true |}];
               MdnsDns.err := Go.nil;
               MdnsDns.calls := [ {| dns.Q_Name := addDot name; dns.Qtype := dns.TypeA;
                                     dns.Qclass := class |} ] |}
      | inr _ =>
          Go.Returns
            {| MdnsDns.answers := answers;
               MdnsDns.err := Some Go.errInvalidParameter;
               MdnsDns.calls := [ {| dns.Q_Name := addDot name; dns.Qtype := dns.TypeA;
                                     dns.Qclass := class |} ] |}
      end.
Proof.
  intros U fuel name dst dyn c c' answers class src Hdyn Hadd.
  apply addARecord_lookupA in Hadd.
  erewrite Lookup_A_found; [|reflexivity|exact Hadd].
  destruct Hdyn as [->| ->]; [by destruct dst|by destruct dyn].
Qed.

Lemma add_then_lookup_dynamic_witness :
  @MdnsDns.Lookup Fixture.util 1
    (MdnsDns.setARecords MdnsDns.emptyConfig [Fixture.named "host.local."]) []
    {| dns.Q_Name := addDot "host.local"; dns.Qtype := dns.TypeA; dns.Qclass := 1 |}
    Fixture.peer
  = match @interfaceForRemote Fixture.util Fixture.peer with
    | inl ip =>
        Go.Returns
          {| MdnsDns.answers :=
               [] ++ [MdnsDns.RR_DynamicARR
                        {| MdnsDns.A_ :=
                             {| dns.A_Hdr := {| dns.Name := addDot "host.local";
                                                dns.Rrtype := 1; dns.Class := 1;
                                                dns.Ttl := 10; dns.Rdlength := 0 |};
                                dns.A_A := ip |};
                           MdnsDns.Dynamic := true |}];
             MdnsDns.err := Go.nil;
             MdnsDns.calls := [ {| dns.Q_Name := addDot "host.local";
                                   dns.Qtype := dns.TypeA; dns.Qclass := 1 |} ] |}
    | inr _ =>
        Go.Returns
          {| MdnsDns.answers := [];
             MdnsDns.err := Some Go.errInvalidParameter;
             MdnsDns.calls := [ {| dns.Q_Name := addDot "host.local";
                                   dns.Qtype := dns.TypeA; dns.Qclass := 1 |} ] |}
    end.
Proof.
  apply (add_then_lookup_dynamic Fixture.util 0 "host.local" None true
           MdnsDns.emptyConfig _ [] 1 Fixture.peer); [by left|reflexivity].
Defined.

(** X6: the first record of a name wins, and an add leaves every other
    lookup alone.  Whatever [addARecord] returns, a name [lookupA] found
    before is found after, with the same record; the A lookups of every
    name other than the canonical form of the added one, and all SRV
    lookups, are unchanged. *)
Theorem addARecord_keeps_lookups :
  forall (name : string) (dst : option Go.IP) (dyn : bool)
         (c c' : MdnsDns.Config) (e : Go.error),
    MdnsDns.addARecord name dst dyn c = Go.Returns (c', e) ->
    (forall n r, MdnsDns.lookupA c n = Some r -> MdnsDns.lookupA c' n = Some r)
    /\ (forall n, n <> addDot name -> MdnsDns.lookupA c' n = MdnsDns.lookupA c n)
    /\ (forall n, MdnsDns.lookupSRV c' n = MdnsDns.lookupSRV c n).
Proof.
  intros name dst dyn c c' e. rewrite addARecord_cases.
  destruct (String.eqb name EmptyString); [by intros [= <- _]|].
  destruct (Store.hasAName (addDot name) c); [by intros [= <- _]|].
  intros [= <- _]. unfold MdnsDns.lookupA, MdnsDns.lookupSRV. simpl.
  split; [intros n r; apply lookupA_range_found_app|]. split; [|done].
  intros n Hn. apply lookupA_range_other.
  replace (MdnsDns.AName (Store.newARecord (addDot name) dst dyn)) with (addDot name)
    by (by destruct dyn, dst).
  congruence.
Qed.

Lemma addARecord_keeps_lookups_witness :
  MdnsDns.addARecord "host.local" None true Fixture.printerStore
  = Go.Returns
      (MdnsDns.setARecords Fixture.printerStore
         (MdnsDns.ARecords Fixture.printerStore ++ [Fixture.named "host.local."]),
       Go.nil)
  /\ (forall n r,
        MdnsDns.lookupA Fixture.printerStore n = Some r ->
        MdnsDns.lookupA
          (MdnsDns.setARecords Fixture.printerStore
             (MdnsDns.ARecords Fixture.printerStore ++ [Fixture.named "host.local."]))
          n = Some r)
  /\ (forall n,
        n <> addDot "host.local" ->
        MdnsDns.lookupA
          (MdnsDns.setARecords Fixture.printerStore
             (MdnsDns.ARecords Fixture.printerStore ++ [Fixture.named "host.local."]))
          n = MdnsDns.lookupA Fixture.printerStore n)
  /\ (forall n,
        MdnsDns.lookupSRV
          (MdnsDns.setARecords Fixture.printerStore
             (MdnsDns.ARecords Fixture.printerStore ++ [Fixture.named "host.local."]))
          n = MdnsDns.lookupSRV Fixture.printerStore n).
Proof.
  split; [reflexivity|].
  apply (addARecord_keeps_lookups "host.local" None true Fixture.printerStore _ Go.nil).
  reflexivity.
Defined.

(** X7: removing a name no record carries.  [removeARecord] returns
    [errRecordNotFound], does not panic and leaves the store as it was;
    so does [removeSRVRecord].  The comparison is with the name as given. *)
Theorem remove_absent_name :
  forall (name : string) (c : MdnsDns.Config),
    (name ∉ Store.ANames c ->
     MdnsDns.removeARecord name c = Go.Returns (c, Some Go.errRecordNotFound))
    /\ (name ∉ Store.SRVNames c ->
        MdnsDns.removeSRVRecord name c = Go.Returns (c, Some Go.errRecordNotFound)).
Proof.
  intros name c. split; intros Hno.
  - apply removeARecord_absent. intros x Hx. apply String.eqb_neq. intros <-.
    apply Hno. unfold Store.ANames. by apply list_elem_of_fmap_2.
  - apply removeSRVRecord_absent. intros x Hx. apply String.eqb_neq. intros <-.
    apply Hno. unfold Store.SRVNames. by apply list_elem_of_fmap_2.
Qed.

Lemma remove_absent_name_witness :
  MdnsDns.removeARecord "printer.local" Fixture.printerStore
  = Go.Returns (Fixture.printerStore, Some Go.errRecordNotFound)
  /\ MdnsDns.removeSRVRecord "printer.local" Fixture.printerStore
     = Go.Returns (Fixture.printerStore, Some Go.errRecordNotFound).
Proof.
  destruct (remove_absent_name "printer.local" Fixture.printerStore) as [HA HS].
  split.
  - apply HA. intros Hin. apply list_elem_of_singleton in Hin. discriminate.
  - apply HS. apply not_elem_of_nil.
Defined.



(** ** What [Lookup] adds to the answers *)

Section LookupShape.
Import Go dns MdnsDns.
Context `{Util}.

Lemma lookupA_range_elem (recs : list DynamicARR) (name : string) (r : DynamicARR) :
  lookupA_range recs name = Some r -> r ∈ recs /\ AName r = name.
Proof.
  induction recs as [|x recs IH]; simpl; [done|].
  destruct (String.eqb (AName x) name) eqn:E.
  - intros [= ->]. split; [left|by apply String.eqb_eq].
  - intros Hr. destruct (IH Hr) as [? ?]. split; [by right|done].
Qed.

Lemma lookupSRV_range_elem (recs : list SRV) (name : string) (r : SRV) :
  lookupSRV_range recs name = Some r -> r ∈ recs /\ SRVName r = name.
Proof.
  induction recs as [|x recs IH]; simpl; [done|].
  destruct (String.eqb (SRVName x) name) eqn:E.
  - intros [= ->]. split; [left|by apply String.eqb_eq].
  - intros Hr. destruct (IH Hr) as [? ?]. split; [by right|done].
Qed.

Lemma Lookup_A_shape (fuel : nat) (c : Config) (answers : list RR) (q : Question)
    (src : Addr) :
  Qtype q = TypeA ->
  exists r added,
    Lookup (S fuel) c answers q src = Returns r
    /\ MdnsDns.answers r = answers ++ added
    /\ length added <= 1
    /\ (err r = nil \/ err r = Some errInvalidParameter /\ added = [])
    /\ Forall (Store.fromStore c) added.
Proof.
  intros Hq. simpl. rewrite Hq. simpl.
  destruct (lookupA c (Q_Name q)) as [rec|] eqn:HA.
  - apply lookupA_range_elem in HA as [Hin _].
    destruct (Dynamic rec) eqn:Hdyn.
    + unfold AddDynamicIP. destruct (interfaceForRemote src) as [ip|e].
      * eexists _, [_]. split; [done|]. simpl. split; [done|]. split; [lia|].
        split; [by left|]. constructor; [|done]. exists rec. split; [done|].
        right. split; [done|]. by exists ip.
      * eexists _, []. split; [done|]. simpl. rewrite app_nil_r.
        split; [done|]. split; [lia|]. split; [by right|done].
    + eexists _, [_]. split; [done|]. simpl. split; [done|]. split; [lia|].
      split; [by left|]. constructor; [|done]. exists rec. split; [done|]. by left.
  - eexists _, []. split; [done|]. simpl. rewrite app_nil_r.
    split; [done|]. split; [lia|]. split; [by left|done].
Qed.

Lemma Lookup_appends_shape (fuel : nat) (c : Config) (answers : list RR) (q : Question)
    (src : Addr) :
  exists r added,
    Lookup (S (S fuel)) c answers q src = Returns r
    /\ MdnsDns.answers r = answers ++ added
    /\ length added <= 2
    /\ Forall (Store.fromStore c) added.
Proof.
  destruct (Z.eqb (Qtype q) TypeA) eqn:EA.
  - apply Z.eqb_eq in EA.
    destruct (Lookup_A_shape (S fuel) c answers q src EA)
      as (r & added & Hr & Hans & Hlen & _ & Hfrom).
    exists r, added. split; [done|]. split; [done|]. split; [lia|done].
  - apply Z.eqb_neq in EA.
    destruct (Z.eqb (Qtype q) TypeSRV) eqn:ES.
    + apply Z.eqb_eq in ES.
      destruct (lookupSRV c (Q_Name q)) as [rec|] eqn:HS.
      * rewrite (Lookup_SRV_unfold fuel c answers q src rec ES HS).
        destruct (Lookup_A_shape 0 c (answers ++ [RR_SRV rec])
                    {| Q_Name := Target rec; Qtype := TypeA;
                       Qclass := Class (SRV_Hdr rec) |} src eq_refl)
          as (r & added & Hr & Hans & Hlen & _ & Hfrom).
        rewrite Hr. eexists _, (RR_SRV rec :: added).
        split; [done|]. simpl. rewrite Hans, <- app_assoc.
        split; [done|]. split; [lia|].
        constructor; [|done]. simpl.
        by apply lookupSRV_range_elem in HS as [? _].
      * rewrite Lookup_no_match; [|done|done].
        eexists _, []. simpl. rewrite app_nil_r. split; [done|]. split; [done|].
        split; [lia|done].
    + apply Z.eqb_neq in ES.
      rewrite Lookup_no_match; [|done|done].
      eexists _, []. simpl. rewrite app_nil_r. split; [done|]. split; [done|].
      split; [lia|done].
Qed.

End LookupShape.

(** X9: what one [Lookup] can do to the answers.  With room for the one
    nested call (fuel 2 or more) [Lookup] returns for every store, question
    and source; it only appends to [answers], at most two records (at most
    one for a question of type A, none for a type other than A and SRV);
    every appended record is a record of the store (a dynamic A record
    with the address of the interface written into it); and the only
    error it returns is [errInvalidParameter]. *)
Theorem Lookup_appends_store_records :
  forall (U : Util) (fuel : nat) (c : MdnsDns.Config) (answers : list MdnsDns.RR)
         (q : dns.Question) (src : Go.Addr),
    exists r added,
      MdnsDns.Lookup (S (S fuel)) c answers q src = Go.Returns r
      /\ MdnsDns.answers r = answers ++ added
      /\ length added <= 2
      /\ (dns.Qtype q = dns.TypeA -> length added <= 1)
      /\ (dns.Qtype q <> dns.TypeA -> dns.Qtype q <> dns.TypeSRV ->
          added = [] /\ MdnsDns.err r = Go.nil)
      /\ (MdnsDns.err r = Go.nil \/ MdnsDns.err r = Some Go.errInvalidParameter)
      /\ Forall (Store.fromStore c) added.
Proof.
  intros U fuel c answers q src.
  destruct (Z.eqb (dns.Qtype q) dns.TypeA) eqn:EA.
  - apply Z.eqb_eq in EA.
    destruct (Lookup_A_shape (S fuel) c answers q src EA)
      as (r & added & Hr & Hans & Hlen & Herr & Hfrom).
    exists r, added. split; [done|]. split; [done|]. split; [lia|].
    split; [done|]. split; [congruence|]. split; [|done].
    destruct Herr as [?|[? _]]; [by left|by right].
  - destruct (Z.eqb (dns.Qtype q) dns.TypeSRV) eqn:ES.
    + apply Z.eqb_eq in ES. apply Z.eqb_neq in EA.
      destruct (MdnsDns.lookupSRV c (dns.Q_Name q)) as [rec|] eqn:HS.
      * rewrite (Lookup_SRV_unfold fuel c answers q src rec ES HS).
        destruct (Lookup_A_shape 0 c (answers ++ [MdnsDns.RR_SRV rec])
                    {| dns.Q_Name := dns.Target rec; dns.Qtype := dns.TypeA;
                       dns.Qclass := dns.Class (dns.SRV_Hdr rec) |} src eq_refl)
          as (r & added & Hr & Hans & Hlen & Herr & Hfrom).
        rewrite Hr. eexists _, (MdnsDns.RR_SRV rec :: added).
        split; [done|]. simpl. rewrite Hans, <- app_assoc.
        split; [done|]. split; [lia|]. split; [done|]. split; [done|].
        split; [destruct Herr as [?|[? _]]; [by left|by right]|].
        constructor; [|done]. simpl.
        by apply lookupSRV_range_elem in HS as [? _].
      * rewrite Lookup_no_match; [|done|done].
        eexists _, []. simpl. rewrite app_nil_r. split; [done|]. split; [done|].
        split; [lia|]. split; [done|]. split; [done|]. split; [by left|done].
    + apply Z.eqb_neq in EA, ES.
      rewrite Lookup_no_match; [|done|done].
      eexists _, []. simpl. rewrite app_nil_r. split; [done|]. split; [done|].
      split; [lia|]. split; [lia|]. split; [done|]. split; [by left|done].
Qed.

(** X10: a question of type SRV for a stored SRV record.  [Lookup]
    appends the SRV record and looks its target up as a question of type
    A: without an A record of that name the SRV record is the whole
    answer; a static A record follows it as stored; a dynamic one follows
    it with the address of the interface towards [src], and when no such
    interface is found the call returns [errInvalidParameter] with the
    SRV record already appended. *)
Theorem Lookup_SRV_outcomes :
  forall (U : Util) (fuel : nat) (c : MdnsDns.Config) (answers : list MdnsDns.RR)
         (q : dns.Question) (src : Go.Addr) (rec : dns.SRV),
    dns.Qtype q = dns.TypeSRV ->
    MdnsDns.lookupSRV c (dns.Q_Name q) = Some rec ->
    exists r,
      MdnsDns.Lookup (S (S fuel)) c answers q src = Go.Returns r /\
      match MdnsDns.lookupA c (dns.Target rec) with
      | None =>
          MdnsDns.answers r = answers ++ [MdnsDns.RR_SRV rec]
          /\ MdnsDns.err r = Go.nil
      | Some a =>
          if MdnsDns.Dynamic a then
            match interfaceForRemote src with
            | inl ip =>
                MdnsDns.answers r
                = answers ++ [MdnsDns.RR_SRV rec;
                              MdnsDns.RR_DynamicARR (MdnsDns.setIP a ip)]
                /\ MdnsDns.err r = Go.nil
            | inr _ =>
                MdnsDns.answers r = answers ++ [MdnsDns.RR_SRV rec]
                /\ MdnsDns.err r = Some Go.errInvalidParameter
            end
          else
            MdnsDns.answers r
            = answers ++ [MdnsDns.RR_SRV rec; MdnsDns.RR_DynamicARR a]
            /\ MdnsDns.err r = Go.nil
      end.
Proof.
  intros U fuel c answers q src rec Hq HS.
  rewrite (Lookup_SRV_unfold fuel c answers q src rec Hq HS).
  simpl. destruct (MdnsDns.lookupA c (dns.Target rec)) as [a|]; simpl.
  - destruct (MdnsDns.Dynamic a); simpl.
    + unfold MdnsDns.AddDynamicIP. destruct (interfaceForRemote src) as [ip|e]; simpl.
      * eexists. split; [done|]. simpl. by rewrite <- app_assoc.
      * eexists. split; [done|]. done.
    + eexists. split; [done|]. simpl. by rewrite <- app_assoc.
  - eexists. split; [done|]. done.
Qed.

Lemma Lookup_SRV_outcomes_witness :
  exists r,
    @MdnsDns.Lookup Fixture.util 2
      (MdnsDns.setARecords Fixture.serviceStore [Fixture.named "node.local."]) []
      {| dns.Q_Name := "_svc._tcp.local."; dns.Qtype := dns.TypeSRV;
         dns.Qclass := dns.ClassINET |} Fixture.peer
    = Go.Returns r
    /\ MdnsDns.answers r
       = [] ++ [MdnsDns.RR_SRV Fixture.serviceRecord;
                MdnsDns.RR_DynamicARR
                  (MdnsDns.setIP (Fixture.named "node.local.") [192; 168; 1; 7]%Z)]
    /\ MdnsDns.err r = Go.nil.
Proof.
  exact (Lookup_SRV_outcomes Fixture.util 0
           (MdnsDns.setARecords Fixture.serviceStore [Fixture.named "node.local."]) []
           {| dns.Q_Name := "_svc._tcp.local."; dns.Qtype := dns.TypeSRV;
              dns.Qclass := dns.ClassINET |} Fixture.peer Fixture.serviceRecord
           eq_refl eq_refl).
Defined.

(** ** The engine over whole runs *)

Section EngineRuns.
Import Go dns MdnsDns Registry Engine.
Context `{Util} `{WireCodec (Msg RR)}.


Lemma filter_sublist {A} (f : A -> bool) (l : list A) : List.filter f l `sublist_of` l.
Proof.
  induction l as [|x l IH]; simpl; [done|].
  destruct (f x); [by apply sublist_skip|by apply sublist_cons].
Qed.






Lemma processQuestions_range_shape (fuel : nat) (c : Conn) (msg : Msg RR) (src : Addr)
    (qs : list Question) :
  exists es,
    processQuestions_range (S (S fuel)) c msg src qs = Returns es
    /\ length es <= length qs
    /\ Forall (isResponse (config c) (dstAddr c) msg) es.
Proof.
  induction qs as [|q qs (es' & IH & Hlen & Hall)].
  - by exists [].
  - destruct (Lookup_appends_shape fuel (config c) [] q src)
      as (r & added & Hr & Hans & Hlen2 & Hfrom).
    cbn [processQuestions_range]. rewrite Hr.
    unfold mbind, exec_bind. cbn [Go.bind]. rewrite IH.
    eexists. split; [done|].
    destruct (err r); simpl.
    + split; [lia|done].
    + unfold sendAnswer.
      destruct (Pack (createAnswerMessage msg (answers r))) as [raw|e] eqn:HP; simpl.
      * split; [lia|]. constructor; [|done].
        exists (answers r), raw. rewrite Hans in *. by simpl.
      * split; [lia|done].
Qed.




End EngineRuns.

(** X11: what [processQuestions] sends.  For every store, message and
    source it returns (with room for the nested [Lookup]); it writes at
    most one datagram per question, each to the destination address of
    the connection and never to the asker [src]; and each datagram is the
    packed form of a response that echoes the id of [msg], has the QR and
    AA bits set, no question section, and as answers at most two records
    of the store. *)
Theorem processQuestions_responses :
  forall (U : Util) (W : WireCodec (dns.Msg MdnsDns.RR)) (fuel : nat)
         (c : MdnsDns.Conn) (msg : dns.Msg MdnsDns.RR) (src : Go.Addr),
    exists es,
      MdnsDns.processQuestions (S (S fuel)) c msg src = Go.Returns es
      /\ length es <= length (dns.Questions msg)
      /\ Forall (fun e =>
           exists (m : dns.Msg MdnsDns.RR) (raw : list Z),
             e = MdnsDns.WriteTo raw (MdnsDns.dstAddr c)
             /\ Pack m = inl raw
             /\ dns.Id (dns.Hdr m) = dns.Id (dns.Hdr msg)
             /\ dns.Response (dns.Hdr m) = true
             /\ dns.Authoritative (dns.Hdr m) = true
             /\ dns.Questions m = []
             /\ length (dns.Answer m) <= 2
             /\ Forall (Store.fromStore (MdnsDns.config c)) (dns.Answer m)) es.
Proof.
  intros U W fuel c msg src.
  destruct (processQuestions_range_shape fuel c msg src (dns.Questions msg))
    as (es & Hes & Hlen & Hall).
  exists es. split; [exact Hes|]. split; [exact Hlen|].
  eapply Forall_impl; [exact Hall|].
  intros e (answer & raw & -> & HP & Hl & Hfrom).
  exists (MdnsDns.createAnswerMessage msg answer), raw. by simpl.
Qed.



(** ** Answers and the registry *)

Section AnswersMore.
Import Go dns MdnsDns Registry Engine.

Lemma deliveries_none (res : QueryResult) (rrs : list RR) (qs : list query) :
  (forall q, q ∈ qs -> answeredByAny rrs q = false) ->
  deliveries res rrs qs = [].
Proof.
  revert qs. induction rrs as [|a rrs IH]; intros qs Hno; simpl; [done|].
  assert (Ha : forall q, q ∈ qs -> answeredBy a q = false).
  { intros q Hq. specialize (Hno q Hq). simpl in Hno.
    by apply orb_false_iff in Hno as [? _]. }
  assert (Hf : List.filter (answeredBy a) qs = []).
  { clear -Ha. induction qs as [|q qs IHq]; simpl; [done|].
    rewrite Ha by left. apply IHq. intros q' Hq'. apply Ha. by right. }
  assert (Hg : List.filter (fun q => negb (answeredBy a q)) qs = qs).
  { clear -Ha. induction qs as [|q qs IHq]; simpl; [done|].
    rewrite Ha by left. simpl. f_equal. apply IHq. intros q' Hq'. apply Ha. by right. }
  rewrite Hf, Hg. simpl. apply IH. intros q Hq. specialize (Hno q Hq). simpl in Hno.
  by apply orb_false_iff in Hno as [_ ?].
Qed.

Lemma filter_fixed {A} (f : A -> bool) (l : list A) :
  (forall x, x ∈ l -> f x = true) -> List.filter f l = l.
Proof.
  induction l as [|x l IH]; intros Hall; simpl; [done|].
  rewrite Hall by left. f_equal. apply IH. intros y Hy. apply Hall. by right.
Qed.

Lemma filter_elem {A} (f : A -> bool) (l : list A) (x : A) :
  x ∈ List.filter f l <-> x ∈ l /\ f x = true.
Proof.
  induction l as [|y l IH]; simpl.
  - split; [by intros ?%elem_of_nil|by intros [?%elem_of_nil _]].
  - destruct (f y) eqn:E.
    + rewrite !elem_of_cons, IH. split.
      * intros [->|[? ?]]; [by split; [left|]|by split; [right|]].
      * intros [[->|?] ?]; [by left|by right].
    + rewrite elem_of_cons, IH. split.
      * intros [? ?]. by split; [right|].
      * intros [[->|?] ?]; [congruence|done].
Qed.

Lemma processAnswers_again (c : Conn) (msg : Msg RR) (src' : Addr) :
  processAnswers
    (setQueries c (List.filter (fun q => negb (answeredByAny (Answer msg) q)) (queries c)))
    msg src'
  = Returns
      (setQueries c (List.filter (fun q => negb (answeredByAny (Answer msg) q)) (queries c)),
       []).
Proof.
  set (qs' := List.filter (fun q => negb (answeredByAny (Answer msg) q)) (queries c)).
  assert (Hq : forall q, q ∈ qs' -> answeredByAny (Answer msg) q = false).
  { intros q [_ Hq]%filter_elem. by apply negb_true_iff in Hq. }
  unfold processAnswers. rewrite processAnswers_range_spec.
  cbn [queries setQueries].
  rewrite (deliveries_none _ _ qs' Hq).
  rewrite (filter_fixed (fun q => negb (answeredByAny (Answer msg) q)) qs').
  - done.
  - intros q Hin. by rewrite (Hq q Hin).
Qed.

End AnswersMore.

(** X14: a message is delivered once.  After [processAnswers] has
    handled the answers of a message, handling the same answers again,
    from whatever source, sends nothing and leaves the registry as it is:
    the queries the message answers are gone after the first pass. *)
Theorem processAnswers_delivers_once :
  forall (c c' : MdnsDns.Conn) (msg : dns.Msg MdnsDns.RR) (src src' : Go.Addr)
         (es : list MdnsDns.effect),
    MdnsDns.processAnswers c msg src = Go.Returns (c', es) ->
    MdnsDns.processAnswers c' msg src' = Go.Returns (c', []).
Proof.
  intros c c' msg src src' es Hfirst.
  unfold MdnsDns.processAnswers in Hfirst.
  rewrite processAnswers_range_spec in Hfirst. simpl in Hfirst.
  injection Hfirst as Hc _. subst c'. apply processAnswers_again.
Qed.

Lemma processAnswers_delivers_once_witness :
  MdnsDns.processAnswers Fixture.connWaiting Fixture.msgFourAnswers Fixture.peer
  = Go.Returns
      (MdnsDns.setQueries Fixture.connWaiting [],
       [MdnsDns.ChanSend 0 {| MdnsDns.answer := dns.Answer Fixture.msgFourAnswers;
                              MdnsDns.addr := Fixture.peer |}])
  /\ MdnsDns.processAnswers (MdnsDns.setQueries Fixture.connWaiting [])
       Fixture.msgFourAnswers Fixture.group
     = Go.Returns (MdnsDns.setQueries Fixture.connWaiting [], []).
Proof.
  split; [reflexivity|].
  apply (processAnswers_delivers_once Fixture.connWaiting _ Fixture.msgFourAnswers
           Fixture.peer Fixture.group
           [MdnsDns.ChanSend 0 {| MdnsDns.answer := dns.Answer Fixture.msgFourAnswers;
                                  MdnsDns.addr := Fixture.peer |}]).
  reflexivity.
Defined.

(** ** From the facade to the wire *)

Section Served.
Import Go dns MdnsDns Store.
Context `{Util} `{WireCodec (Msg RR)}.

Lemma onConfig_ok (f : Config -> exec (Config * error)) (c c' : Conn) (e : error) :
  ConnDns.onConfig f c = Returns (c', e) ->
  exists cfg, f (config c) = Returns (cfg, e) /\ c' = ConnDns.setConfig c cfg.
Proof.
  unfold ConnDns.onConfig. destruct (f (config c)) as [[cfg e']| |]; simpl; [|done..].
  intros [= <- <-]. by exists cfg.
Qed.

Lemma processQuestions_single (fuel : nat) (c : Conn) (msg : Msg RR) (src : Addr)
    (q : Question) (r : LookupResult) :
  Questions msg = [q] ->
  Lookup fuel (config c) [] q src = Returns r ->
  processQuestions fuel c msg src
  = Returns (match err r with
             | None => sendAnswer c (createAnswerMessage msg (answers r)) src
             | Some _ => []
             end).
Proof.
  intros Hq Hr. unfold processQuestions. rewrite Hq. cbn [processQuestions_range].
  rewrite Hr. unfold mbind, exec_bind. cbn [Go.bind]. by rewrite app_nil_r.
Qed.

End Served.

(** X15: a service added through the facade is served.  After
    [AddSRVRecord(name, ..., target)] and [AddARecord(target, ip, false)]
    have both returned nil, a message whose one question asks for the SRV
    record of the canonical name makes [processQuestions] write exactly
    one datagram, to the destination address of the connection: the
    response whose answers are the SRV record (TTL 0, the canonical
    target) followed by the A record of the target (TTL 10, address
    [ip]). *)
Theorem added_service_is_served :
  forall (U : Util) (W : WireCodec (dns.Msg MdnsDns.RR)) (fuel : nat)
         (c c1 c2 : MdnsDns.Conn) (name target : string) (priority weight port : Z)
         (ip : Go.IP) (msg : dns.Msg MdnsDns.RR) (src : Go.Addr) (qclass : Z)
         (raw : list Z),
    ConnDns.AddSRVRecord name priority weight port target c = Go.Returns (c1, Go.nil) ->
    ConnDns.AddARecord target (Some ip) false c1 = Go.Returns (c2, Go.nil) ->
    dns.Questions msg
    = [ {| dns.Q_Name := addDot name; dns.Qtype := dns.TypeSRV; dns.Qclass := qclass |} ] ->
    Pack (MdnsDns.createAnswerMessage msg
            [ MdnsDns.RR_SRV
                {| dns.SRV_Hdr := {| dns.Name := addDot name; dns.Rrtype := 33;
                                     dns.Class := 1; dns.Ttl := 0; dns.Rdlength := 0 |};
                   dns.Priority := priority; dns.Weight := weight; dns.Port := port;
                   dns.Target := addDot target |};
              MdnsDns.RR_DynamicARR
                {| MdnsDns.A_ :=
                     {| dns.A_Hdr := {| dns.Name := addDot target; dns.Rrtype := 1;
                                        dns.Class := 1; dns.Ttl := 10;
                                        dns.Rdlength := 0 |};
                        dns.A_A := ip |};
                   MdnsDns.Dynamic := false |} ]) = inl raw ->
    MdnsDns.processQuestions (S (S fuel)) c2 msg src
    = Go.Returns [MdnsDns.WriteTo raw (MdnsDns.dstAddr c)].
Proof.
  intros U W fuel c c1 c2 name target priority weight port ip msg src qclass raw
         HS HA Hq HP.
  apply onConfig_ok in HS as (cfg1 & HS & ->).
  apply onConfig_ok in HA as (cfg2 & HA & ->). simpl in HA.
  pose proof (addARecord_lookupA _ _ _ _ _ HA) as HlA.
  destruct (addARecord_ok_inv _ _ _ _ _ HA) as (arec & _ & Hsrv & _).
  pose proof HS as HS'. rewrite addSRVRecord_cases in HS'.
  destruct (String.eqb name EmptyString || String.eqb target EmptyString);
    [discriminate|].
  destruct (Store.hasSRVName (addDot name) (MdnsDns.config c)); [discriminate|].
  injection HS' as Hcfg1.
  assert (HlS : MdnsDns.lookupSRV cfg2 (addDot name)
                = Some (MdnsDns.createSRVRecord (addDot name) priority weight port
                          (addDot target)).1).
  { unfold MdnsDns.lookupSRV. rewrite Hsrv.
    apply (addSRVRecord_lookupSRV name priority weight port target
             (MdnsDns.config c) cfg1 _ HS); [by rewrite <- Hcfg1|done]. }
  erewrite (processQuestions_single (S (S fuel))); [|exact Hq|].
  2:{ erewrite Lookup_SRV_unfold; [|reflexivity|exact HlS].
      erewrite Lookup_A_found; [|reflexivity|exact HlA]. simpl. reflexivity. }
  simpl. unfold MdnsDns.sendAnswer.
  unfold Store.newARecord, dns.TypeSRV, dns.ClassINET, dns.TypeA, MdnsDns.responseTTL.
  cbn [negb]. by rewrite HP.
Qed.

Lemma added_service_is_served_witness :
  @MdnsDns.processQuestions Fixture.util Fixture.codec 2
    (ConnDns.setConfig
       (ConnDns.setConfig Fixture.conn Fixture.serviceStore)
       (MdnsDns.setARecords Fixture.serviceStore
          [Store.newARecord "node.local." (Some [10; 0; 0; 9]%Z) false]))
    {| dns.Hdr := dns.zeroHdr; dns.Compress := false;
       dns.Questions := [ {| dns.Q_Name := addDot "_svc._tcp.local";
                             dns.Qtype := dns.TypeSRV; dns.Qclass := 1 |} ];
       dns.Answer := []; dns.Ns := []; dns.Extra := [] |}
    Fixture.peer
  = Go.Returns [MdnsDns.WriteTo [0; 1; 0; 0; 2]%Z (MdnsDns.dstAddr Fixture.conn)].
Proof.
  apply (added_service_is_served Fixture.util Fixture.codec 0 Fixture.conn
           (ConnDns.setConfig Fixture.conn Fixture.serviceStore) _
           "_svc._tcp.local" "node.local" 0 0 8080 [10; 0; 0; 9]%Z _ Fixture.peer 1);
    reflexivity.
Defined.

(** ** Shutdown, retransmission and the way of an answer back *)

Section Lifecycle.
Import Go dns MdnsDns Registry Engine.
Context `{Util} `{WireCodec (Msg RR)}.

Lemma Start_stops (fuel : nat) (c : Conn) (evs later : list event) :
  Start fuel c (evs ++ CtxDone :: later) = Start fuel c (evs ++ [CtxDone]).
Proof.
  revert c. induction evs as [|[buf src|] evs IH]; intros c; [done| |done].
  cbn [app Start].
  destruct (if (0 <? length buf)%nat then Start_packet fuel c buf src
            else Returns (c, [])) as [[c1 es1]| |]; [|done..].
  unfold mbind, exec_bind. cbn [Go.bind]. by rewrite IH.
Qed.

Lemma Start_closes (fuel : nat) (c c' : Conn) (evs : list event) (es : list effect) :
  Start fuel c (evs ++ [CtxDone]) = Returns (c', es) -> closed c' = true.
Proof.
  revert c es. induction evs as [|[buf src|] evs IH]; intros c es.
  - by intros [= <- _].
  - cbn [app Start].
    destruct (if (0 <? length buf)%nat then Start_packet fuel c buf src
              else Returns (c, [])) as [[c1 es1]| |]; [|done..].
    unfold mbind, exec_bind. cbn [Go.bind].
    destruct (Start fuel c1 (evs ++ [CtxDone])) as [[c2 es2]| |] eqn:E; [|done..].
    cbn [Go.bind]. intros [= <- _]. by eapply IH.
  - by intros [= <- _].
Qed.




End Lifecycle.

(** X16: cancellation ends the service.  [Start] stops at the first
    cancellation it selects: what is queued behind it is never processed,
    and the connection it leaves is closed.  On that connection [Query]
    returns [errConnectionClosed] at once, registers nothing and sends
    nothing, and the goroutine of [QueryASync] only closes its result
    channel. *)
Theorem cancellation_ends_service :
  forall (U : Util) (W : WireCodec (dns.Msg MdnsDns.RR)) (fuel : nat)
         (c c' : MdnsDns.Conn) (evs later : list MdnsDns.event)
         (es : list MdnsDns.effect),
    MdnsDns.Start fuel c (evs ++ MdnsDns.CtxDone :: later) = Go.Returns (c', es) ->
    MdnsDns.Start fuel c (evs ++ [MdnsDns.CtxDone]) = Go.Returns (c', es)
    /\ MdnsDns.closed c' = true
    /\ forall (id : Z) (name : string) (ttype : Z) (sel : list MdnsDns.select_case),
         MdnsDns.Query id c' name ttype sel
         = (c', [], MdnsDns.Failed Go.errConnectionClosed)
         /\ ConnDns.QueryASync id c' name ttype sel = (c', [ConnDns.ResultsClose], true).
Proof.
  intros U W fuel c c' evs later es Hrun.
  rewrite Start_stops in Hrun. split; [exact Hrun|].
  pose proof (Start_closes _ _ _ _ _ Hrun) as Hcl. split; [exact Hcl|].
  intros id name ttype sel. unfold MdnsDns.Query, ConnDns.QueryASync.
  by rewrite Hcl.
Qed.

Lemma cancellation_ends_service_witness :
  @MdnsDns.Start Fixture.util Fixture.codec 2 Fixture.connWaiting
    ([MdnsDns.Packet (Fixture.datagram 0) Fixture.peer]
     ++ MdnsDns.CtxDone :: [MdnsDns.Packet (Fixture.datagram 1) Fixture.peer])
  = Go.Returns (MdnsDns.setClosed Fixture.connWaiting,
                [MdnsDns.WriteTo [0; 1; 0; 0; 0]%Z Fixture.group])
  /\ @MdnsDns.Start Fixture.util Fixture.codec 2 Fixture.connWaiting
       ([MdnsDns.Packet (Fixture.datagram 0) Fixture.peer] ++ [MdnsDns.CtxDone])
     = Go.Returns (MdnsDns.setClosed Fixture.connWaiting,
                   [MdnsDns.WriteTo [0; 1; 0; 0; 0]%Z Fixture.group])
  /\ MdnsDns.closed (MdnsDns.setClosed Fixture.connWaiting) = true
  /\ forall (id : Z) (name : string) (ttype : Z) (sel : list MdnsDns.select_case),
       @MdnsDns.Query Fixture.codec id (MdnsDns.setClosed Fixture.connWaiting)
         name ttype sel
       = (MdnsDns.setClosed Fixture.connWaiting, [],
          MdnsDns.Failed Go.errConnectionClosed)
       /\ @ConnDns.QueryASync Fixture.codec id (MdnsDns.setClosed Fixture.connWaiting)
            name ttype sel
          = (MdnsDns.setClosed Fixture.connWaiting, [ConnDns.ResultsClose], true).
Proof.
  split; [reflexivity|].
  apply (cancellation_ends_service Fixture.util Fixture.codec 2 Fixture.connWaiting _
           [MdnsDns.Packet (Fixture.datagram 0) Fixture.peer]
           [MdnsDns.Packet (Fixture.datagram 1) Fixture.peer]).
  reflexivity.
Defined.





(** ** [QueryASync] beside [Query] *)

Section Async.
Import Go dns MdnsDns ConnDns.
Context `{WireCodec (Msg RR)}.

(** What the goroutine does to [results] for the way the select ends. *)
Lemma QueryASync_select_spec (c : Conn) (name : string) (ttype : Z)
    (evs : list select_case) :
  QueryASync_select c name ttype evs
  = ((Did <$> (Query_select c name ttype evs).1)
     ++ match (Query_select c name ttype evs).2 with
        | Answered res => [ResultsSend res]
        | Failed _ => [ResultsClose]
        | Blocked => []
        end,
     match (Query_select c name ttype evs).2 with
     | Blocked => false
     | _ => true
     end).
Proof.
  induction evs as [|[id| |res|] evs IH]; simpl; try done.
  rewrite IH. destruct (Query_select c name ttype evs) as [es o]. simpl.
  by rewrite fmap_app, <- app_assoc.
Qed.

End Async.

(** X19: [QueryASync] is [Query] with a channel for the outcome.  The
    goroutine of [QueryASync] leaves the connection as [Query] does and
    has the same effects in the same order (ticker, questions); in
    addition, it sends the result on [results] exactly when [Query] would
    return it, closes [results] exactly when [Query] would return an
    error (whichever error it is), and does neither while [Query] would
    still be waiting. *)
Theorem QueryASync_mirrors_Query :
  forall (W : WireCodec (dns.Msg MdnsDns.RR)) (id : Z) (c : MdnsDns.Conn)
         (name : string) (ttype : Z) (evs : list MdnsDns.select_case),
    ConnDns.QueryASync id c name ttype evs
    = ((MdnsDns.Query id c name ttype evs).1.1,
       (ConnDns.Did <$> (MdnsDns.Query id c name ttype evs).1.2)
       ++ match (MdnsDns.Query id c name ttype evs).2 with
          | MdnsDns.Answered res => [ConnDns.ResultsSend res]
          | MdnsDns.Failed _ => [ConnDns.ResultsClose]
          | MdnsDns.Blocked => []
          end,
       match (MdnsDns.Query id c name ttype evs).2 with
       | MdnsDns.Blocked => false
       | _ => true
       end).
Proof.
  intros W id c name ttype evs.
  unfold ConnDns.QueryASync, MdnsDns.Query.
  destruct (MdnsDns.closed c); [done|].
  cbn [MdnsDns.makeChan]. rewrite QueryASync_select_spec.
  match goal with
  | |- context [MdnsDns.Query_select ?c1 ?n ?t ?l] =>
      destruct (MdnsDns.Query_select c1 n t l) as [es o]
  end.
  simpl. by rewrite fmap_app, <- app_assoc.
Qed.

(** ** discovery.go *)

Section Catalog.
Import Go dns MdnsDns Discovery.

Lemma collect_spec (answers : list RR) (dr : DiscoverySrvResult) :
  collect answers dr
  = {| Port := default (Port dr)
                 (last (omap (fun a => match a with
                                       | RR_SRV rr => Some (dns.Port rr)
                                       | _ => None
                                       end) answers));
       Addr := match last (omap (fun a => match a with
                                          | RR_A rr => Some (A_A rr)
                                          | _ => None
                                          end) answers) with
               | Some ip => Some ip
               | None => Addr dr
               end |}.
Proof.
  revert dr. induction answers as [|a answers IH]; intros dr; [by destruct dr|].
  cbn [collect]. rewrite IH. clear IH.
  destruct a as [r|rr|rr|h]; cbn [omap list_omap]; try done.
  - rewrite last_cons. simpl. f_equal. by destruct (last (omap _ answers)).
  - rewrite last_cons. simpl. f_equal. by destruct (last (omap _ answers)).
Qed.

End Catalog.

(** X20: what [FindCatalog] reports for a result.  The goroutine sends a
    discovery result only when the answers hold a record of dynamic type
    A and the last record of dynamic type SRV has a port other than 0;
    the result then carries the address of the last such A record and
    the port of the last SRV record.  In every other case the result
    channel is neither written nor closed. *)
Theorem FindCatalog_reports_last_address_and_port :
  forall (res : MdnsDns.QueryResult),
    Discovery.FindCatalog_select (Discovery.ResultsRecv (Some res))
    = match last (omap (fun a => match a with
                                 | MdnsDns.RR_A rr => Some (dns.A_A rr)
                                 | _ => None
                                 end) (MdnsDns.answer res)),
            last (omap (fun a => match a with
                                 | MdnsDns.RR_SRV rr => Some (dns.Port rr)
                                 | _ => None
                                 end) (MdnsDns.answer res)) with
      | Some ip, Some port =>
          if Z.eqb port 0 then []
          else [Discovery.Found {| Discovery.Port := port; Discovery.Addr := Some ip |}]
      | _, _ => []
      end.
Proof.
  intros res. unfold Discovery.FindCatalog_select. rewrite collect_spec. simpl.
  destruct (last (omap _ (MdnsDns.answer res))) as [ip|]; [|done].
  destruct (last (omap _ (MdnsDns.answer res))) as [port|]; simpl.
  - by destruct (Z.eqb port 0).
  - done.
Qed.

(** ** [Server] *)

Section ServerJoins.
Import Go dns MdnsDns ConnDns.
Context `{Net Iface}.

Lemma joinErrors_all (ifaces : list Iface) (n : nat) :
  Forall (fun i => JoinGroup i <> None) ifaces ->
  joinErrors ifaces n = n + length ifaces.
Proof.
  revert n. induction ifaces as [|i ifaces IH]; intros n Hall; simpl; [lia|].
  apply Forall_cons in Hall as [Hi Hall].
  destruct (JoinGroup i); [|done]. rewrite IH by done. lia.
Qed.

Lemma joinErrors_le (ifaces : list Iface) (n : nat) :
  joinErrors ifaces n <= n + length ifaces.
Proof.
  revert n. induction ifaces as [|i ifaces IH]; intros n; simpl; [lia|].
  destruct (JoinGroup i); [specialize (IH (S n))|specialize (IH n)]; lia.
Qed.

Lemma joinErrors_some (ifaces : list Iface) (n : nat) :
  Exists (fun i => JoinGroup i = None) ifaces ->
  joinErrors ifaces n < n + length ifaces.
Proof.
  revert n. induction ifaces as [|i ifaces IH]; intros n Hex; simpl.
  - by apply Exists_nil in Hex.
  - apply Exists_cons in Hex as [Hi|Hex].
    + rewrite Hi. pose proof (joinErrors_le ifaces n). lia.
    + destruct (JoinGroup i); [specialize (IH (S n) Hex)|specialize (IH n Hex)]; lia.
Qed.

End ServerJoins.

(** X21: when [Server] gives a connection.  A nil configuration is
    refused with [errNilConfig].  With the interfaces of the host listed,
    [Server] returns [errJoiningMulticastGroup] when the group could be
    joined on none of them (also when there is none); when it could be
    joined on at least one and the group address resolves, [Server]
    returns an open connection with the given store, an empty registry
    and the query interval of the configuration, or two seconds when the
    configuration says 0. *)
Theorem Server_outcomes :
  forall (Iface : Type) (N : ConnDns.Net Iface) (config : MdnsDns.Config)
         (ifaces : list Iface) (dst : Go.Addr),
    ConnDns.Interfaces = inl ifaces ->
    ConnDns.ResolveUDPAddr ConnDns.destinationAddress = inl dst ->
    ConnDns.Server None = inr (ConnDns.Own Go.errNilConfig)
    /\ (Forall (fun i => ConnDns.JoinGroup i <> None) ifaces ->
        ConnDns.Server (Some config) = inr (ConnDns.Own Go.errJoiningMulticastGroup))
    /\ (Exists (fun i => ConnDns.JoinGroup i = None) ifaces ->
        ConnDns.Server (Some config)
        = inl {| MdnsDns.config := config; MdnsDns.dstAddr := dst;
                 MdnsDns.queryInterval :=
                   if Z.eqb (MdnsDns.QueryInterval config) 0 then 2000000000%Z
                   else MdnsDns.QueryInterval config;
                 MdnsDns.queries := []; MdnsDns.closed := false;
                 MdnsDns.nextChan := 0 |}).
Proof.
  intros Iface N config ifaces dst Hif Hres. split; [done|].
  unfold ConnDns.Server. rewrite Hif. split.
  - intros Hall. rewrite (joinErrors_all ifaces 0 Hall). simpl.
    by rewrite Nat.leb_refl.
  - intros Hex. pose proof (joinErrors_some ifaces 0 Hex) as Hlt. simpl in Hlt.
    destruct (Nat.leb_spec (length ifaces) (ConnDns.joinErrors ifaces 0)); [lia|].
    rewrite Hres. by destruct (Z.eqb (MdnsDns.QueryInterval config) 0).
Qed.

Lemma Server_outcomes_witness :
  @ConnDns.Server nat Host.net None = inr (ConnDns.Own Go.errNilConfig)
  /\ (Forall (fun i => @ConnDns.JoinGroup nat Host.net i <> None) [0; 1] ->
      @ConnDns.Server nat Host.net (Some Host.config)
      = inr (ConnDns.Own Go.errJoiningMulticastGroup))
  /\ (Exists (fun i => @ConnDns.JoinGroup nat Host.net i = None) [0; 1] ->
      @ConnDns.Server nat Host.net (Some Host.config)
      = inl {| MdnsDns.config := Host.config;
               MdnsDns.dstAddr := "224.0.0.251:5353";
               MdnsDns.queryInterval :=
                 if Z.eqb (MdnsDns.QueryInterval Host.config) 0 then 2000000000%Z
                 else MdnsDns.QueryInterval Host.config;
               MdnsDns.queries := []; MdnsDns.closed := false;
               MdnsDns.nextChan := 0 |}).
Proof.
  apply (Server_outcomes nat Host.net Host.config [0; 1] "224.0.0.251:5353");
    reflexivity.
Defined.

(** ** The dnsmessage implementation: what its loop sends and delivers *)

Section EngineMsgMore.
Import Go dnsmessage MdnsMsg.
Context `{Util} `{ParserLib P}.

Lemma lookupSRV_old_elem (recs : list Resource) (name : string) (rec : Resource) :
  lookupSRV_range recs name = Some rec -> rec ∈ recs.
Proof.
  induction recs as [|x recs IH]; simpl; [done|].
  destruct (String.eqb (SRVName x) name).
  - intros [= ->]. left.
  - intros Hr. right. by apply IH.
Qed.

(** With no SRV record of header type SRV in the store, the nested call
    is of another type and [Lookup] returns. *)
Lemma Lookup_old_total (fuel : nat) (c : Config) (answers : list Resource)
    (name : string) (ttype class : Z) (src : Addr) :
  Forall (fun r => RH_Type (R_Header r) <> TypeSRV) (SRVRecords c) ->
  exists r, Lookup (S (S fuel)) c answers name ttype class src = Returns r.
Proof.
  intros Hinv. destruct (Z.eq_dec ttype TypeSRV) as [->|Hty].
  - destruct (lookupSRV c name) as [rec|] eqn:HS.
    + rewrite (Lookup_old_SRV_unfold _ _ _ _ _ _ _ HS).
      assert (Hrec : RH_Type (R_Header rec) <> TypeSRV).
      { apply (proj1 (Forall_forall _ _) Hinv). by apply lookupSRV_old_elem in HS. }
      destruct (Lookup_old_not_SRV_returns fuel c answers name (RH_Type (R_Header rec))
                  (RH_Class (R_Header rec)) src Hrec) as (r & Hr & _).
      rewrite Hr. by eexists.
    + cbn [Lookup]. rewrite HS. by eexists.
  - destruct (Lookup_old_not_SRV_returns (S fuel) c answers name ttype class src Hty)
      as (r & Hr & _).
    by exists r.
Qed.

Lemma start_questions_shape (fuel : nat) (c : Conn) (src : Addr) (p : P) (n : nat) :
  Forall (fun r => RH_Type (R_Header r) <> TypeSRV) (SRVRecords (config c)) ->
  exists po es,
    start_questions (S (S fuel)) c src p n = Returns (po, es)
    /\ length es <= n
    /\ Forall (fun e => exists raw, e = WriteTo raw (dstAddr c)
                                    /\ Message_Pack (createMessage []) = inl raw) es.
Proof.
  intros Hinv. revert p. induction n as [|n IH]; intros p.
  - exists (Some p), []. split; [done|]. split; [simpl; lia|done].
  - cbn [start_questions].
    destruct (Parser_Question p) as [p' [q|[|]]].
    + destruct (Lookup_old_total fuel (config c) [] (Q_Name q) (Q_Type q) (Q_Class q)
                  src Hinv) as (r & Hr).
      destruct (IH p') as (po & es' & Hrest & Hlen & Hall).
      rewrite Hr. unfold mbind, exec_bind. cbn [Go.bind]. rewrite Hrest. cbn [Go.bind].
      eexists _, _. split; [done|].
      destruct (err r); simpl.
      * split; [lia|done].
      * unfold sendAnswer.
        destruct (Message_Pack (createMessage [])) as [raw|e] eqn:HP; simpl.
        -- split; [lia|]. constructor; [by exists raw|done].
        -- split; [lia|done].
    + exists (Some p'), []. split; [done|]. split; [simpl; lia|done].
    + exists None, []. split; [done|]. split; [simpl; lia|done].
Qed.

Lemma removeQuery_old_middle (pre post : list query) (x : query) :
  removeQuery (pre ++ x :: post) (length pre) = pre ++ post.
Proof.
  unfold removeQuery. rewrite take_app_length.
  replace (length pre + 1) with (length (pre ++ [x])) by (rewrite length_app; simpl; lia).
  by rewrite (cons_middle x pre post), app_assoc, drop_app_length.
Qed.

Lemma deliver_old_spec (name : string) (rtype : Z) (res : queryResult)
    (pre post : list query) :
  deliver name rtype res (pre ++ post) (length pre)
  = Returns (List.filter (fun q => negb (queryMatches q name rtype)) pre ++ post,
             map (fun q => ChanSend (queryResultChan q) res)
                 (rev (List.filter (fun q => queryMatches q name rtype) pre))).
Proof.
  revert post. induction pre as [|x pre IH] using rev_ind; intros post; [done|].
  rewrite length_app. simpl length. rewrite Nat.add_1_r. cbn [deliver].
  rewrite <- app_assoc, <- cons_middle.
  unfold index at 1. rewrite list_lookup_middle by done. simpl.
  rewrite !List.filter_app. simpl List.filter.
  destruct (queryMatches x name rtype) eqn:Hx; simpl.
  - rewrite removeQuery_old_middle, IH. simpl.
    by rewrite rev_unit, app_nil_r.
  - rewrite IH, !app_nil_r. by rewrite <- app_assoc.
Qed.

Lemma start_answers_shape (src : Addr) (p : P) (n : nat) (qs : list query) :
  exists qs' es,
    start_answers src p n qs = Returns (qs', es)
    /\ qs' `sublist_of` qs
    /\ (forall q, q ∈ qs -> ttype q <> TypeA -> ttype q <> TypeAAAA -> q ∈ qs')
    /\ Forall (fun e => exists q res,
                 e = ChanSend (queryResultChan q) res /\ q ∈ qs
                 /\ (ttype q = TypeA \/ ttype q = TypeAAAA)) es.
Proof.
  revert p qs. induction n as [|n IH]; intros p qs.
  - by exists qs, [].
  - cbn [start_answers].
    destruct (Parser_AnswerHeader p) as [p' [a|e]]; [|by exists qs, []].
    destruct (negb (Z.eqb (RH_Type a) TypeA) && negb (Z.eqb (RH_Type a) TypeAAAA))
      eqn:Hty; [apply IH|].
    assert (Ha : RH_Type a = TypeA \/ RH_Type a = TypeAAAA).
    { apply andb_false_iff in Hty as [Hty|Hty]; apply negb_false_iff, Z.eqb_eq in Hty;
        [by left|by right]. }
    pose proof (deliver_old_spec (RH_Name a) (RH_Type a) {| answer := a; addr := src |}
                  qs []) as Hd.
    rewrite !app_nil_r in Hd. rewrite Hd.
    set (qs1 := List.filter (fun q => negb (queryMatches q (RH_Name a) (RH_Type a))) qs).
    destruct (IH p' qs1) as (qs' & es2 & Hrest & Hsub & Hkeep & Hall).
    unfold mbind, exec_bind. cbn [Go.bind]. rewrite Hrest. cbn [Go.bind].
    eexists _, _. split; [done|]. split; [|split].
    + etrans; [exact Hsub|apply filter_sublist].
    + intros q Hq HnA HnAAAA. apply Hkeep; [|done..].
      apply filter_elem. split; [done|]. apply negb_true_iff.
      unfold queryMatches. apply andb_false_iff. right. apply Z.eqb_neq.
      destruct Ha as [Ha|Ha]; by rewrite Ha.
    + apply Forall_app. split.
      * apply Forall_forall. intros e He.
        apply list_elem_of_fmap in He as (q & -> & Hq).
        apply list_elem_of_In, in_rev, list_elem_of_In, filter_elem in Hq as [Hq Hm].
        exists q, {| answer := a; addr := src |}. split; [done|]. split; [done|].
        unfold queryMatches in Hm. apply andb_true_iff in Hm as [_ Hm].
        apply Z.eqb_eq in Hm. by rewrite Hm.
      * eapply Forall_impl; [exact Hall|].
        intros e (q & res & -> & Hq & Hq'). exists q, res. split; [done|].
        split; [|done]. by apply filter_elem in Hq as [? _].
Qed.

Lemma omap_length_le {A B} (f : A -> option B) (l : list A) :
  length (omap f l) <= length l.
Proof.
  induction l as [|x l IH]; [done|].
  cbn [omap list_omap]. destruct (f x); simpl in *; lia.
Qed.



End EngineMsgMore.

(** X22: the responses of the dnsmessage implementation carry no record.
    With a store in which no SRV record has header type SRV (every store
    [AddSRVRecord] builds is one), the closure that [start] runs on a
    datagram returns; it writes at most two datagrams (one per question
    read), each to the destination address of the connection, and each is
    the packed form of the response built from the empty answer list:
    what [Lookup] appends stays in its own copy of the slice. *)
Theorem legacy_responses_carry_no_records :
  forall (U : Util) (P : Type) (PL : ParserLib P) (fuel : nat) (c : MdnsMsg.Conn)
         (buf : list Z) (src : Go.Addr),
    Forall (fun r => dnsmessage.RH_Type (dnsmessage.R_Header r) <> dnsmessage.TypeSRV)
           (MdnsMsg.SRVRecords (MdnsMsg.config c)) ->
    exists c' es,
      MdnsMsg.start_packet (S (S fuel)) c buf src = Go.Returns (c', es)
      /\ Forall (fun e =>
           match e with
           | MdnsMsg.WriteTo raw dst =>
               dst = MdnsMsg.dstAddr c
               /\ Message_Pack (MdnsMsg.createMessage []) = inl raw
           | MdnsMsg.ChanSend _ _ => True
           | _ => False
           end) es
      /\ length (omap (fun e => match e with
                               | MdnsMsg.WriteTo raw _ => Some raw
                               | _ => None
                               end) es) <= 2.
Proof.
  intros U P PL fuel c buf src Hinv. unfold MdnsMsg.start_packet.
  destruct (Parser_Start buf) as [[p h]|e]; [|by exists c, []; simpl; auto].
  destruct (start_questions_shape fuel c src p (S MdnsMsg.maxQueryMessageRecords) Hinv)
    as (po & es1 & Hq & Hlen & Hall).
  rewrite Hq. unfold mbind, exec_bind. cbn [Go.bind].
  assert (Hw : Forall (fun e =>
                 match e with
                 | MdnsMsg.WriteTo raw dst =>
                     dst = MdnsMsg.dstAddr c
                     /\ Message_Pack (MdnsMsg.createMessage []) = inl raw
                 | MdnsMsg.ChanSend _ _ => True
                 | _ => False
                 end) es1).
  { eapply Forall_impl; [exact Hall|]. by intros e (raw & -> & ?). }
  assert (Hn : length (omap (fun e => match e with
                                      | MdnsMsg.WriteTo raw _ => Some raw
                                      | _ => None
                                      end) es1) <= 2).
  { etrans; [apply omap_length_le|]. exact Hlen. }
  destruct po as [p'|]; [|by exists c, es1].
  destruct (start_answers_shape src p' (S MdnsMsg.maxMessageRecords) (MdnsMsg.queries c))
    as (qs & es2 & Ha & _ & _ & Hsend).
  rewrite Ha. cbn [Go.bind]. eexists _, _. split; [done|]. split.
  - apply Forall_app. split; [done|].
    eapply Forall_impl; [exact Hsend|]. by intros e (q & res & -> & _).
  - rewrite omap_app, length_app.
    assert (Hz : omap (fun e => match e with
                                | MdnsMsg.WriteTo raw _ => Some raw
                                | _ => None
                                end) es2 = []).
    { clear -Hsend. induction Hsend as [|e es (q & res & -> & _) _ IH]; [done|].
      simpl. exact IH. }
    rewrite Hz. simpl. lia.
Qed.

Lemma legacy_responses_carry_no_records_witness :
  exists c' es,
    @MdnsMsg.start_packet Fixture.util _ Fixture.parser 2 Fixture.oldConn
      (Fixture.datagram 0) Fixture.peer = Go.Returns (c', es)
    /\ Forall (fun e =>
         match e with
         | MdnsMsg.WriteTo raw dst =>
             dst = MdnsMsg.dstAddr Fixture.oldConn
             /\ @Message_Pack _ Fixture.parser (MdnsMsg.createMessage []) = inl raw
         | MdnsMsg.ChanSend _ _ => True
         | _ => False
         end) es
    /\ length (omap (fun e => match e with
                             | MdnsMsg.WriteTo raw _ => Some raw
                             | _ => None
                             end) es) <= 2.
Proof.
  apply (legacy_responses_carry_no_records Fixture.util _ Fixture.parser 0
           Fixture.oldConn (Fixture.datagram 0) Fixture.peer).
  simpl. constructor.
Defined.

(** X23: the dnsmessage implementation answers queries for addresses
    only.  The answer loop of [start] returns for every parser state and
    registry; it sends results only on the channels of registered queries
    of type A or AAAA, and every registered query of another type (SRV,
    which [Query] accepts and sends) is still registered afterwards,
    whatever the datagram holds. *)
Theorem legacy_answers_reach_address_queries_only :
  forall (P : Type) (PL : ParserLib P) (src : Go.Addr) (p : P) (n : nat)
         (qs : list MdnsMsg.query),
    exists qs' es,
      MdnsMsg.start_answers src p n qs = Go.Returns (qs', es)
      /\ qs' `sublist_of` qs
      /\ (forall q, q ∈ qs ->
            MdnsMsg.ttype q <> dnsmessage.TypeA ->
            MdnsMsg.ttype q <> dnsmessage.TypeAAAA -> q ∈ qs')
      /\ Forall (fun e => exists q res,
                   e = MdnsMsg.ChanSend (MdnsMsg.queryResultChan q) res /\ q ∈ qs
                   /\ (MdnsMsg.ttype q = dnsmessage.TypeA
                       \/ MdnsMsg.ttype q = dnsmessage.TypeAAAA)) es.
Proof.
  intros P PL src p n qs. apply start_answers_shape.
Qed.



(** ** The class of a question *)

(** X25: [Lookup] never looks at the class of the question.  Two
    questions with the same name and the same type get the same answers
    and the same error from the same store, whatever their classes. *)
Theorem Lookup_ignores_class :
  forall (U : Util) (fuel : nat) (c : MdnsDns.Config) (answers : list MdnsDns.RR)
         (q q' : dns.Question) (src : Go.Addr),
    dns.Q_Name q = dns.Q_Name q' ->
    dns.Qtype q = dns.Qtype q' ->
    exists r r',
      MdnsDns.Lookup (S (S fuel)) c answers q src = Go.Returns r
      /\ MdnsDns.Lookup (S (S fuel)) c answers q' src = Go.Returns r'
      /\ MdnsDns.answers r = MdnsDns.answers r'
      /\ MdnsDns.err r = MdnsDns.err r'.
Proof.
  intros U fuel c answers q q' src Hname Htype.
  destruct (Z.eqb (dns.Qtype q) dns.TypeA) eqn:EA.
  - apply Z.eqb_eq in EA. assert (EA' : dns.Qtype q' = dns.TypeA) by congruence.
    cbn [MdnsDns.Lookup]. rewrite EA, EA', <- Hname. simpl.
    destruct (MdnsDns.lookupA c (dns.Q_Name q)) as [rec|]; [|by eexists _, _].
    destruct (MdnsDns.Dynamic rec); [|by eexists _, _].
    destruct (MdnsDns.AddDynamicIP rec src) as [rec' [e|]]; by eexists _, _.
  - destruct (Z.eqb (dns.Qtype q) dns.TypeSRV) eqn:ES.
    + apply Z.eqb_eq in ES. assert (ES' : dns.Qtype q' = dns.TypeSRV) by congruence.
      destruct (MdnsDns.lookupSRV c (dns.Q_Name q)) as [rec|] eqn:HS.
      * rewrite (Lookup_SRV_unfold fuel c answers q src rec ES HS).
        rewrite Hname in HS.
        rewrite (Lookup_SRV_unfold fuel c answers q' src rec ES' HS).
        destruct (Lookup_A_shape 0 c (answers ++ [MdnsDns.RR_SRV rec])
                    {| dns.Q_Name := dns.Target rec; dns.Qtype := dns.TypeA;
                       dns.Qclass := dns.Class (dns.SRV_Hdr rec) |} src eq_refl)
          as (r & added & -> & _).
        by eexists _, _.
      * apply Z.eqb_neq in EA.
        rewrite !Lookup_no_match; [by eexists _, _| | | |]; try congruence.
    + apply Z.eqb_neq in EA, ES.
      rewrite !Lookup_no_match; [by eexists _, _| | | |]; congruence.
Qed.

Lemma Lookup_ignores_class_witness :
  exists r r',
    @MdnsDns.Lookup Fixture.util 2 Fixture.printerStore []
      {| dns.Q_Name := "printer.local."; dns.Qtype := dns.TypeA; dns.Qclass := 1 |}
      Fixture.peer = Go.Returns r
    /\ @MdnsDns.Lookup Fixture.util 2 Fixture.printerStore []
         {| dns.Q_Name := "printer.local."; dns.Qtype := dns.TypeA; dns.Qclass := 255 |}
         Fixture.peer = Go.Returns r'
    /\ MdnsDns.answers r = MdnsDns.answers r'
    /\ MdnsDns.err r = MdnsDns.err r'.
Proof.
  apply (Lookup_ignores_class Fixture.util 0 Fixture.printerStore []
           {| dns.Q_Name := "printer.local."; dns.Qtype := dns.TypeA; dns.Qclass := 1 |}
           {| dns.Q_Name := "printer.local."; dns.Qtype := dns.TypeA;
              dns.Qclass := 255 |} Fixture.peer); reflexivity.
Defined.
